(** * Curve Control: optimization coordinator and sampling scheduler

    A shallow embedding of the parts of
    [custom_components/curve_control/__init__.py] (class
    [CurveControlCoordinator]) and
    [custom_components/curve_control/data_collector.py] (class
    [DataCollector]) that the behavioural specification talks about,
    and of the mode selector of
    [custom_components/curve_control/select.py], followed by the
    theorems that settle the claims of the specification and by further
    properties of the code.

    Conventions of the embedding.
    - Python numbers (int and float alike) are exact rationals [Q]; the
      rounding of binary64 arithmetic is outside the model.
    - Python [str] values are [string]s of ASCII characters.
    - JSON documents and other dynamically typed values are [pyval]s.
    - A coroutine is run to completion as one atomic step of the event
      loop; the answer of every remote call is an argument of the step
      and every request that is issued is appended to a log. *)

From Stdlib Require Import ZArith QArith List String Ascii Bool Lia Lqa.
From Stdlib Require Import RelationClasses.
Import ListNotations.

Local Open Scope Z_scope.
Set Warnings "-register-all".

(* ================================================================= *)
(** ** Python values *)

Module Py.

(** Dynamically typed values: [None], booleans, numbers, strings, lists
    and string-keyed dictionaries (kept as the list of their items). *)
Inductive pyval : Type :=
| PNone
| PBool (b : bool)
| PNum (q : Q)
| PStr (s : string)
| PList (l : list pyval)
| PDict (d : list (string * pyval)).

(** The built-in exceptions the modelled code can meet, and the one it
    raises itself. *)
Inductive exn : Type :=
| ClientError
| TimeoutError
| ValueError
| TypeError
| AttributeError
| KeyError
| IndexError
| UpdateFailed.

(** [bool(v)]: the truth value used by [if v] and [not v]. *)
Definition truthy (v : pyval) : bool :=
  match v with
  | PNone => false
  | PBool b => b
  | PNum q => negb (Qeq_bool q 0)
  | PStr s => negb (String.eqb s "")
  | PList l => match l with [] => false | _ => true end
  | PDict d => match d with [] => false | _ => true end
  end.

(** [v is not None]. *)
Definition is_not_None (v : pyval) : bool :=
  match v with PNone => false | _ => true end.

(** [isinstance(v, dict)]. *)
Definition is_dict (v : pyval) : bool :=
  match v with PDict _ => true | _ => false end.

(** Lookup of a key among the items of a dictionary. *)
Fixpoint assoc (key : string) (d : list (string * pyval)) : option pyval :=
  match d with
  | [] => None
  | (k, v) :: d' => if String.eqb k key then Some v else assoc key d'
  end.

(** [d.get(key, default)] on the items of a dictionary. *)
Definition dict_get (d : list (string * pyval)) (key : string)
  (default : pyval) : pyval :=
  match assoc key d with Some v => v | None => default end.

(** [key in d]. *)
Definition dict_mem (d : list (string * pyval)) (key : string) : bool :=
  match assoc key d with Some _ => true | None => false end.

(** A value used as a number: [bool] is a subclass of [int]. *)
Definition as_number (v : pyval) : option Q :=
  match v with
  | PNum q => Some q
  | PBool b => Some (if b then 1%Q else 0%Q)
  | _ => None
  end.

(** [s[:n]] on a string. *)
Definition str_prefix (n : nat) (s : string) : string := substring 0 n s.

End Py.
Export Py.

(* ================================================================= *)
(** ** Results of computations that may raise *)

Inductive result (A : Type) : Type :=
| Ok (a : A)
| Err (e : exn).
Arguments Ok {A} a.
Arguments Err {A} e.

Definition rbind {A B : Type} (r : result A) (k : A -> result B) : result B :=
  match r with
  | Ok a => k a
  | Err e => Err e
  end.

Declare Scope result_scope.
Delimit Scope result_scope with result.
Notation "x <- r ;; k" := (rbind r (fun x => k))
  (at level 61, r at next level, right associativity) : result_scope.

(** [v + q] and [v - q] for a number [q]: a [TypeError] unless [v] is a
    number too. *)
Definition py_add (v : pyval) (q : Q) : result Q :=
  match as_number v with
  | Some x => Ok (x + q)%Q
  | None => Err TypeError
  end.

Definition py_sub (v : pyval) (q : Q) : result Q :=
  match as_number v with
  | Some x => Ok (x - q)%Q
  | None => Err TypeError
  end.

(** [range(n)]. *)
Definition range (n : Z) : list Z := map Z.of_nat (seq 0 (Z.to_nat n)).

(** A [for] loop over a list whose body may raise. *)
Fixpoint for_each {A St : Type} (l : list A) (body : A -> St -> result St)
  (st : St) : result St :=
  match l with
  | [] => Ok st
  | x :: l' => rbind (body x st) (for_each l' body)
  end.

(* ================================================================= *)
(** ** [datetime.strptime(s, "%H:%M")] *)

Module Strptime.

Definition is_digit (c : ascii) : bool :=
  let n := Z.of_nat (nat_of_ascii c) in (48 <=? n) && (n <=? 57).

Definition digit (c : ascii) : Z := Z.of_nat (nat_of_ascii c) - 48.

Definition between (lo hi c : ascii) : bool :=
  let n := nat_of_ascii c in
  (nat_of_ascii lo <=? n)%nat && (n <=? nat_of_ascii hi)%nat.

(** The regular expression of a directive gives, in the order in which
    the matcher tries its alternatives, the value read and the rest of
    the input. *)
Definition matcher : Type := list ascii -> list (Z * list ascii).

(** [%H] is [2[0-3]|[0-1]\d|\d]. *)
Definition re_H : matcher := fun s =>
  (match s with
   | a :: b :: r =>
       if Ascii.eqb a "2" && between "0" "3" b
       then [(10 * digit a + digit b, r)] else []
   | _ => []
   end) ++
  (match s with
   | a :: b :: r =>
       if between "0" "1" a && is_digit b
       then [(10 * digit a + digit b, r)] else []
   | _ => []
   end) ++
  (match s with
   | a :: r => if is_digit a then [(digit a, r)] else []
   | _ => []
   end).

(** [%M] is [[0-5]\d|\d]. *)
Definition re_M : matcher := fun s =>
  (match s with
   | a :: b :: r =>
       if between "0" "5" a && is_digit b
       then [(10 * digit a + digit b, r)] else []
   | _ => []
   end) ++
  (match s with
   | a :: r => if is_digit a then [(digit a, r)] else []
   | _ => []
   end).

(** The literal [:] between the two directives. *)
Definition re_colon (s : list ascii) : list (list ascii) :=
  match s with
  | c :: r => if Ascii.eqb c ":" then [r] else []
  | [] => []
  end.

(** All the ways [%H:%M] matches a prefix of the input, first match
    first. *)
Definition re_HM (s : list ascii) : list (Z * Z * list ascii) :=
  flat_map (fun '(h, r1) =>
    flat_map (fun r2 =>
      map (fun '(m, r3) => (h, m, r3)) (re_M r2)) (re_colon r1)) (re_H s).

(** [strptime]: the first match is taken; no match, or a match that
    leaves input unread ("unconverted data remains"), is a
    [ValueError]. *)
Definition strptime_HM (s : string) : result (Z * Z) :=
  match re_HM (list_ascii_of_string s) with
  | (hour, minute, []) :: _ => Ok (hour, minute)
  | _ => Err ValueError
  end.

End Strptime.

(* ================================================================= *)
(** ** Constants ([const.py]) *)

Definition INTERVALS_PER_DAY : Z := 48.
Definition DEADBAND_OFFSET : Q := 1.4%Q.
Definition COOLING_RATE_30MIN : Q := (-1.9335)%Q.
Definition HEATING_RATE_30MIN : Q := 1.25%Q.

(* ================================================================= *)
(** ** Schedule builder *)

(** [self.config]: a dictionary with a fixed set of keys.  The two time
    entries are always written as [str(...)[:5]], hence strings; the
    other entries hold whatever the config entry or a service call
    supplied. *)
Record Config : Type := {
  anonymousId : pyval;
  homeSize : pyval;
  homeTemperature : pyval;
  location : pyval;
  timeAway : string;
  timeHome : string;
  savingsLevel : pyval
}.

(** The dictionary returned by [_build_30min_temperature_schedule]. *)
Record schedule : Type := {
  highTemperatures : list Q;
  lowTemperatures : list Q;
  intervalMinutes : Z;
  totalIntervals : Z
}.

Definition schedule_to_py (s : schedule) : pyval :=
  PDict [("highTemperatures"%string, PList (map PNum (highTemperatures s)));
         ("lowTemperatures"%string, PList (map PNum (lowTemperatures s)));
         ("intervalMinutes"%string, PNum (inject_Z (intervalMinutes s)));
         ("totalIntervals"%string, PNum (inject_Z (totalIntervals s)))].

(** [_time_to_30min_index]: the [ValueError] of [strptime] is caught
    and answered with slot 16. *)
Definition _time_to_30min_index (time_str : string) : Z :=
  match Strptime.strptime_HM (str_prefix 5 time_str) with
  | Ok (hour, minute) =>
      let total_minutes := hour * 60 + minute in
      total_minutes / 30
  | Err _ => 16
  end.

(** [_calculate_savings_offset]: [{1: 2, 2: 6, 3: 12}.get(level, 6)].
    A key is found when it compares equal to 1, 2 or 3 ([True] equals
    1); a list or a dictionary cannot be hashed. *)
Definition _calculate_savings_offset (savings_level : pyval) : result Z :=
  match savings_level with
  | PList _ | PDict _ => Err TypeError
  | PNone | PStr _ => Ok 6
  | PBool _ | PNum _ =>
      match as_number savings_level with
      | Some q =>
          if Qeq_bool q 1 then Ok 2
          else if Qeq_bool q 2 then Ok 6
          else if Qeq_bool q 3 then Ok 12
          else Ok 6
      | None => Ok 6
      end
  end.

Local Open Scope result_scope.

(** One turn of the loop of [_build_30min_temperature_schedule]: the
    two lists grow by one entry each. *)
Definition build_step (base_temp : pyval) (away_interval home_interval : Z)
  (savings_offset : Z) (interval : Z) (acc : list Q * list Q)
  : result (list Q * list Q) :=
  let '(high_temps, low_temps) := acc in
  if (away_interval <=? interval) && (interval <=? home_interval) then
    h <- py_add base_temp (inject_Z savings_offset) ;;
    l <- py_sub base_temp (inject_Z savings_offset) ;;
    Ok (high_temps ++ [(h + DEADBAND_OFFSET)%Q],
        low_temps ++ [(l - DEADBAND_OFFSET)%Q])
  else
    h <- py_add base_temp DEADBAND_OFFSET ;;
    l <- py_sub base_temp DEADBAND_OFFSET ;;
    Ok (high_temps ++ [h], low_temps ++ [l]).

Definition _build_30min_temperature_schedule (cfg : Config) : result schedule :=
  let base_temp := homeTemperature cfg in
  let away_time := timeAway cfg in
  let home_time := timeHome cfg in
  let savings_level := savingsLevel cfg in
  let away_interval := _time_to_30min_index away_time in
  let home_interval := _time_to_30min_index home_time in
  savings_offset <- _calculate_savings_offset savings_level ;;
  temps <- for_each (range INTERVALS_PER_DAY)
             (build_step base_temp away_interval home_interval savings_offset)
             ([], []) ;;
  Ok {| highTemperatures := fst temps;
        lowTemperatures := snd temps;
        intervalMinutes := 30;
        totalIntervals := INTERVALS_PER_DAY |}.

(** The test of the loop of the builder,
    [away_interval <= interval <= home_interval], on the two indices
    the builder computes from the preferences. *)
Definition in_away_interval (cfg : Config) (interval : Z) : bool :=
  (_time_to_30min_index (timeAway cfg) <=? interval) &&
  (interval <=? _time_to_30min_index (timeHome cfg)).

Local Close Scope result_scope.

(* ================================================================= *)
(** ** Control flow of a method body *)

(** A method body runs on a state [S] (the object and the log of the
    requests it has issued) and completes normally, by a [return], or
    by an exception. *)
Module Control.

Inductive completion (R A : Type) : Type :=
| Normal (a : A)
| Returned (r : R)
| Raised (e : exn).
Arguments Normal {R A} a.
Arguments Returned {R A} r.
Arguments Raised {R A} e.

Definition M (S R A : Type) : Type := S -> completion R A * S.

Section Ops.
Context {S R : Type}.

Definition ret {A} (a : A) : M S R A := fun s => (Normal a, s).

Definition bind {A B} (m : M S R A) (k : A -> M S R B) : M S R B :=
  fun s =>
    match m s with
    | (Normal a, s') => k a s'
    | (Returned r, s') => (Returned r, s')
    | (Raised e, s') => (Raised e, s')
    end.

(** [return r]. *)
Definition return_ {A} (r : R) : M S R A := fun s => (Returned r, s).

(** [raise e]. *)
Definition raise {A} (e : exn) : M S R A := fun s => (Raised e, s).

Definition gets {A} (f : S -> A) : M S R A := fun s => (Normal (f s), s).

Definition modify (f : S -> S) : M S R unit := fun s => (Normal tt, f s).

(** A pure computation that may raise. *)
Definition lift {A} (r : result A) : M S R A :=
  match r with
  | Ok a => ret a
  | Err e => raise e
  end.

(** [try: body except ...: handler]; a handler that answers [None]
    does not match the exception. *)
Definition try_except {A} (body : M S R A)
  (handler : exn -> option (M S R A)) : M S R A :=
  fun s =>
    match body s with
    | (Raised e, s') =>
        match handler e with
        | Some h => h s'
        | None => (Raised e, s')
        end
    | other => other
    end.

(** [if c: body] without an [else]. *)
Definition when (c : bool) (body : M S R unit) : M S R unit :=
  if c then body else ret tt.

End Ops.

(** Calling (and awaiting) a method from another one: the value of the
    call is what the callee returned. *)
Definition call {S R R' : Type} (callee : M S R' R') : M S R R' :=
  fun s =>
    match callee s with
    | (Normal r, s') => (Normal r, s')
    | (Returned r, s') => (Normal r, s')
    | (Raised e, s') => (Raised e, s')
    end.

(** How a method, run as a whole, ends: with a value or an exception. *)
Definition run {S R : Type} (body : M S R R) (s : S) : result R * S :=
  match body s with
  | (Normal r, s') => (Ok r, s')
  | (Returned r, s') => (Ok r, s')
  | (Raised e, s') => (Err e, s')
  end.

End Control.
Import Control.

Declare Scope py_scope.
Delimit Scope py_scope with py.
Notation "x <- m ;; k" := (bind m (fun x => k))
  (at level 61, m at next level, right associativity) : py_scope.
Notation "m ;;; k" := (bind m (fun _ => k))
  (at level 61, right associativity) : py_scope.

(* ================================================================= *)
(** ** The remote services *)

(** What a [session.post] yields: an exception ([aiohttp.ClientError],
    or the [TimeoutError] of the enclosing timeout), or a response with
    its status and what [response.json()] gives for its body. *)
Inductive http_reply : Type :=
| NoResponse (e : exn)
| Response (status : Z) (json : result pyval).

(** The body of a request to the optimizer: [{**self.config, ...}]. *)
Record optimizer_request : Type := {
  rq_config : Config;
  rq_temperatureSchedule : pyval;
  rq_heatUpRate : pyval;
  rq_coolDownRate : pyval;
  rq_mode : pyval;
  rq_naturalRate : option pyval
}.

(** The requests the integration issues, by endpoint. *)
Inductive request : Type :=
| CalculateRates (anonymous_id : pyval)
| GenerateSchedule (body : optimizer_request)
| SavePreferences (user_id : pyval) (preferences : list (string * pyval))
    (weather_forecast : pyval) (immediate_optimization : bool)
    (optimization_results : pyval)
| SensorData (user_id : pyval) (readings : list pyval)
| DailySummary (user_id : pyval) (date : pyval) (inputs_today : Z)
    (services_used : list pyval) (weather_forecast : pyval)
    (optimization_mode : pyval).

(** An object together with the requests sent so far, oldest first. *)
Record world (T : Type) : Type := {
  self : T;
  sent : list request
}.
Arguments self {T} w.
Arguments sent {T} w.

Section Http.
Context {T R : Type}.

(** [await session.post(...)]: the request goes out; the reply is an
    exception or a response. *)
Definition post (rq : request) (reply : http_reply)
  : M (world T) R (Z * result pyval) :=
  fun w =>
    let w' := {| self := self w; sent := sent w ++ [rq] |} in
    match reply with
    | NoResponse e => (Raised e, w')
    | Response status json => (Normal (status, json), w')
    end.

(** [response.raise_for_status()] of aiohttp: a [ClientResponseError]
    (a [ClientError]) for a status of 400 or more. *)
Definition raise_for_status (response : Z * result pyval)
  : M (world T) R unit :=
  if 400 <=? fst response then raise ClientError else ret tt.

(** [await response.json()]. *)
Definition json_of (response : Z * result pyval) : M (world T) R pyval :=
  lift (snd response).

(** Reading and updating the object. *)
Definition attr {A} (f : T -> A) : M (world T) R A :=
  gets (fun w => f (self w)).

Definition update (f : T -> T) : M (world T) R unit :=
  modify (fun w => {| self := f (self w); sent := sent w |}).

End Http.

(** [v.get(key, default)]: an [AttributeError] unless [v] is a
    dictionary. *)
Definition py_get (v : pyval) (key : string) (default : pyval) : result pyval :=
  match v with
  | PDict d => Ok (dict_get d key default)
  | _ => Err AttributeError
  end.

(** [len(v)]: a [TypeError] for [None], booleans and numbers. *)
Definition py_len (v : pyval) : result Z :=
  match v with
  | PStr s => Ok (Z.of_nat (String.length s))
  | PList l => Ok (Z.of_nat (List.length l))
  | PDict d => Ok (Z.of_nat (List.length d))
  | _ => Err TypeError
  end.

(** [v[:n]]: strings and lists can be sliced, nothing else among the
    values of the model. *)
Definition py_slice (v : pyval) (n : nat) : result pyval :=
  match v with
  | PStr s => Ok (PStr (str_prefix n s))
  | PList l => Ok (PList (firstn n l))
  | _ => Err TypeError
  end.

(** [format(v, ".2f")]: numbers only. *)
Definition py_format_float (v : pyval) : result unit :=
  match v with
  | PNum _ | PBool _ => Ok tt
  | PStr _ => Err ValueError
  | _ => Err TypeError
  end.

(** [v == s] for a string literal [s]. *)
Definition py_eq_str (v : pyval) (s : string) : bool :=
  match v with
  | PStr s' => String.eqb s' s
  | _ => false
  end.

(** [x < y] on numbers. *)
Definition Qlt_bool (x y : Q) : bool := negb (Qle_bool y x).

(* ================================================================= *)
(** ** The coordinator ([CurveControlCoordinator]) *)

Module Coordinator.

(** The attributes of the coordinator that its methods read or write. *)
Record coordinator : Type := {
  user_id : pyval;
  auth_token : pyval;
  config : Config;
  schedule_data : pyval;
  optimization_results : pyval;
  heat_up_rate : pyval;
  cool_down_rate : pyval;
  backend_heating_rate : pyval;
  backend_cooling_rate : pyval;
  backend_natural_rate : pyval;
  thermal_rates_last_fetched : option Q;
  _last_update_time : Q;
  _update_debounce_seconds : Q;
  _daily_schedule : pyval;
  _schedule_date : option Z;
  _custom_temperature_schedule : pyval;
  optimization_mode : pyval
}.

(** Assignment to one attribute. *)
Definition set_config (v : Config) (c : coordinator) : coordinator :=
  {| user_id := user_id c; auth_token := auth_token c; config := v;
     schedule_data := schedule_data c;
     optimization_results := optimization_results c;
     heat_up_rate := heat_up_rate c;
     cool_down_rate := cool_down_rate c;
     backend_heating_rate := backend_heating_rate c;
     backend_cooling_rate := backend_cooling_rate c;
     backend_natural_rate := backend_natural_rate c;
     thermal_rates_last_fetched := thermal_rates_last_fetched c;
     _last_update_time := _last_update_time c;
     _update_debounce_seconds := _update_debounce_seconds c;
     _daily_schedule := _daily_schedule c;
     _schedule_date := _schedule_date c;
     _custom_temperature_schedule := _custom_temperature_schedule c;
     optimization_mode := optimization_mode c |}.

Definition set_schedule_data (v : pyval) (c : coordinator) : coordinator :=
  {| user_id := user_id c; auth_token := auth_token c;
     config := config c; schedule_data := v;
     optimization_results := optimization_results c;
     heat_up_rate := heat_up_rate c;
     cool_down_rate := cool_down_rate c;
     backend_heating_rate := backend_heating_rate c;
     backend_cooling_rate := backend_cooling_rate c;
     backend_natural_rate := backend_natural_rate c;
     thermal_rates_last_fetched := thermal_rates_last_fetched c;
     _last_update_time := _last_update_time c;
     _update_debounce_seconds := _update_debounce_seconds c;
     _daily_schedule := _daily_schedule c;
     _schedule_date := _schedule_date c;
     _custom_temperature_schedule := _custom_temperature_schedule c;
     optimization_mode := optimization_mode c |}.

Definition set_optimization_results (v : pyval) (c : coordinator) : coordinator :=
  {| user_id := user_id c; auth_token := auth_token c;
     config := config c; schedule_data := schedule_data c;
     optimization_results := v; heat_up_rate := heat_up_rate c;
     cool_down_rate := cool_down_rate c;
     backend_heating_rate := backend_heating_rate c;
     backend_cooling_rate := backend_cooling_rate c;
     backend_natural_rate := backend_natural_rate c;
     thermal_rates_last_fetched := thermal_rates_last_fetched c;
     _last_update_time := _last_update_time c;
     _update_debounce_seconds := _update_debounce_seconds c;
     _daily_schedule := _daily_schedule c;
     _schedule_date := _schedule_date c;
     _custom_temperature_schedule := _custom_temperature_schedule c;
     optimization_mode := optimization_mode c |}.

Definition set_heat_up_rate (v : pyval) (c : coordinator) : coordinator :=
  {| user_id := user_id c; auth_token := auth_token c;
     config := config c; schedule_data := schedule_data c;
     optimization_results := optimization_results c;
     heat_up_rate := v; cool_down_rate := cool_down_rate c;
     backend_heating_rate := backend_heating_rate c;
     backend_cooling_rate := backend_cooling_rate c;
     backend_natural_rate := backend_natural_rate c;
     thermal_rates_last_fetched := thermal_rates_last_fetched c;
     _last_update_time := _last_update_time c;
     _update_debounce_seconds := _update_debounce_seconds c;
     _daily_schedule := _daily_schedule c;
     _schedule_date := _schedule_date c;
     _custom_temperature_schedule := _custom_temperature_schedule c;
     optimization_mode := optimization_mode c |}.

Definition set_cool_down_rate (v : pyval) (c : coordinator) : coordinator :=
  {| user_id := user_id c; auth_token := auth_token c;
     config := config c; schedule_data := schedule_data c;
     optimization_results := optimization_results c;
     heat_up_rate := heat_up_rate c; cool_down_rate := v;
     backend_heating_rate := backend_heating_rate c;
     backend_cooling_rate := backend_cooling_rate c;
     backend_natural_rate := backend_natural_rate c;
     thermal_rates_last_fetched := thermal_rates_last_fetched c;
     _last_update_time := _last_update_time c;
     _update_debounce_seconds := _update_debounce_seconds c;
     _daily_schedule := _daily_schedule c;
     _schedule_date := _schedule_date c;
     _custom_temperature_schedule := _custom_temperature_schedule c;
     optimization_mode := optimization_mode c |}.

Definition set_backend_heating_rate (v : pyval) (c : coordinator) : coordinator :=
  {| user_id := user_id c; auth_token := auth_token c;
     config := config c; schedule_data := schedule_data c;
     optimization_results := optimization_results c;
     heat_up_rate := heat_up_rate c;
     cool_down_rate := cool_down_rate c; backend_heating_rate := v;
     backend_cooling_rate := backend_cooling_rate c;
     backend_natural_rate := backend_natural_rate c;
     thermal_rates_last_fetched := thermal_rates_last_fetched c;
     _last_update_time := _last_update_time c;
     _update_debounce_seconds := _update_debounce_seconds c;
     _daily_schedule := _daily_schedule c;
     _schedule_date := _schedule_date c;
     _custom_temperature_schedule := _custom_temperature_schedule c;
     optimization_mode := optimization_mode c |}.

Definition set_backend_cooling_rate (v : pyval) (c : coordinator) : coordinator :=
  {| user_id := user_id c; auth_token := auth_token c;
     config := config c; schedule_data := schedule_data c;
     optimization_results := optimization_results c;
     heat_up_rate := heat_up_rate c;
     cool_down_rate := cool_down_rate c;
     backend_heating_rate := backend_heating_rate c;
     backend_cooling_rate := v;
     backend_natural_rate := backend_natural_rate c;
     thermal_rates_last_fetched := thermal_rates_last_fetched c;
     _last_update_time := _last_update_time c;
     _update_debounce_seconds := _update_debounce_seconds c;
     _daily_schedule := _daily_schedule c;
     _schedule_date := _schedule_date c;
     _custom_temperature_schedule := _custom_temperature_schedule c;
     optimization_mode := optimization_mode c |}.

Definition set_backend_natural_rate (v : pyval) (c : coordinator) : coordinator :=
  {| user_id := user_id c; auth_token := auth_token c;
     config := config c; schedule_data := schedule_data c;
     optimization_results := optimization_results c;
     heat_up_rate := heat_up_rate c;
     cool_down_rate := cool_down_rate c;
     backend_heating_rate := backend_heating_rate c;
     backend_cooling_rate := backend_cooling_rate c;
     backend_natural_rate := v;
     thermal_rates_last_fetched := thermal_rates_last_fetched c;
     _last_update_time := _last_update_time c;
     _update_debounce_seconds := _update_debounce_seconds c;
     _daily_schedule := _daily_schedule c;
     _schedule_date := _schedule_date c;
     _custom_temperature_schedule := _custom_temperature_schedule c;
     optimization_mode := optimization_mode c |}.

Definition set_thermal_rates_last_fetched (v : option Q) (c : coordinator) : coordinator :=
  {| user_id := user_id c; auth_token := auth_token c;
     config := config c; schedule_data := schedule_data c;
     optimization_results := optimization_results c;
     heat_up_rate := heat_up_rate c;
     cool_down_rate := cool_down_rate c;
     backend_heating_rate := backend_heating_rate c;
     backend_cooling_rate := backend_cooling_rate c;
     backend_natural_rate := backend_natural_rate c;
     thermal_rates_last_fetched := v;
     _last_update_time := _last_update_time c;
     _update_debounce_seconds := _update_debounce_seconds c;
     _daily_schedule := _daily_schedule c;
     _schedule_date := _schedule_date c;
     _custom_temperature_schedule := _custom_temperature_schedule c;
     optimization_mode := optimization_mode c |}.

Definition set__last_update_time (v : Q) (c : coordinator) : coordinator :=
  {| user_id := user_id c; auth_token := auth_token c;
     config := config c; schedule_data := schedule_data c;
     optimization_results := optimization_results c;
     heat_up_rate := heat_up_rate c;
     cool_down_rate := cool_down_rate c;
     backend_heating_rate := backend_heating_rate c;
     backend_cooling_rate := backend_cooling_rate c;
     backend_natural_rate := backend_natural_rate c;
     thermal_rates_last_fetched := thermal_rates_last_fetched c;
     _last_update_time := v;
     _update_debounce_seconds := _update_debounce_seconds c;
     _daily_schedule := _daily_schedule c;
     _schedule_date := _schedule_date c;
     _custom_temperature_schedule := _custom_temperature_schedule c;
     optimization_mode := optimization_mode c |}.

Definition set__daily_schedule (v : pyval) (c : coordinator) : coordinator :=
  {| user_id := user_id c; auth_token := auth_token c;
     config := config c; schedule_data := schedule_data c;
     optimization_results := optimization_results c;
     heat_up_rate := heat_up_rate c;
     cool_down_rate := cool_down_rate c;
     backend_heating_rate := backend_heating_rate c;
     backend_cooling_rate := backend_cooling_rate c;
     backend_natural_rate := backend_natural_rate c;
     thermal_rates_last_fetched := thermal_rates_last_fetched c;
     _last_update_time := _last_update_time c;
     _update_debounce_seconds := _update_debounce_seconds c;
     _daily_schedule := v; _schedule_date := _schedule_date c;
     _custom_temperature_schedule := _custom_temperature_schedule c;
     optimization_mode := optimization_mode c |}.

Definition set__schedule_date (v : option Z) (c : coordinator) : coordinator :=
  {| user_id := user_id c; auth_token := auth_token c;
     config := config c; schedule_data := schedule_data c;
     optimization_results := optimization_results c;
     heat_up_rate := heat_up_rate c;
     cool_down_rate := cool_down_rate c;
     backend_heating_rate := backend_heating_rate c;
     backend_cooling_rate := backend_cooling_rate c;
     backend_natural_rate := backend_natural_rate c;
     thermal_rates_last_fetched := thermal_rates_last_fetched c;
     _last_update_time := _last_update_time c;
     _update_debounce_seconds := _update_debounce_seconds c;
     _daily_schedule := _daily_schedule c; _schedule_date := v;
     _custom_temperature_schedule := _custom_temperature_schedule c;
     optimization_mode := optimization_mode c |}.

Definition set__custom_temperature_schedule (v : pyval) (c : coordinator) : coordinator :=
  {| user_id := user_id c; auth_token := auth_token c;
     config := config c; schedule_data := schedule_data c;
     optimization_results := optimization_results c;
     heat_up_rate := heat_up_rate c;
     cool_down_rate := cool_down_rate c;
     backend_heating_rate := backend_heating_rate c;
     backend_cooling_rate := backend_cooling_rate c;
     backend_natural_rate := backend_natural_rate c;
     thermal_rates_last_fetched := thermal_rates_last_fetched c;
     _last_update_time := _last_update_time c;
     _update_debounce_seconds := _update_debounce_seconds c;
     _daily_schedule := _daily_schedule c;
     _schedule_date := _schedule_date c;
     _custom_temperature_schedule := v;
     optimization_mode := optimization_mode c |}.

Definition set_optimization_mode (v : pyval) (c : coordinator) : coordinator :=
  {| user_id := user_id c; auth_token := auth_token c;
     config := config c; schedule_data := schedule_data c;
     optimization_results := optimization_results c;
     heat_up_rate := heat_up_rate c;
     cool_down_rate := cool_down_rate c;
     backend_heating_rate := backend_heating_rate c;
     backend_cooling_rate := backend_cooling_rate c;
     backend_natural_rate := backend_natural_rate c;
     thermal_rates_last_fetched := thermal_rates_last_fetched c;
     _last_update_time := _last_update_time c;
     _update_debounce_seconds := _update_debounce_seconds c;
     _daily_schedule := _daily_schedule c;
     _schedule_date := _schedule_date c;
     _custom_temperature_schedule := _custom_temperature_schedule c;
     optimization_mode := v |}.

(** [self.config[key] = v] for the keys a service call may set. *)
Definition set_homeSize (v : pyval) (cfg : Config) : Config :=
  {| anonymousId := anonymousId cfg; homeSize := v;
     homeTemperature := homeTemperature cfg; location := location cfg;
     timeAway := timeAway cfg; timeHome := timeHome cfg;
     savingsLevel := savingsLevel cfg |}.

Definition set_homeTemperature (v : pyval) (cfg : Config) : Config :=
  {| anonymousId := anonymousId cfg; homeSize := homeSize cfg;
     homeTemperature := v; location := location cfg;
     timeAway := timeAway cfg; timeHome := timeHome cfg;
     savingsLevel := savingsLevel cfg |}.

Definition set_location (v : pyval) (cfg : Config) : Config :=
  {| anonymousId := anonymousId cfg; homeSize := homeSize cfg;
     homeTemperature := homeTemperature cfg; location := v;
     timeAway := timeAway cfg; timeHome := timeHome cfg;
     savingsLevel := savingsLevel cfg |}.

Definition set_savingsLevel (v : pyval) (cfg : Config) : Config :=
  {| anonymousId := anonymousId cfg; homeSize := homeSize cfg;
     homeTemperature := homeTemperature cfg; location := location cfg;
     timeAway := timeAway cfg; timeHome := timeHome cfg;
     savingsLevel := v |}.

Definition set_timeAway (v : string) (cfg : Config) : Config :=
  {| anonymousId := anonymousId cfg; homeSize := homeSize cfg;
     homeTemperature := homeTemperature cfg; location := location cfg;
     timeAway := v; timeHome := timeHome cfg;
     savingsLevel := savingsLevel cfg |}.

Definition set_timeHome (v : string) (cfg : Config) : Config :=
  {| anonymousId := anonymousId cfg; homeSize := homeSize cfg;
     homeTemperature := homeTemperature cfg; location := location cfg;
     timeAway := timeAway cfg; timeHome := v;
     savingsLevel := savingsLevel cfg |}.

(** The data of the config entry that [__init__] reads. *)
Record entry_data : Type := {
  CONF_USER_ID : pyval;
  CONF_AUTH_TOKEN : pyval;
  CONF_HOME_SIZE : pyval;
  CONF_TARGET_TEMP : pyval;
  CONF_LOCATION : pyval;
  CONF_TIME_AWAY : string;
  CONF_TIME_HOME : string;
  CONF_SAVINGS_LEVEL : pyval
}.

(** [__init__]: the attributes of a new coordinator. *)
Definition init (data : entry_data) : coordinator :=
  {| user_id := CONF_USER_ID data;
     auth_token := CONF_AUTH_TOKEN data;
     config :=
       {| anonymousId := CONF_USER_ID data;
          homeSize := CONF_HOME_SIZE data;
          homeTemperature := CONF_TARGET_TEMP data;
          location := CONF_LOCATION data;
          timeAway := str_prefix 5 (CONF_TIME_AWAY data);
          timeHome := str_prefix 5 (CONF_TIME_HOME data);
          savingsLevel := CONF_SAVINGS_LEVEL data |};
     schedule_data := PNone;
     optimization_results := PNone;
     heat_up_rate := PNum HEATING_RATE_30MIN;
     cool_down_rate := PNum COOLING_RATE_30MIN;
     backend_heating_rate := PNone;
     backend_cooling_rate := PNone;
     backend_natural_rate := PNone;
     thermal_rates_last_fetched := None;
     _last_update_time := 0;
     _update_debounce_seconds := 2;
     _daily_schedule := PNone;
     _schedule_date := None;
     _custom_temperature_schedule := PNone;
     optimization_mode := PStr "cool" |}.

(** What the surroundings supply to one run of a coordinator method:
    the clock, the replies of the remote services, and the weather
    forecast assembled from the state of the weather entity. *)
Record env : Type := {
  now : Q;
  today : Z;
  rates_reply : http_reply;
  optimizer_reply : http_reply;
  save_reply : http_reply;
  weather_forecast : pyval
}.

(** The data of an [update_schedule] service call, by recognised key;
    [None] stands for an absent key.  The two times are given as the
    text [str(...)] yields for them. *)
Record service_data : Type := {
  d_homeSize : option pyval;
  d_homeTemperature : option pyval;
  d_location : option pyval;
  d_savingsLevel : option pyval;
  d_timeAway : option string;
  d_timeHome : option string;
  d_optimizationMode : option pyval;
  d_temperatureSchedule : option pyval
}.

Definition Method (A : Type) : Type := M (world coordinator) pyval A.

Local Open Scope py_scope.

(** [_async_fetch_thermal_rates_from_backend].  The line that logs the
    fetched rates carries a format specifier no value accepts, so it
    raises; like every other exception here it is absorbed. *)
Definition _async_fetch_thermal_rates_from_backend (e : env) : Method pyval :=
  uid <- attr user_id ;;
  tok <- attr auth_token ;;
  (if negb (truthy uid) || negb (truthy tok)
   then return_ PNone else ret tt) ;;;
  try_except
    (response <- post (CalculateRates uid) (rates_reply e) ;;
     if fst response =? 200 then
       data <- json_of response ;;
       success <- lift (py_get data "success" PNone) ;;
       if truthy success then
         thermal_rates <- lift (py_get data "thermal_rates" PNone) ;;
         if truthy thermal_rates then
           let rates := thermal_rates in
           heating <- lift (py_get rates "heating_rate" PNone) ;;
           update (set_backend_heating_rate heating) ;;;
           cooling <- lift (py_get rates "cooling_rate" PNone) ;;
           update (set_backend_cooling_rate cooling) ;;;
           natural <- lift (py_get rates "natural_rate" PNone) ;;
           update (set_backend_natural_rate natural) ;;;
           update (set_thermal_rates_last_fetched (Some (now e))) ;;;
           when (is_not_None heating) (update (set_heat_up_rate heating)) ;;;
           when (is_not_None cooling) (update (set_cool_down_rate cooling)) ;;;
           raise ValueError
         else ret tt
       else ret tt
     else ret tt)
    (fun _ => Some (ret tt)) ;;;
  ret PNone.

(** The envelope sent along ("custom or basic"): the custom one when it
    is set and not empty, otherwise the one built from the
    preferences. *)
Definition schedule_for (c : coordinator) : result pyval :=
  if truthy (_custom_temperature_schedule c)
  then Ok (_custom_temperature_schedule c)
  else
    rbind (_build_30min_temperature_schedule (config c))
      (fun s => Ok (schedule_to_py s)).

Definition current_schedule : Method pyval :=
  c <- attr (fun c => c) ;;
  lift (schedule_for c).

(** [_async_update_data], the refresh.  Reading the thermostat state at
    its start has no effect and is left out. *)
Definition _async_update_data (e : env) : Method pyval :=
  try_except
    (call (_async_fetch_thermal_rates_from_backend e) ;;;
     schedule <- current_schedule ;;
     cfg <- attr config ;;
     heat <- attr heat_up_rate ;;
     cool <- attr cool_down_rate ;;
     mode <- attr optimization_mode ;;
     natural <- attr backend_natural_rate ;;
     let request_data :=
       {| rq_config := cfg;
          rq_temperatureSchedule := schedule;
          rq_heatUpRate := heat;
          rq_coolDownRate := cool;
          rq_mode := mode;
          rq_naturalRate :=
            if is_not_None natural then Some natural else None |} in
     response <- post (GenerateSchedule request_data) (optimizer_reply e) ;;
     raise_for_status response ;;;
     data <- json_of response ;;
     (if negb (is_dict data) then raise ValueError else ret tt) ;;;
     update (set_optimization_results data) ;;;
     hourly <- lift (py_get data "HourlyTemperature" (PList [])) ;;
     update (set_schedule_data hourly) ;;;
     best <- lift (py_get data "bestTempActual" (PList [])) ;;
     update (set__daily_schedule best) ;;;
     update (set__schedule_date (Some (today e))) ;;;
     stored_hourly <- attr schedule_data ;;
     _ <- lift (py_len stored_hourly) ;;
     stored_best <- attr _daily_schedule ;;
     _ <- lift (py_len stored_best) ;;
     return_ data)
    (fun _ => Some (raise UpdateFailed)).

(** [async_request_refresh] belongs to the coordinator base class of
    Home Assistant: it runs [_async_update_data] and, when that raises
    [UpdateFailed], records the failure instead of raising. *)
Definition async_request_refresh (e : env) : Method unit :=
  try_except
    (call (_async_update_data e) ;;; ret tt)
    (fun _ => Some (ret tt)).

(** [_save_preferences_to_db]. *)
Definition _save_preferences_to_db (e : env) : Method pyval :=
  uid <- attr user_id ;;
  tok <- attr auth_token ;;
  (if negb (truthy uid) || negb (truthy tok)
   then return_ PNone else ret tt) ;;;
  try_except
    (schedule <- current_schedule ;;
     cfg <- attr config ;;
     high <- lift (py_get schedule "highTemperatures" PNone) ;;
     low <- lift (py_get schedule "lowTemperatures" PNone) ;;
     heating <- attr backend_heating_rate ;;
     cooling <- attr backend_cooling_rate ;;
     natural <- attr backend_natural_rate ;;
     mode <- attr optimization_mode ;;
     let preferences :=
       [("home_size", homeSize cfg);
        ("base_temperature", homeTemperature cfg);
        ("target_temperature", homeTemperature cfg);
        ("location", location cfg);
        ("savings_level", savingsLevel cfg);
        ("time_away", PStr (timeAway cfg));
        ("time_home", PStr (timeHome cfg));
        ("high_temperatures", high);
        ("low_temperatures", low);
        ("heating_rate", heating);
        ("cooling_rate", cooling);
        ("natural_rate", natural);
        ("optimization_mode", mode)]%string in
     results <- attr optimization_results ;;
     response <-
       post (SavePreferences uid preferences (weather_forecast e) false
               (if truthy results then results else PNone))
            (save_reply e) ;;
     raise_for_status response ;;;
     result <- json_of response ;;
     status <- lift (py_get result "status" PNone) ;;
     if py_eq_str status "success" then
       match result with
       | PDict items =>
           if dict_mem items "optimization" then
             let optimization_data := dict_get items "optimization" PNone in
             update (set_optimization_results optimization_data) ;;;
             hourly <- lift (py_get optimization_data "HourlyTemperature"
                               (PList [])) ;;
             update (set_schedule_data hourly) ;;;
             best <- lift (py_get optimization_data "bestTempActual"
                             (PList [])) ;;
             update (set__daily_schedule best) ;;;
             update (set__schedule_date (Some (today e))) ;;;
             savings <- lift (py_get optimization_data "costSavings"
                                (PNum 0)) ;;
             lift (py_format_float savings)
           else ret tt
       | _ => ret tt
       end
     else ret tt)
    (fun _ => Some (ret tt)) ;;;
  ret PNone.

(** The debug lines that follow the storing of a custom schedule. *)
Definition log_custom_schedule : Method unit :=
  custom <- attr _custom_temperature_schedule ;;
  high <- lift (py_get custom "highTemperatures" (PList [])) ;;
  _ <- lift (py_slice high 8) ;;
  custom <- attr _custom_temperature_schedule ;;
  low <- lift (py_get custom "lowTemperatures" (PList [])) ;;
  _ <- lift (py_slice low 8) ;;
  custom <- attr _custom_temperature_schedule ;;
  high <- lift (py_get custom "highTemperatures" (PList [])) ;;
  _ <- lift (py_len high) ;;
  ret tt.

(** [self.config[key] = v]. *)
Definition set_item (f : Config -> Config) : Method unit :=
  update (fun c => set_config (f (config c)) c).

(** [if key in data: body]. *)
Definition if_in {A : Type} (field : option A) (body : A -> Method unit)
  : Method unit :=
  match field with
  | Some v => body v
  | None => ret tt
  end.

(** [async_update_schedule]. *)
Definition async_update_schedule (e : env) (data : service_data)
  (save_to_db : bool) : Method pyval :=
  let current_time := now e in
  last <- attr _last_update_time ;;
  let time_since_last_update := (current_time - last)%Q in
  debounce <- attr _update_debounce_seconds ;;
  (if Qlt_bool time_since_last_update debounce
   then return_ PNone else ret tt) ;;;
  update (set__last_update_time current_time) ;;;
  if_in (d_homeSize data) (fun v => set_item (set_homeSize v)) ;;;
  if_in (d_homeTemperature data)
    (fun v => set_item (set_homeTemperature v)) ;;;
  if_in (d_location data) (fun v => set_item (set_location v)) ;;;
  if_in (d_savingsLevel data) (fun v => set_item (set_savingsLevel v)) ;;;
  if_in (d_timeAway data)
    (fun v => set_item (set_timeAway (str_prefix 5 v))) ;;;
  if_in (d_timeHome data)
    (fun v => set_item (set_timeHome (str_prefix 5 v))) ;;;
  if_in (d_optimizationMode data)
    (fun v => update (set_optimization_mode v)) ;;;
  match d_temperatureSchedule data with
  | Some v =>
      update (set__custom_temperature_schedule v) ;;;
      log_custom_schedule
  | None => update (set__custom_temperature_schedule PNone)
  end ;;;
  async_request_refresh e ;;;
  when save_to_db
    (uid <- attr user_id ;;
     tok <- attr auth_token ;;
     if truthy uid && truthy tok
     then call (_save_preferences_to_db e) ;;; ret tt
     else ret tt) ;;;
  ret PNone.

(** [get_schedule_bounds]. *)
Definition get_schedule_bounds (c : coordinator)
  : result (option (pyval * pyval)) :=
  let data := schedule_data c in
  if negb (truthy data) then Ok None
  else
    match py_len data with
    | Err x => Err x
    | Ok n =>
        if n <? 3 then Ok None
        else
          match data with
          | PList l =>
              match nth_error l 1, nth_error l 2 with
              | Some high, Some low => Ok (Some (high, low))
              | _, _ => Err IndexError
              end
          | PStr s =>
              match String.get 1 s, String.get 2 s with
              | Some high, Some low =>
                  Ok (Some (PStr (String high EmptyString),
                            PStr (String low EmptyString)))
              | _, _ => Err IndexError
              end
          | _ => Err KeyError
          end
    end.

Local Close Scope py_scope.

End Coordinator.

(* ================================================================= *)
(** ** The data collector ([DataCollector]) *)

Module Collector.

(** The attributes of the collector that its methods read or write. *)
Record DataCollector : Type := {
  user_id : pyval;
  pending_readings : list pyval;
  user_inputs_today : list pyval
}.

Definition set_pending_readings (v : list pyval) (c : DataCollector)
  : DataCollector :=
  {| user_id := user_id c; pending_readings := v;
     user_inputs_today := user_inputs_today c |}.

Definition set_user_inputs_today (v : list pyval) (c : DataCollector)
  : DataCollector :=
  {| user_id := user_id c; pending_readings := pending_readings c;
     user_inputs_today := v |}.

(** What the surroundings supply to one run of a collector method: the
    replies of the two endpoints, yesterday's date, the weather
    forecast assembled from the weather entity, and the optimization
    mode read from the coordinator (["cool"] without one). *)
Record env : Type := {
  batch_reply : http_reply;
  summary_reply : http_reply;
  yesterday : pyval;
  weather_forecast : pyval;
  optimization_mode : pyval
}.

Definition Method (A : Type) : Type := M (world DataCollector) pyval A.

(** [not l] for a list. *)
Definition is_empty {A : Type} (l : list A) : bool :=
  match l with [] => true | _ => false end.

Local Open Scope py_scope.

(** [_collect_reading].  [sample] is the reading assembled from the
    entity states, or [None] when the method gives up before it has one
    (a required state is missing, the temperature cannot be read, or an
    exception is caught): only a complete reading is appended. *)
Definition _collect_reading (sample : option pyval) : Method pyval :=
  match sample with
  | Some reading =>
      pending <- attr pending_readings ;;
      update (set_pending_readings (pending ++ [reading])) ;;;
      ret PNone
  | None => return_ PNone
  end.

(** [log_user_input]. *)
Definition log_user_input (entry : pyval) : Method pyval :=
  inputs <- attr user_inputs_today ;;
  update (set_user_inputs_today (inputs ++ [entry])) ;;;
  ret PNone.

(** [_send_sensor_batch].  On a status other than 200 the error text is
    read and logged; nothing follows it, and the handler absorbs a
    failure of that read as well. *)
Definition _send_sensor_batch (reply : http_reply) : Method pyval :=
  pending <- attr pending_readings ;;
  (if is_empty pending then return_ PNone else ret tt) ;;;
  try_except
    (uid <- attr user_id ;;
     readings <- attr pending_readings ;;
     response <- post (SensorData uid readings) reply ;;
     if fst response =? 200
     then update (set_pending_readings [])
     else ret tt)
    (fun _ => Some (ret tt)) ;;;
  ret PNone.

(** The first step of [_send_daily_summary]: pending readings, if there
    are any, are sent first. *)
Definition flush_pending (e : env) : Method unit :=
  pending <- attr pending_readings ;;
  when (negb (is_empty pending))
    (call (_send_sensor_batch (batch_reply e)) ;;; ret tt).

(** [_send_daily_summary].  Both branches on the status of the response
    leave the method by [return]; the statement that resets the daily
    list comes after them. *)
Definition _send_daily_summary (e : env) : Method pyval :=
  try_except
    (flush_pending e ;;;
     inputs <- attr user_inputs_today ;;
     uid <- attr user_id ;;
     response <-
       post (DailySummary uid (yesterday e) (Z.of_nat (List.length inputs))
               inputs (weather_forecast e) (optimization_mode e))
            (summary_reply e) ;;
     (if fst response =? 200 then
        result <- json_of response ;;
        thermal_rates <- lift (py_get result "thermal_rates" (PDict [])) ;;
        return_ thermal_rates
      else return_ PNone : Method unit) ;;;
     update (set_user_inputs_today []) ;;;
     ret PNone)
    (fun _ => Some (return_ PNone)).

Local Close Scope py_scope.

End Collector.

(* ================================================================= *)
(** ** Vocabulary of the statements *)

Module Spec.

(** The optimizer call fails: no response (transport error, timeout), a
    status of 400 or more, a body that cannot be decoded, or a body
    that is not a mapping. *)
Definition optimizer_call_fails (reply : http_reply) : Prop :=
  match reply with
  | NoResponse _ => True
  | Response status body =>
      400 <= status \/
      match body with
      | Err _ => True
      | Ok data => is_dict data = false
      end
  end.

(** What stands under [key] in a response has a length, or [key] is
    missing. *)
Definition sized_or_missing (key : string) (d : list (string * pyval))
  : Prop :=
  match assoc key d with
  | Some v => exists n, py_len v = Ok n
  | None => True
  end.

(** The same with "a status outside 200..299" for the status. *)
Definition optimizer_call_fails_non_2xx (reply : http_reply) : Prop :=
  match reply with
  | NoResponse _ => True
  | Response status body =>
      ~ (200 <= status <= 299) \/
      match body with
      | Err _ => True
      | Ok data => is_dict data = false
      end
  end.

(** The preferences of the worked example: away 08:00, home 17:00,
    72 degrees, savings level 2. *)
Definition example_preferences : Config :=
  {| anonymousId := PNone;
     homeSize := PNum 2000;
     homeTemperature := PNum 72;
     location := PNum 1;
     timeAway := "08:00";
     timeHome := "17:00";
     savingsLevel := PNum 2 |}.

(** A valid time of day in the sense of the specification, and the
    text [HH:MM] that denotes it, two digits for the hour and two for
    the minute. *)
Definition valid_time (hour minute : Z) : Prop :=
  0 <= hour < 24 /\ 0 <= minute < 60.

Definition two_digits (n : Z) : string :=
  String (ascii_of_nat (Z.to_nat (48 + n / 10)))
    (String (ascii_of_nat (Z.to_nat (48 + n mod 10))) EmptyString).

Definition clock_text (hour minute : Z) : string :=
  (two_digits hour ++ ":" ++ two_digits minute)%string.

(** The slot index of the specification for the time of day
    [hour]:[minute]: [floor((hour * 60 + minute) / 30)]. *)
Definition slot_index (hour minute : Z) : Z := (hour * 60 + minute) / 30.

(** The away range of the specification: slot [i] lies in the
    inclusive range [[away_index, home_index]]. *)
Definition away_slot (away_index home_index i : Z) : bool :=
  (away_index <=? i) && (i <=? home_index).

(** The savings offset of the specification: 2, 6, 12 for the levels
    1, 2, 3 and 6 for anything else.  A value is the level [n] when it
    is the number [n]. *)
Definition is_level (n : Z) (v : pyval) : bool :=
  match as_number v with
  | Some q => Qeq_bool q (inject_Z n)
  | None => false
  end.

Definition savings_offset (level : pyval) : Z :=
  if is_level 1 level then 2
  else if is_level 2 level then 6
  else if is_level 3 level then 12
  else 6.

(** A value that can be the key of a dictionary: the savings map can be
    asked for it. *)
Definition hashable (v : pyval) : bool :=
  match v with
  | PList _ | PDict _ => false
  | _ => true
  end.

(** The bounds the specification gives for a slot, with the deadband
    of 1.4 degrees. *)
Definition high_bound (base : Q) (offset : Z) (away : bool) : Q :=
  if away then (base + inject_Z offset + 1.4)%Q else (base + 1.4)%Q.

Definition low_bound (base : Q) (offset : Z) (away : bool) : Q :=
  if away then (base - inject_Z offset - 1.4)%Q else (base - 1.4)%Q.


Import Coordinator.

(** A call of [async_update_schedule] is dropped when it leaves by the
    [return] of the debounce test, admitted otherwise. *)
Definition dropped (c : completion pyval pyval) : Prop :=
  exists r, c = Returned r.

Definition admitted (c : completion pyval pyval) : Prop := ~ dropped c.

(** The value of a key after a service call: the supplied one, or the
    previous one when the key is absent. *)
Definition or_keep {A : Type} (supplied : option A) (previous : A) : A :=
  match supplied with
  | Some v => v
  | None => previous
  end.

(** The preferences after the keys of a service call are merged in. *)
Definition merged_config (data : service_data) (cfg : Config) : Config :=
  {| anonymousId := anonymousId cfg;
     homeSize := or_keep (d_homeSize data) (homeSize cfg);
     homeTemperature := or_keep (d_homeTemperature data) (homeTemperature cfg);
     location := or_keep (d_location data) (location cfg);
     timeAway :=
       or_keep (option_map (str_prefix 5) (d_timeAway data)) (timeAway cfg);
     timeHome :=
       or_keep (option_map (str_prefix 5) (d_timeHome data)) (timeHome cfg);
     savingsLevel := or_keep (d_savingsLevel data) (savingsLevel cfg) |}.

(** A service call that sets nothing. *)
Definition no_data : service_data :=
  {| d_homeSize := None; d_homeTemperature := None; d_location := None;
     d_savingsLevel := None; d_timeAway := None; d_timeHome := None;
     d_optimizationMode := None; d_temperatureSchedule := None |}.

(** A coordinator set up for an account without credentials, with the
    preferences of the worked example. *)
Definition example_coordinator : coordinator :=
  init {| CONF_USER_ID := PNone;
          CONF_AUTH_TOKEN := PNone;
          CONF_HOME_SIZE := PNum 2000;
          CONF_TARGET_TEMP := PNum 72;
          CONF_LOCATION := PNum 1;
          CONF_TIME_AWAY := "08:00:00";
          CONF_TIME_HOME := "17:00:00";
          CONF_SAVINGS_LEVEL := PNum 2 |}.

(** The same coordinator holding the result of an earlier
    optimization. *)
Definition previous_result : pyval :=
  PDict [("HourlyTemperature"%string, PList [PNum 71; PNum 72; PNum 73]);
         ("bestTempActual"%string, PList [PNum 72])].

Definition stale_coordinator : world coordinator :=
  {| self :=
       set__daily_schedule (PList [PNum 72])
         (set_schedule_data (PList [PNum 71; PNum 72; PNum 73])
            (set_optimization_results previous_result example_coordinator));
     sent := [] |}.

(** A service call that only sets the away time. *)
Definition away_time_only (time : string) : service_data :=
  {| d_homeSize := None; d_homeTemperature := None; d_location := None;
     d_savingsLevel := None; d_timeAway := Some time; d_timeHome := None;
     d_optimizationMode := None; d_temperatureSchedule := None |}.

(** A service call that only supplies a custom envelope. *)
Definition custom_only (envelope : pyval) : service_data :=
  {| d_homeSize := None; d_homeTemperature := None; d_location := None;
     d_savingsLevel := None; d_timeAway := None; d_timeHome := None;
     d_optimizationMode := None; d_temperatureSchedule := Some envelope |}.

(** The debounce test lets a call at time [t] through. *)
Definition window_elapsed (t : Q) (c : coordinator) : Prop :=
  Qlt_bool (t - _last_update_time c) (_update_debounce_seconds c) = false.

(** Surroundings in which the optimizer gives [reply] at time [t]. *)
Definition optimizer_gives (reply : http_reply) (t : Q) : env :=
  {| now := t;
     today := 19700;
     rates_reply := NoResponse ClientError;
     optimizer_reply := reply;
     save_reply := NoResponse ClientError;
     weather_forecast := PNone |}.

Import Collector.

(** A batch upload fails when no response arrives or the status is not
    200. *)
Definition upload_fails (reply : http_reply) : Prop :=
  match reply with
  | NoResponse _ => True
  | Response status _ => status <> 200
  end.

(** The readings a series of samples leaves in the buffer. *)
Definition collect_all (samples : list pyval) (w : world DataCollector)
  : world DataCollector :=
  fold_left (fun w' reading => snd (run (_collect_reading (Some reading)) w'))
    samples w.

(** A collector with one logged action and nothing to upload. *)
Definition one_action_logged : world DataCollector :=
  {| self := {| user_id := PStr "user-1";
                pending_readings := [];
                user_inputs_today :=
                  [PDict [("service"%string, PStr "update_schedule")]] |};
     sent := [] |}.

(** Surroundings in which the daily summary is accepted. *)
Definition summary_accepted : env :=
  {| batch_reply := Response 200 (Ok (PDict []));
     summary_reply :=
       Response 200 (Ok (PDict [("thermal_rates"%string, PDict [])]));
     yesterday := PStr "2024-01-01";
     weather_forecast := PNone;
     optimization_mode := PStr "cool" |}.

End Spec.

(* ================================================================= *)
(** ** A judgement on method bodies *)

Module Judgement.

(** What is allowed of a completion: any value when the body ends
    normally, a returned value in [PR], an exception in [PE]. *)
Definition outcome_ok {R A : Type} (PR : R -> Prop) (PE : exn -> Prop)
  (c : completion R A) : Prop :=
  match c with
  | Normal _ => True
  | Returned r => PR r
  | Raised e => PE e
  end.

(** [sat Rel PR PE m]: from every state, [m] ends in a state related by
    [Rel] to the one it started in, with a completion allowed by [PR]
    and [PE]. *)
Definition sat {T R A : Type} (Rel : T -> T -> Prop) (PR : R -> Prop)
  (PE : exn -> Prop) (m : M (world T) R A) : Prop :=
  forall w, Rel (self w) (self (snd (m w))) /\ outcome_ok PR PE (fst (m w)).

Definition anything {X : Type} (x : X) : Prop := True.
Definition nothing {X : Type} (x : X) : Prop := False.

(** Relations between the state before and the state after: the
    attribute [f] is the same; both of two relations hold. *)
Definition same {T X : Type} (f : T -> X) (c c' : T) : Prop := f c' = f c.

Definition both {T : Type} (R1 R2 : T -> T -> Prop) (c c' : T) : Prop :=
  R1 c c' /\ R2 c c'.

End Judgement.
Import Judgement.

(** What stays the same in a coordinator when only the thermal rates
    are written. *)
Definition rates_apart : Coordinator.coordinator -> _ -> Prop :=
  both (same Coordinator.user_id)
 (both (same Coordinator.auth_token)
 (both (same Coordinator.config)
 (both (same Coordinator.schedule_data)
 (both (same Coordinator.optimization_results)
 (both (same Coordinator._last_update_time)
 (both (same Coordinator._update_debounce_seconds)
 (both (same Coordinator._daily_schedule)
 (both (same Coordinator._schedule_date)
 (both (same Coordinator._custom_temperature_schedule)
       (same Coordinator.optimization_mode)))))))))).

(** What stays the same when the thermal rates and the stored
    optimization are written. *)
Definition results_apart : Coordinator.coordinator -> _ -> Prop :=
  both (same Coordinator.user_id)
 (both (same Coordinator.auth_token)
 (both (same Coordinator.config)
 (both (same Coordinator._last_update_time)
 (both (same Coordinator._update_debounce_seconds)
 (both (same Coordinator._custom_temperature_schedule)
       (same Coordinator.optimization_mode)))))).

(* ================================================================= *)
(** ** Further methods of the coordinator *)

Module CoordinatorMore.

Import Coordinator.

Local Open Scope py_scope.

(** [v[i]]: lists and strings are indexed by position, from the end
    for a negative index; a dictionary of the model has no integer
    key. *)
Definition py_index (v : pyval) (i : Z) : result pyval :=
  match v with
  | PList l =>
      let n := Z.of_nat (List.length l) in
      let j := if i <? 0 then i + n else i in
      if j <? 0 then Err IndexError
      else match nth_error l (Z.to_nat j) with
           | Some x => Ok x
           | None => Err IndexError
           end
  | PStr s =>
      let n := Z.of_nat (String.length s) in
      let j := if i <? 0 then i + n else i in
      if j <? 0 then Err IndexError
      else match String.get (Z.to_nat j) s with
           | Some c => Ok (PStr (String c EmptyString))
           | None => Err IndexError
           end
  | PDict _ => Err KeyError
  | _ => Err TypeError
  end.

(** [get_current_setpoint], at the wall-clock time [hour]:[minute];
    the Python [None] is [PNone]. *)
Definition get_current_setpoint (hour minute : Z) (c : coordinator)
  : result pyval :=
  if negb (truthy (optimization_results c)) then Ok PNone
  else
    rbind (py_get (optimization_results c) "bestTempActual" (PList []))
      (fun best_temps =>
         if negb (truthy best_temps) then Ok PNone
         else
           let interval := hour * 2 + minute / 30 in
           rbind (py_len best_temps)
             (fun n =>
                if (0 <=? interval) && (interval <? n)
                then py_index best_temps interval
                else Ok PNone)).

(** [force_optimization]. *)
Definition force_optimization (e : env) : Method pyval :=
  async_request_refresh e ;;;
  ret PNone.

(** [_handle_midnight_optimization]; the time handed over by the timer
    is not used. *)
Definition _handle_midnight_optimization (e : env) : Method pyval :=
  async_request_refresh e ;;;
  ret PNone.

(** [async_optimize_and_save].  The payload has no entry for stored
    optimization results; the log records [None] in its place. *)
Definition async_optimize_and_save (e : env) (immediate : bool)
  : Method pyval :=
  uid <- attr user_id ;;
  tok <- attr auth_token ;;
  (if negb (truthy uid) || negb (truthy tok)
   then return_ PNone else ret tt) ;;;
  try_except
    (schedule <- current_schedule ;;
     cfg <- attr config ;;
     high <- lift (py_get schedule "highTemperatures" PNone) ;;
     low <- lift (py_get schedule "lowTemperatures" PNone) ;;
     heating <- attr backend_heating_rate ;;
     cooling <- attr backend_cooling_rate ;;
     natural <- attr backend_natural_rate ;;
     mode <- attr optimization_mode ;;
     let preferences :=
       [("home_size", homeSize cfg);
        ("base_temperature", homeTemperature cfg);
        ("target_temperature", homeTemperature cfg);
        ("location", location cfg);
        ("savings_level", savingsLevel cfg);
        ("time_away", PStr (timeAway cfg));
        ("time_home", PStr (timeHome cfg));
        ("high_temperatures", high);
        ("low_temperatures", low);
        ("heating_rate", heating);
        ("cooling_rate", cooling);
        ("natural_rate", natural);
        ("optimization_mode", mode)]%string in
     response <-
       post (SavePreferences uid preferences (weather_forecast e) immediate
               PNone)
            (save_reply e) ;;
     raise_for_status response ;;;
     result <- json_of response ;;
     status <- lift (py_get result "status" PNone) ;;
     if py_eq_str status "success" then
       match result with
       | PDict items =>
           if immediate && dict_mem items "optimization" then
             let optimization_data := dict_get items "optimization" PNone in
             update (set_optimization_results optimization_data) ;;;
             hourly <- lift (py_get optimization_data "HourlyTemperature"
                               (PList [])) ;;
             update (set_schedule_data hourly) ;;;
             best <- lift (py_get optimization_data "bestTempActual"
                             (PList [])) ;;
             update (set__daily_schedule best) ;;;
             update (set__schedule_date (Some (today e))) ;;;
             savings <- lift (py_get optimization_data "costSavings"
                                (PNum 0)) ;;
             lift (py_format_float savings)
           else ret tt
       | _ => ret tt
       end
     else ret tt)
    (fun _ => Some (ret tt)) ;;;
  ret PNone.

Local Close Scope py_scope.

End CoordinatorMore.

(* ================================================================= *)
(** ** The mode selector ([select.py]) *)

Module Select.







Local Open Scope py_scope.


Local Close Scope py_scope.

End Select.

(* ================================================================= *)
(** ** Further vocabulary of the statements *)

Module More.

(** The position [get_current_setpoint] reads at a time of day. *)
Definition slot_of (hour minute : Z) : Z := hour * 2 + minute / 30.

(** The element of a list at a position, [None] beyond its end. *)
Definition item_or_None (l : list pyval) (i : Z) : pyval :=
  match nth_error l (Z.to_nat i) with
  | Some v => v
  | None => PNone
  end.

Import Coordinator.

(** Both credentials are present and not empty. *)
Definition authenticated (c : coordinator) : bool :=
  truthy (user_id c) && truthy (auth_token c).

(** The thermal rates a reply of the rate endpoint carries: status 200,
    a mapping with a true [success] and, under [thermal_rates], a
    mapping that is not empty. *)
Definition rates_payload (reply : http_reply)
  : option (list (string * pyval)) :=
  match reply with
  | Response status (Ok (PDict d)) =>
      if (status =? 200) && truthy (dict_get d "success" PNone) then
        match dict_get d "thermal_rates" PNone with
        | PDict (item :: rates) => Some (item :: rates)
        | _ => None
        end
      else None
  | _ => None
  end.

(** The optimization a reply of the save endpoint carries: a status
    below 400 and a mapping with [status] equal to ["success"] and an
    [optimization] entry. *)
Definition optimization_payload (reply : http_reply) : option pyval :=
  match reply with
  | Response status (Ok (PDict d)) =>
      if negb (400 <=? status) &&
         py_eq_str (dict_get d "status" PNone) "success" &&
         dict_mem d "optimization"
      then Some (dict_get d "optimization" PNone)
      else None
  | _ => None
  end.

(** The body of the optimizer request of a coordinator in state [c]
    for the envelope [schedule]. *)
Definition request_of (c : coordinator) (schedule : pyval)
  : optimizer_request :=
  {| rq_config := config c;
     rq_temperatureSchedule := schedule;
     rq_heatUpRate := heat_up_rate c;
     rq_coolDownRate := cool_down_rate c;
     rq_mode := optimization_mode c;
     rq_naturalRate :=
       if is_not_None (backend_natural_rate c)
       then Some (backend_natural_rate c) else None |}.

(** Kinds of request. *)
Definition to_rates_endpoint (rq : request) : Prop :=
  match rq with CalculateRates _ => True | _ => False end.

Definition to_optimizer_or_rates (rq : request) : Prop :=
  match rq with
  | CalculateRates _ | GenerateSchedule _ => True
  | _ => False
  end.

(** A save request that asks (or not) for an immediate optimization. *)
Definition save_with (immediate : bool) (rq : request) : Prop :=
  match rq with
  | SavePreferences _ _ _ flag _ => flag = immediate
  | _ => False
  end.

(** The keys of the preferences of a save request. *)
Definition preference_keys : list string :=
  ["home_size"; "base_temperature"; "target_temperature"; "location";
   "savings_level"; "time_away"; "time_home"; "high_temperatures";
   "low_temperatures"; "heating_rate"; "cooling_rate"; "natural_rate";
   "optimization_mode"]%string.

(** What a save request says about a coordinator [c] whose envelope is
    the mapping [d]. *)
Definition describes (c : coordinator) (d : list (string * pyval))
  (preferences : list (string * pyval)) : Prop :=
  map fst preferences = preference_keys /\
  dict_get preferences "home_size" PNone = homeSize (config c) /\
  dict_get preferences "base_temperature" PNone = homeTemperature (config c) /\
  dict_get preferences "target_temperature" PNone =
    homeTemperature (config c) /\
  dict_get preferences "location" PNone = location (config c) /\
  dict_get preferences "savings_level" PNone = savingsLevel (config c) /\
  dict_get preferences "time_away" PNone = PStr (timeAway (config c)) /\
  dict_get preferences "time_home" PNone = PStr (timeHome (config c)) /\
  dict_get preferences "high_temperatures" PNone =
    dict_get d "highTemperatures" PNone /\
  dict_get preferences "low_temperatures" PNone =
    dict_get d "lowTemperatures" PNone /\
  dict_get preferences "heating_rate" PNone = backend_heating_rate c /\
  dict_get preferences "cooling_rate" PNone = backend_cooling_rate c /\
  dict_get preferences "natural_rate" PNone = backend_natural_rate c /\
  dict_get preferences "optimization_mode" PNone = optimization_mode c.

(** What no service writes: the credentials, the identifier sent along
    with the preferences, and the debounce window. *)
Definition fixed_at_setup : coordinator -> coordinator -> Prop :=
  both (same user_id)
 (both (same auth_token)
 (both (same (fun c => anonymousId (config c)))
       (same _update_debounce_seconds))).

(** Both stored times have at most five characters. *)
Definition times_short (cfg : Config) : Prop :=
  (String.length (timeAway cfg) <= 5)%nat /\
  (String.length (timeHome cfg) <= 5)%nat.

(** A coordinator set up for an account with credentials, with the
    preferences of the worked example. *)
Definition signed_in : world coordinator :=
  {| self := init {| CONF_USER_ID := PStr "user-1";
                     CONF_AUTH_TOKEN := PStr "token";
                     CONF_HOME_SIZE := PNum 2000;
                     CONF_TARGET_TEMP := PNum 72;
                     CONF_LOCATION := PNum 1;
                     CONF_TIME_AWAY := "08:00:00";
                     CONF_TIME_HOME := "17:00:00";
                     CONF_SAVINGS_LEVEL := PNum 2 |};
     sent := [] |}.

(** Surroundings in which the store gives [reply] at time [t], and the
    other services do not answer. *)
Definition store_gives (reply : http_reply) (t : Q) : env :=
  {| now := t;
     today := 19700;
     rates_reply := NoResponse ClientError;
     optimizer_reply := NoResponse ClientError;
     save_reply := reply;
     weather_forecast := PNone |}.


(** What the coordinator is asked to do, one request after the
    other. *)
Inductive action : Type :=
| Refresh (e : env)
| Update (e : env) (data : service_data) (save_to_db : bool)
| OptimizeAndSave (e : env) (immediate : bool).

Definition perform (a : action) (w : world coordinator)
  : world coordinator :=
  match a with
  | Refresh e => snd (run (CoordinatorMore.force_optimization e) w)
  | Update e data save_to_db =>
      snd (run (async_update_schedule e data save_to_db) w)
  | OptimizeAndSave e immediate =>
      snd (run (CoordinatorMore.async_optimize_and_save e immediate) w)
  end.

Definition perform_all (actions : list action) (w : world coordinator)
  : world coordinator :=
  fold_left (fun w' a => perform a w') actions w.

End More.

(* ================================================================= *)
(** ** Sessions of the data collector *)

Module Session.

Import Collector.

(** What happens to a collector, one event after the other: a sampling
    tick (with the reading it assembles, if any), a logged user input,
    an hourly upload and the daily summary. *)
Inductive operation : Type :=
| Sample (sample : option pyval)
| Log (entry : pyval)
| Upload (reply : http_reply)
| Summarize (e : env).

Definition operate (op : operation) (w : world DataCollector)
  : world DataCollector :=
  match op with
  | Sample sample => snd (run (_collect_reading sample) w)
  | Log entry => snd (run (log_user_input entry) w)
  | Upload reply => snd (run (_send_sensor_batch reply) w)
  | Summarize e => snd (run (_send_daily_summary e) w)
  end.

Definition operate_all (ops : list operation) (w : world DataCollector)
  : world DataCollector :=
  fold_left (fun w' op => operate op w') ops w.

(** The entries logged and the readings assembled in the course of a
    series of events, in their order. *)
Definition logged (ops : list operation) : list pyval :=
  flat_map (fun op => match op with Log entry => [entry] | _ => [] end) ops.

Definition sampled (ops : list operation) : list pyval :=
  flat_map
    (fun op => match op with Sample (Some reading) => [reading] | _ => [] end)
    ops.

(** A request of the collector for the user [uid]: a batch that is not
    empty, or a summary whose count is the number of its entries. *)
Definition well_formed (uid : pyval) (rq : request) : Prop :=
  match rq with
  | SensorData u readings => u = uid /\ readings <> []
  | DailySummary u _ inputs_today services_used _ _ =>
      u = uid /\ inputs_today = Z.of_nat (List.length services_used)
  | _ => False
  end.

End Session.

(* ================================================================= *)
(** ** A judgement on the requests of a method *)

Module Trace.

(** [emits P m]: whatever the state, [m] only appends to the log of
    requests, and every request it appends satisfies [P]. *)
Definition emits {T R A : Type} (P : request -> Prop)
  (m : M (world T) R A) : Prop :=
  forall w, exists l, sent (snd (m w)) = sent w ++ l /\ Forall P l.

End Trace.
Import Trace.

(* ================================================================= *)
(** * Theorems *)

(** Unfolding of the control operators. *)
Ltac unfold_control :=
  unfold run, call, try_except, when, post, raise_for_status, json_of,
    attr, update, lift, bind, ret, return_, raise, gets, modify in *.

(* ----------------------------------------------------------------- *)
(** ** Data collector *)

Module CollectorFacts.

Import Collector Spec.

Lemma collect_all_cons (r : pyval) (samples : list pyval)
  (w : world DataCollector) :
  collect_all (r :: samples) w =
    collect_all samples
      {| self := set_pending_readings (pending_readings (self w) ++ [r])
                   (self w);
         sent := sent w |}.
Proof. reflexivity. Qed.

Lemma collect_all_pending (samples : list pyval) :
  forall w : world DataCollector,
    pending_readings (self (collect_all samples w)) =
      pending_readings (self w) ++ samples /\
    user_id (self (collect_all samples w)) = user_id (self w) /\
    sent (collect_all samples w) = sent w.
Proof.
  induction samples as [|r samples IH]; intro w.
  - simpl. rewrite app_nil_r. auto.
  - rewrite collect_all_cons.
    destruct (IH {| self := set_pending_readings
                              (pending_readings (self w) ++ [r]) (self w);
                    sent := sent w |}) as (Hp & Hu & Hs).
    rewrite Hp, Hu, Hs. simpl. rewrite <- app_assoc. auto.
Qed.

Lemma failed_upload_unchanged (w : world DataCollector) (reply : http_reply) :
  upload_fails reply ->
  fst (run (_send_sensor_batch reply) w) = Ok PNone /\
  self (snd (run (_send_sensor_batch reply) w)) = self w.
Proof.
  intro Hfail. unfold _send_sensor_batch. unfold_control.
  destruct w as [c log]; simpl.
  destruct (pending_readings c) as [|r rs]; simpl; [auto|].
  destruct reply as [e|status body]; simpl in *; [auto|].
  destruct (Z.eqb_spec status 200) as [->|_]; [contradiction|]. simpl. auto.
Qed.

Lemma successful_upload_sends_all (w : world DataCollector)
  (body : result pyval) :
  pending_readings (self w) <> [] ->
  run (_send_sensor_batch (Response 200 body)) w =
    (Ok PNone,
     {| self := set_pending_readings [] (self w);
        sent := sent w ++
                [SensorData (user_id (self w)) (pending_readings (self w))] |}).
Proof.
  intro Hne. unfold _send_sensor_batch. unfold_control.
  destruct w as [c log]; simpl in *.
  destruct (pending_readings c) as [|r rs] eqn:E; [congruence|].
  simpl. rewrite E. reflexivity.
Qed.

Lemma successful_upload_clears (w : world DataCollector)
  (body : result pyval) :
  fst (run (_send_sensor_batch (Response 200 body)) w) = Ok PNone /\
  pending_readings (self (snd (run (_send_sensor_batch (Response 200 body)) w)))
    = [].
Proof.
  destruct (pending_readings (self w)) as [|r rs] eqn:E.
  - unfold _send_sensor_batch. unfold_control.
    destruct w as [c log]; simpl in *. rewrite E. simpl. auto.
  - rewrite successful_upload_sends_all by congruence. simpl. auto.
Qed.

(** C4.  A batch upload that fails (no response, or a status other than
    200) returns normally and leaves the collector, hence every
    buffered reading, as it was.  After any number of further samples,
    an upload answered with status 200 issues one request that carries
    exactly the retained readings followed by the appended ones, and
    leaves the buffer empty. *)
Theorem C4_failed_upload_retains_then_success_sends_all
  (w : world DataCollector) (failed : http_reply)
  (appended : list pyval) (body : result pyval) :
  upload_fails failed ->
  let w1 := snd (run (_send_sensor_batch failed) w) in
  let w2 := collect_all appended w1 in
  let w3 := snd (run (_send_sensor_batch (Response 200 body)) w2) in
  fst (run (_send_sensor_batch failed) w) = Ok PNone /\
  pending_readings (self w1) = pending_readings (self w) /\
  self w1 = self w /\
  pending_readings (self w2) = pending_readings (self w) ++ appended /\
  fst (run (_send_sensor_batch (Response 200 body)) w2) = Ok PNone /\
  (pending_readings (self w) ++ appended <> [] ->
   sent w3 =
     sent w2 ++
     [SensorData (user_id (self w)) (pending_readings (self w) ++ appended)]) /\
  pending_readings (self w3) = [].
Proof.
  intros Hfail w1 w2 w3.
  destruct (failed_upload_unchanged w failed Hfail) as [Hr Hs].
  destruct (collect_all_pending appended w1) as (Hp & Hu & _).
  fold w2 in Hp, Hu. fold w1 in Hs. rewrite Hs in Hp, Hu.
  destruct (successful_upload_clears w2 body) as [Hr3 Hc3]. fold w3 in Hc3.
  repeat split; auto.
  - now rewrite Hs.
  - intro Hne. subst w3.
    rewrite successful_upload_sends_all by (rewrite Hp; exact Hne).
    simpl. now rewrite Hp, Hu.
Qed.

(** A run on three buffered readings: the upload is refused with status
    500, one more reading arrives, the next upload is accepted. *)
Lemma C4_witness :
  let w := {| self := {| user_id := PStr "user-1";
                         pending_readings := [PNum 1; PNum 2; PNum 3];
                         user_inputs_today := [] |};
              sent := [] |} in
  let w1 := snd (run (_send_sensor_batch (Response 500 (Err ValueError))) w) in
  let w2 := collect_all [PNum 4] w1 in
  let w3 := snd (run (_send_sensor_batch (Response 200 (Ok PNone))) w2) in
  pending_readings (self w1) = [PNum 1; PNum 2; PNum 3] /\
  sent w3 =
    sent w2 ++ [SensorData (PStr "user-1") [PNum 1; PNum 2; PNum 3; PNum 4]] /\
  pending_readings (self w3) = [].
Proof.
  intros w w1 w2 w3.
  assert (Hfail : upload_fails (Response 500 (Err ValueError)))
    by (simpl; lia).
  destruct (C4_failed_upload_retains_then_success_sends_all
              w (Response 500 (Err ValueError)) [PNum 4] (Ok PNone) Hfail)
    as (_ & H1 & _ & _ & _ & H3 & H4).
  split; [exact H1|split; [|exact H4]].
  apply H3. simpl. discriminate.
Defined.

(** The daily list is the same after [_send_daily_summary] as before
    it, whatever the replies are. *)
Lemma daily_summary_keeps_inputs (e : env) (w : world DataCollector) :
  user_inputs_today (self (snd (run (_send_daily_summary e) w))) =
    user_inputs_today (self w).
Proof.
  unfold _send_daily_summary, flush_pending, _send_sensor_batch.
  unfold_control. destruct w as [[uid pending inputs] log]; simpl.
  destruct pending as [|r rs]; simpl;
    [|destruct (batch_reply e) as [x|bstatus bbody]; simpl;
      [|destruct (bstatus =? 200); simpl]];
    (destruct (summary_reply e) as [x'|status body]; simpl; [reflexivity|];
     destruct (status =? 200); simpl; [|reflexivity];
     destruct body as [v|x']; simpl; [|reflexivity];
     destruct v; reflexivity).
Qed.

(** C5.  With one logged action and a daily-summary endpoint that
    answers 200, [_send_daily_summary] posts the summary and returns
    the thermal rates of the response, and the logged action is still
    in the list: the statement that clears the list is never reached. *)
Theorem C5_successful_summary_keeps_logged_actions :
  run (_send_daily_summary summary_accepted) one_action_logged =
    (Ok (PDict []),
     {| self := self one_action_logged;
        sent := [DailySummary (PStr "user-1") (PStr "2024-01-01") 1
                   (user_inputs_today (self one_action_logged))
                   PNone (PStr "cool")] |}) /\
  user_inputs_today
    (self (snd (run (_send_daily_summary summary_accepted) one_action_logged)))
    <> [].
Proof.
  split.
  - reflexivity.
  - rewrite daily_summary_keeps_inputs. discriminate.
Qed.

(** C10.  With an empty buffer, [_send_sensor_batch] returns at once:
    no request, no exception, the collector untouched.  The flush that
    opens the daily summary does not even call it, and the only request
    of the whole summary run is the summary itself. *)
Theorem C10_empty_buffer_is_not_uploaded (w : world DataCollector) :
  pending_readings (self w) = [] ->
  (forall reply, run (_send_sensor_batch reply) w = (Ok PNone, w)) /\
  (forall e, flush_pending e w = (Normal tt, w)) /\
  (forall e,
     let w' := snd (run (_send_daily_summary e) w) in
     (exists r, fst (run (_send_daily_summary e) w) = Ok r) /\
     pending_readings (self w') = [] /\
     sent w' =
       sent w ++
       [DailySummary (user_id (self w)) (yesterday e)
          (Z.of_nat (List.length (user_inputs_today (self w))))
          (user_inputs_today (self w)) (weather_forecast e)
          (optimization_mode e)]).
Proof.
  destruct w as [[uid pending inputs] log]; simpl. intros ->.
  split; [|split].
  - intro reply. reflexivity.
  - intro e. reflexivity.
  - intro e. unfold _send_daily_summary, flush_pending. unfold_control. simpl.
    destruct (summary_reply e) as [x|status body]; simpl; [eauto|].
    destruct (status =? 200); simpl; [|eauto].
    destruct body as [v|x]; simpl; [|eauto].
    destruct v; simpl; eauto.
Qed.

(** An idle collector whose upload endpoint would refuse. *)
Lemma C10_witness :
  let w := {| self := {| user_id := PStr "user-1";
                         pending_readings := [];
                         user_inputs_today := [] |};
              sent := [] |} in
  run (_send_sensor_batch (Response 500 (Err ValueError))) w = (Ok PNone, w).
Proof.
  intros w.
  exact (proj1 (C10_empty_buffer_is_not_uploaded w eq_refl)
           (Response 500 (Err ValueError))).
Defined.

End CollectorFacts.

(* ----------------------------------------------------------------- *)
(** ** Schedule builder *)

Module ScheduleFacts.

Import Spec.

Lemma range_length (n : Z) : List.length (range n) = Z.to_nat n.
Proof. unfold range. now rewrite length_map, length_seq. Qed.

Lemma range_nth (n i : Z) :
  0 <= i < n -> nth_error (range n) (Z.to_nat i) = Some i.
Proof.
  intro Hi. unfold range.
  rewrite nth_error_map, nth_error_seq.
  destruct (Nat.ltb_spec (Z.to_nat i) (Z.to_nat n)) as [_|Hge]; [|lia].
  simpl. f_equal. lia.
Qed.

(** The offsets the savings map can yield. *)
Lemma savings_offset_values (level : pyval) (offset : Z) :
  _calculate_savings_offset level = Ok offset ->
  offset = 2 \/ offset = 6 \/ offset = 12.
Proof.
  unfold _calculate_savings_offset.
  destruct level as [|b|q|s|l|d]; simpl; try discriminate.
  - intro H; injection H as <-; auto.
  - destruct b; vm_compute; intro H; injection H as <-; auto.
  - destruct (Qeq_bool q 1), (Qeq_bool q 2), (Qeq_bool q 3);
      intro H; injection H as <-; auto.
  - intro H; injection H as <-; auto.
Qed.

Section Loop.
Variables (base_temp : pyval) (base : Q) (away home offset : Z).
Hypothesis base_number : as_number base_temp = Some base.

Let in_away (i : Z) : bool := (away <=? i) && (i <=? home).

Lemma build_step_eq (i : Z) (high low : list Q) :
  build_step base_temp away home offset i (high, low) =
    Ok (high ++ [high_bound base offset (in_away i)],
        low ++ [low_bound base offset (in_away i)]).
Proof.
  unfold build_step, py_add, py_sub. rewrite base_number.
  fold (in_away i). destruct (in_away i); reflexivity.
Qed.

(** The loop appends, slot by slot, the bounds of the slots. *)
Lemma build_loop (slots : list Z) :
  forall high low,
    for_each slots (build_step base_temp away home offset) (high, low) =
      Ok (high ++ map (fun i => high_bound base offset (in_away i)) slots,
          low ++ map (fun i => low_bound base offset (in_away i)) slots).
Proof.
  induction slots as [|i slots IH]; intros high low; cbn [for_each map].
  - now rewrite !app_nil_r.
  - rewrite build_step_eq. cbn [rbind].
    rewrite IH, <- !app_assoc. reflexivity.
Qed.
End Loop.

(** The schedule built from preferences with a numeric temperature. *)
Lemma build_schedule_eq (cfg : Config) (base : Q) (offset : Z) :
  as_number (homeTemperature cfg) = Some base ->
  _calculate_savings_offset (savingsLevel cfg) = Ok offset ->
  _build_30min_temperature_schedule cfg =
    Ok {| highTemperatures :=
            map (fun i => high_bound base offset (in_away_interval cfg i))
              (range 48);
          lowTemperatures :=
            map (fun i => low_bound base offset (in_away_interval cfg i))
              (range 48);
          intervalMinutes := 30;
          totalIntervals := 48 |}.
Proof.
  intros Hbase Hoff. unfold _build_30min_temperature_schedule.
  rewrite Hoff. cbn [rbind].
  unfold INTERVALS_PER_DAY.
  rewrite (build_loop _ base _ _ _ Hbase). reflexivity.
Qed.

Lemma bounds_ordered (base : Q) (offset : Z) (away : bool) :
  offset = 2 \/ offset = 6 \/ offset = 12 ->
  (low_bound base offset away <= high_bound base offset away)%Q.
Proof.
  intros [-> | [-> | ->]]; destruct away; unfold low_bound, high_bound, inject_Z; lra.
Qed.

(** *** The code against the specification *)

Lemma In_range (n i : Z) : 0 <= i < n -> In i (range n).
Proof.
  intro Hi. unfold range. apply in_map_iff.
  exists (Z.to_nat i). split; [lia|]. apply in_seq. lia.
Qed.

(** All 1440 times of the day, one by one. *)
Lemma every_clock_text :
  forallb (fun h =>
    forallb (fun m => _time_to_30min_index (clock_text h m) =? slot_index h m)
      (range 60)) (range 24) = true.
Proof. vm_compute. reflexivity. Qed.

(** The index the code gives to a valid time written [HH:MM] is the
    slot index of the specification. *)
Lemma time_index_is_slot_index (hour minute : Z) :
  valid_time hour minute ->
  _time_to_30min_index (clock_text hour minute) = slot_index hour minute.
Proof.
  intros [Hh Hm]. pose proof every_clock_text as H.
  rewrite forallb_forall in H. specialize (H hour (In_range 24 hour Hh)).
  rewrite forallb_forall in H. specialize (H minute (In_range 60 minute Hm)).
  apply Z.eqb_eq in H. exact H.
Qed.

(** The savings map answers every hashable level, with the offset of
    the specification. *)
Lemma savings_offset_is_spec (level : pyval) :
  hashable level = true ->
  _calculate_savings_offset level = Ok (savings_offset level).
Proof.
  unfold _calculate_savings_offset, savings_offset, is_level.
  destruct level as [|b|q|s|l|d]; cbn [hashable as_number];
    try discriminate; intros _; try reflexivity.
  - destruct b; reflexivity.
  - change (inject_Z 1) with 1%Q. change (inject_Z 2) with 2%Q.
    change (inject_Z 3) with 3%Q.
    destruct (Qeq_bool q 1), (Qeq_bool q 2), (Qeq_bool q 3); reflexivity.
Qed.

(** C3.  Take preferences whose away and home times are valid times of
    day written [HH:MM], whose temperature is a number and whose
    savings level can be looked up in the savings map (any value but a
    list or a dictionary).  With the slot indices of the
    specification, [floor((hour * 60 + minute) / 30)], and its savings
    offset (2, 6, 12 for the levels 1, 2, 3 and 6 for anything else,
    the texts ["1"], ["2"], ["3"] included), the builder returns a
    schedule of exactly 48 high and 48 low entries; in every slot the
    high bound is at least the low bound; a slot between the away index
    and the home index (both included) has high = base + offset + 1.4
    and low = base - offset - 1.4, every other slot has high = base +
    1.4 and low = base - 1.4; when the away index is after the home
    index every slot has the latter values.  For away 08:00, home
    17:00, base 72 and level 2 the indices are 16 and 34, the slots 16
    to 34 carry 79.4 and 64.6 and all the others, slot 0 among them,
    73.4 and 70.6. *)
Theorem C3_schedule_builder_envelope (cfg : Config) (base : Q)
  (away_hour away_minute home_hour home_minute : Z) :
  as_number (homeTemperature cfg) = Some base ->
  hashable (savingsLevel cfg) = true ->
  valid_time away_hour away_minute ->
  valid_time home_hour home_minute ->
  timeAway cfg = clock_text away_hour away_minute ->
  timeHome cfg = clock_text home_hour home_minute ->
  let away_index := slot_index away_hour away_minute in
  let home_index := slot_index home_hour home_minute in
  let offset := savings_offset (savingsLevel cfg) in
  (exists s,
     _build_30min_temperature_schedule cfg = Ok s /\
     List.length (highTemperatures s) = 48%nat /\
     List.length (lowTemperatures s) = 48%nat /\
     (forall i, 0 <= i < 48 ->
        exists high low,
          nth_error (highTemperatures s) (Z.to_nat i) = Some high /\
          nth_error (lowTemperatures s) (Z.to_nat i) = Some low /\
          (low <= high)%Q /\
          high = high_bound base offset (away_slot away_index home_index i) /\
          low = low_bound base offset (away_slot away_index home_index i)) /\
     (home_index < away_index ->
      forall i, 0 <= i < 48 ->
        nth_error (highTemperatures s) (Z.to_nat i) = Some (base + 1.4)%Q /\
        nth_error (lowTemperatures s) (Z.to_nat i) = Some (base - 1.4)%Q)) /\
  (savings_offset (PNum 1) = 2 /\ savings_offset (PNum 2) = 6 /\
   savings_offset (PNum 3) = 12 /\ savings_offset (PNum 4) = 6 /\
   savings_offset (PStr "1") = 6 /\ savings_offset PNone = 6) /\
  slot_index 8 0 = 16 /\
  slot_index 17 0 = 34 /\
  _build_30min_temperature_schedule example_preferences =
    Ok {| highTemperatures :=
            repeat 73.4%Q 16 ++ repeat 79.4%Q 19 ++ repeat 73.4%Q 13;
          lowTemperatures :=
            repeat 70.6%Q 16 ++ repeat 64.6%Q 19 ++ repeat 70.6%Q 13;
          intervalMinutes := 30;
          totalIntervals := 48 |}.
Proof.
  intros Hbase Hlevel Haway Hhome Htaway Hthome away_index home_index offset.
  pose proof (savings_offset_is_spec _ Hlevel) as Hoff. fold offset in Hoff.
  assert (Hslot : forall i,
            in_away_interval cfg i = away_slot away_index home_index i).
  { intro i. unfold in_away_interval, away_slot.
    rewrite Htaway, Hthome.
    now rewrite !time_index_is_slot_index by assumption. }
  split; [|split; [|split; [|split]]].
  - eexists. split; [exact (build_schedule_eq cfg base offset Hbase Hoff)|].
    cbn [highTemperatures lowTemperatures].
    rewrite !length_map, range_length.
    split; [reflexivity|split; [reflexivity|split]].
    + intros i Hi. do 2 eexists.
      rewrite !nth_error_map, (range_nth 48 i Hi). cbn [option_map].
      rewrite Hslot.
      split; [reflexivity|split; [reflexivity|]].
      split; [|split; reflexivity].
      apply bounds_ordered. exact (savings_offset_values _ _ Hoff).
    + intros Hlt i Hi.
      rewrite !nth_error_map, (range_nth 48 i Hi). cbn [option_map].
      rewrite Hslot.
      assert (Hout : away_slot away_index home_index i = false).
      { unfold away_slot.
        destruct (Z.leb_spec away_index i); destruct (Z.leb_spec i home_index);
          simpl; auto; lia. }
      rewrite Hout. split; reflexivity.
  - repeat split.
  - reflexivity.
  - reflexivity.
  - vm_compute. reflexivity.
Qed.

(** The worked example, read off the theorem at slot 20 (10:00). *)
Lemma C3_witness :
  exists s high low,
    _build_30min_temperature_schedule example_preferences = Ok s /\
    nth_error (highTemperatures s) 20 = Some high /\
    nth_error (lowTemperatures s) 20 = Some low /\
    (low <= high)%Q /\
    high = (72 + 6 + 1.4)%Q /\
    low = (72 - 6 - 1.4)%Q.
Proof.
  destruct (C3_schedule_builder_envelope example_preferences 72 8 0 17 0
              eq_refl eq_refl
              ltac:(unfold valid_time; lia) ltac:(unfold valid_time; lia)
              eq_refl eq_refl)
    as [(s & Hs & _ & _ & Hslot & _) _].
  destruct (Hslot 20 ltac:(lia))
    as (high & low & Hh & Hl & Hle & Hhigh & Hlow).
  exists s, high, low. auto 10.
Defined.

End ScheduleFacts.


(* ----------------------------------------------------------------- *)
(** ** Rules of the judgement *)

#[export] Instance same_Reflexive {T X : Type} (f : T -> X) :
  Reflexive (same f).
Proof. intro c. reflexivity. Qed.

#[export] Instance same_Transitive {T X : Type} (f : T -> X) :
  Transitive (same f).
Proof. intros a b c Hab Hbc. unfold same in *. congruence. Qed.

#[export] Instance both_Reflexive {T : Type} (R1 R2 : T -> T -> Prop)
  `{!Reflexive R1} `{!Reflexive R2} : Reflexive (both R1 R2).
Proof. intro c. split; reflexivity. Qed.

#[export] Instance both_Transitive {T : Type} (R1 R2 : T -> T -> Prop)
  `{!Transitive R1} `{!Transitive R2} : Transitive (both R1 R2).
Proof.
  intros a b c [H1 H2] [H3 H4]. split; etransitivity; eassumption.
Qed.

Section Rules.
Context {T : Type} (Rel : T -> T -> Prop).
Context `{!Reflexive Rel} `{!Transitive Rel}.
Context {R : Type} (PR : R -> Prop).

Lemma sat_ret {A} PE (a : A) : sat Rel PR PE (ret a).
Proof. intro w. simpl. split; [reflexivity|exact I]. Qed.

Lemma sat_return {A} PE (r : R) :
  PR r -> sat Rel PR PE (return_ r : M (world T) R A).
Proof. intros Hr w. simpl. split; [reflexivity|exact Hr]. Qed.

Lemma sat_raise {A} (PE : exn -> Prop) (e : exn) :
  PE e -> sat Rel PR PE (raise e : M (world T) R A).
Proof. intros He w. simpl. split; [reflexivity|exact He]. Qed.

Lemma sat_lift {A} (PE : exn -> Prop) (r : result A) :
  (forall e, r = Err e -> PE e) -> sat Rel PR PE (lift r).
Proof.
  intros He w. destruct r; simpl; (split; [reflexivity|auto]).
Qed.

Lemma sat_attr {A} PE (g : T -> A) : sat Rel PR PE (attr g).
Proof. intro w. simpl. split; [reflexivity|exact I]. Qed.

Lemma sat_post (PE : exn -> Prop) (rq : request) (reply : http_reply) :
  (forall e, reply = NoResponse e -> PE e) ->
  sat Rel PR PE (post rq reply).
Proof.
  intros He w. destruct reply; simpl; (split; [reflexivity|auto]).
Qed.

Lemma sat_raise_for_status (PE : exn -> Prop) (response : Z * result pyval) :
  PE ClientError -> sat Rel PR PE (raise_for_status response).
Proof.
  intros He w. unfold raise_for_status.
  destruct (400 <=? fst response); simpl; (split; [reflexivity|auto]).
Qed.

Lemma sat_json_of (PE : exn -> Prop) (response : Z * result pyval) :
  (forall e, snd response = Err e -> PE e) ->
  sat Rel PR PE (json_of response).
Proof. apply sat_lift. Qed.

Lemma sat_update PE (g : T -> T) :
  (forall c, Rel c (g c)) -> sat Rel PR PE (update g).
Proof. intros Hg w. simpl. auto. Qed.

Lemma sat_bind {A B} PE (m : M (world T) R A) (k : A -> M (world T) R B) :
  sat Rel PR PE m -> (forall a, sat Rel PR PE (k a)) ->
  sat Rel PR PE (bind m k).
Proof.
  intros Hm Hk w. unfold bind. destruct (Hm w) as [H1 H2].
  destruct (m w) as [[a|r|e] w']; simpl in *; auto.
  destruct (Hk a w') as [H3 H4]. split; [|exact H4].
  etransitivity; eassumption.
Qed.

Lemma sat_try_except {A} (PE : exn -> Prop) (m : M (world T) R A)
  (h : exn -> option (M (world T) R A)) :
  sat Rel PR anything m ->
  (forall e hm, h e = Some hm -> sat Rel PR PE hm) ->
  (forall e, h e = None -> PE e) ->
  sat Rel PR PE (try_except m h).
Proof.
  intros Hm Hh Hn w. unfold try_except. destruct (Hm w) as [H1 H2].
  destruct (m w) as [[a|r|e] w']; simpl in *; auto.
  destruct (h e) as [hm|] eqn:E; simpl; auto.
  destruct (Hh e hm E w') as [H3 H4]. split; [|exact H4].
  etransitivity; eassumption.
Qed.

Lemma sat_when PE (c : bool) (m : M (world T) R unit) :
  sat Rel PR PE m -> sat Rel PR PE (when c m).
Proof. intro Hm. destruct c; [exact Hm|apply sat_ret]. Qed.

Lemma sat_call {R'} (PR' : R' -> Prop) PE (m : M (world T) R' R') :
  sat Rel PR' PE m -> sat Rel PR PE (call m).
Proof.
  intros Hm w. unfold call. destruct (Hm w) as [H1 H2].
  destruct (m w) as [[a|r|e] w']; simpl in *; auto.
Qed.

Lemma sat_weaken {A} (PE PE' : exn -> Prop) (m : M (world T) R A) :
  (forall e, PE e -> PE' e) -> sat Rel PR PE m -> sat Rel PR PE' m.
Proof.
  intros Hw Hm w. destruct (Hm w) as [H1 H2]. split; [exact H1|].
  destruct (fst (m w)); simpl in *; auto.
Qed.

End Rules.

(** A method that cannot raise ends normally or by a return. *)
Lemma sat_call_normal {T R R' : Type} (Rel : T -> T -> Prop)
  (PR' : R' -> Prop) (m : M (world T) R' R') (w : world T) :
  sat Rel PR' nothing m ->
  exists r w', (call m : M (world T) R R') w = (Normal r, w') /\
               Rel (self w) (self w').
Proof.
  intro Hm. unfold call. destruct (Hm w) as [H1 H2].
  destruct (m w) as [[a|r|e] w']; simpl in *; eauto. contradiction.
Qed.

(** Decomposes a goal of the judgement along the structure of the
    method; side conditions on values and exceptions are tried with
    [easy]. *)
Ltac sat_step :=
  match goal with
  | |- sat _ _ _ (bind _ _) => apply sat_bind; [exact _| |intro]
  | |- sat _ _ _ (ret _) => apply sat_ret; exact _
  | |- sat _ _ _ (return_ _) => apply sat_return; [exact _|try easy]
  | |- sat _ _ _ (raise _) => apply sat_raise; [exact _|try easy]
  | |- sat _ _ _ (lift _) => apply sat_lift; [exact _|try easy]
  | |- sat _ _ _ (attr _) => apply sat_attr; exact _
  | |- sat _ _ _ (post _ _) => apply sat_post; [exact _|try easy]
  | |- sat _ _ _ (raise_for_status _) =>
      apply sat_raise_for_status; [exact _|try easy]
  | |- sat _ _ _ (json_of _) => apply sat_json_of; [exact _|try easy]
  | |- sat _ _ _ (update _) =>
      apply sat_update; intro; repeat split
  | |- sat _ _ _ (when _ _) => apply sat_when; [exact _|]
  | |- sat _ _ _ (call _) => eapply sat_call; solve [eauto with sat]
  | |- sat _ _ _ (try_except _ _) =>
      apply sat_try_except;
      [exact _|
      |let H := fresh in intros ? ? H; injection H as <-
      |try easy]
  | |- sat _ _ _ (if ?b then _ else _) => destruct b
  | |- sat _ _ _ (match ?x with _ => _ end) => destruct x
  end.

Ltac sat_auto := repeat sat_step.

Create HintDb sat discriminated.

(* ----------------------------------------------------------------- *)
(** ** Coordinator *)

Module CoordinatorFacts.

Import Coordinator Spec.

#[export] Instance rates_apart_Reflexive : Reflexive rates_apart.
Proof. unfold rates_apart. exact _. Qed.

#[export] Instance rates_apart_Transitive : Transitive rates_apart.
Proof. unfold rates_apart. exact _. Qed.

#[export] Instance results_apart_Reflexive : Reflexive results_apart.
Proof. unfold results_apart. exact _. Qed.

#[export] Instance results_apart_Transitive : Transitive results_apart.
Proof. unfold results_apart. exact _. Qed.

(** *** The thermal-rate fetch *)

(** The fetch touches the thermal rates only, and never raises. *)
Lemma fetch_sat (e : env) :
  sat rates_apart (fun r => r = PNone) nothing
    (_async_fetch_thermal_rates_from_backend e).
Proof.
  unfold _async_fetch_thermal_rates_from_backend. sat_auto.
Qed.

Lemma fetch_results_apart (e : env) (PE : exn -> Prop) :
  sat results_apart (fun r => r = PNone) PE
    (_async_fetch_thermal_rates_from_backend e).
Proof.
  unfold _async_fetch_thermal_rates_from_backend. sat_auto.
Qed.

(** *** The envelope of a request *)

(** [current_schedule] only reads. *)
Lemma current_schedule_eq (w : world coordinator) :
  current_schedule w =
    (match schedule_for (self w) with
     | Ok v => Normal v
     | Err x => Raised x
     end, w).
Proof.
  unfold current_schedule. unfold_control. cbn beta iota.
  destruct (schedule_for (self w)); reflexivity.
Qed.

(** *** The refresh *)

(** When the optimizer call fails, the refresh raises [UpdateFailed]
    and has written nothing but thermal rates. *)
Lemma refresh_fails (e : env) (w : world coordinator) :
  optimizer_call_fails (optimizer_reply e) ->
  exists w',
    _async_update_data e w = (Raised UpdateFailed, w') /\
    rates_apart (self w) (self w').
Proof.
  intro Hfail. unfold _async_update_data.
  destruct (sat_call_normal (R := pyval) rates_apart _ _ w (fetch_sat e))
    as (r & w1 & Hcall & Hrel).
  unfold try_except, bind. rewrite Hcall, current_schedule_eq.
  destruct (schedule_for (self w1)) as [schedule|x];
    [|eexists; split; [reflexivity|exact Hrel]].
  unfold_control. cbn [fst snd self sent].
  destruct (optimizer_reply e) as [x|status body]; cbn [fst snd self sent];
    [eexists; split; [reflexivity|exact Hrel]|].
  destruct (Z.leb_spec 400 status) as [Hge|Hlt]; cbn [fst snd self sent];
    [eexists; split; [reflexivity|exact Hrel]|].
  destruct Hfail as [Hge|Hbody]; [lia|].
  destruct body as [data|x]; cbn [fst snd self sent];
    [|eexists; split; [reflexivity|exact Hrel]].
  rewrite Hbody. cbn [negb fst snd self sent].
  eexists; split; [reflexivity|exact Hrel].
Qed.

Lemma schedule_for_rates_apart (c c' : coordinator) :
  rates_apart c c' -> schedule_for c' = schedule_for c.
Proof.
  cbv [rates_apart both same].
  intros (_ & _ & Hcfg & _ & _ & _ & _ & _ & _ & Hcustom & _).
  unfold schedule_for. now rewrite Hcfg, Hcustom.
Qed.

Lemma sized_or_missing_len (key : string) (d : list (string * pyval)) :
  sized_or_missing key d ->
  exists n, py_len (dict_get d key (PList [])) = Ok n.
Proof.
  unfold sized_or_missing, dict_get.
  destruct (assoc key d); [auto|]. intros _. simpl. eauto.
Qed.

(** When the optimizer answers below 400 with a mapping, and an
    envelope is at hand, the refresh stores the mapping and what stands
    under the two keys, the empty list for a missing key. *)
Lemma refresh_stores (e : env) (w : world coordinator) (status : Z)
  (d : list (string * pyval)) (schedule : pyval) :
  optimizer_reply e = Response status (Ok (PDict d)) ->
  status < 400 ->
  schedule_for (self w) = Ok schedule ->
  sized_or_missing "HourlyTemperature" d ->
  sized_or_missing "bestTempActual" d ->
  exists w',
    _async_update_data e w = (Returned (PDict d), w') /\
    optimization_results (self w') = PDict d /\
    schedule_data (self w') = dict_get d "HourlyTemperature" (PList []) /\
    _daily_schedule (self w') = dict_get d "bestTempActual" (PList []) /\
    _schedule_date (self w') = Some (today e).
Proof.
  intros Hreply Hstatus Hschedule Hhourly Hbest.
  apply sized_or_missing_len in Hhourly, Hbest.
  destruct Hhourly as [n1 Hn1], Hbest as [n2 Hn2].
  unfold _async_update_data.
  destruct (sat_call_normal (R := pyval) rates_apart _ _ w (fetch_sat e))
    as (r & w1 & Hcall & Hrel).
  unfold try_except, bind.
  rewrite Hcall, current_schedule_eq, (schedule_for_rates_apart _ _ Hrel).
  rewrite Hschedule. unfold_control. cbn [fst snd self sent].
  rewrite Hreply. cbn [fst snd self sent].
  destruct (Z.leb_spec 400 status) as [Hge|_]; [lia|].
  cbn [fst snd self sent is_dict negb py_get].
  set (hourly := dict_get d "HourlyTemperature" (PList [])) in *.
  set (best := dict_get d "bestTempActual" (PList [])) in *.
  simpl. rewrite Hn1. simpl. rewrite Hn2. simpl.
  eexists. split; [reflexivity|]. simpl. auto.
Qed.

(** What stands under a key has a length exactly when [len] answers
    for what the refresh stores for it. *)
Lemma len_sized_or_missing (key : string) (d : list (string * pyval))
  (n : Z) :
  py_len (dict_get d key (PList [])) = Ok n -> sized_or_missing key d.
Proof.
  unfold sized_or_missing, dict_get.
  destruct (assoc key d); [eauto|exact (fun _ => I)].
Qed.

(** When the optimizer answers below 400 with a mapping in which one of
    the two keys holds something without a length, the refresh stores
    the mapping and what stands under the two keys, and then raises
    [UpdateFailed] from the line that logs the two lengths. *)
Lemma refresh_unsized (e : env) (w : world coordinator) (status : Z)
  (d : list (string * pyval)) (schedule : pyval) :
  optimizer_reply e = Response status (Ok (PDict d)) ->
  status < 400 ->
  schedule_for (self w) = Ok schedule ->
  ~ (sized_or_missing "HourlyTemperature" d /\
     sized_or_missing "bestTempActual" d) ->
  exists w',
    _async_update_data e w = (Raised UpdateFailed, w') /\
    optimization_results (self w') = PDict d /\
    schedule_data (self w') = dict_get d "HourlyTemperature" (PList []) /\
    _daily_schedule (self w') = dict_get d "bestTempActual" (PList []).
Proof.
  intros Hreply Hstatus Hschedule Hunsized.
  unfold _async_update_data.
  destruct (sat_call_normal (R := pyval) rates_apart _ _ w (fetch_sat e))
    as (r & w1 & Hcall & Hrel).
  unfold try_except, bind.
  rewrite Hcall, current_schedule_eq, (schedule_for_rates_apart _ _ Hrel).
  rewrite Hschedule. unfold_control. cbn [fst snd self sent].
  rewrite Hreply. cbn [fst snd self sent].
  destruct (Z.leb_spec 400 status) as [Hge|_]; [lia|].
  cbn [fst snd self sent is_dict negb py_get].
  pose proof (len_sized_or_missing "HourlyTemperature" d) as Hhourly.
  pose proof (len_sized_or_missing "bestTempActual" d) as Hbest.
  set (hourly := dict_get d "HourlyTemperature" (PList [])) in *.
  set (best := dict_get d "bestTempActual" (PList [])) in *.
  simpl.
  destruct (py_len hourly) as [n1|x1];
    [|simpl; eexists; split; [reflexivity|simpl; auto]].
  simpl.
  destruct (py_len best) as [n2|x2];
    [|simpl; eexists; split; [reflexivity|simpl; auto]].
  exfalso. apply Hunsized. split; eauto.
Qed.

#[export] Hint Resolve fetch_results_apart : sat.

(** The refresh leaves the identity, the preferences, the debounce
    state, the custom envelope and the mode alone, and raises nothing
    but [UpdateFailed]. *)
Lemma refresh_sat (e : env) :
  sat results_apart anything (fun x => x = UpdateFailed)
    (_async_update_data e).
Proof.
  unfold _async_update_data, current_schedule. sat_auto.
Qed.

Lemma refresh_sat_anything (e : env) :
  sat results_apart anything anything (_async_update_data e).
Proof.
  apply sat_weaken with (PE := fun x => x = UpdateFailed); [easy|].
  apply refresh_sat.
Qed.

#[export] Hint Resolve refresh_sat_anything : sat.

Lemma request_refresh_sat (e : env) (PR : pyval -> Prop) :
  sat results_apart PR nothing (async_request_refresh e).
Proof.
  unfold async_request_refresh. sat_auto.
Qed.

Lemma save_sat (e : env) (PE : exn -> Prop) :
  sat results_apart (fun r => r = PNone) PE (_save_preferences_to_db e).
Proof.
  unfold _save_preferences_to_db, current_schedule. sat_auto.
Qed.

#[export] Hint Resolve request_refresh_sat save_sat : sat.

(** A status from 300 to 399 is not a 2xx status, and does not make
    [raise_for_status] raise: with a mapping as body the refresh goes
    through and replaces the stored result. *)
Lemma C1_counterexample :
  let e := optimizer_gives (Response 300 (Ok (PDict []))) 0 in
  let out := run (_async_update_data e) stale_coordinator in
  optimizer_call_fails_non_2xx (optimizer_reply e) /\
  fst out = Ok (PDict []) /\
  optimization_results (self stale_coordinator) = previous_result /\
  optimization_results (self (snd out)) = PDict [] /\
  schedule_data (self (snd out)) = PList [] /\
  _daily_schedule (self (snd out)) = PList [].
Proof.
  split; [left; simpl; lia|]. vm_compute. repeat split.
Qed.

(** C1 (amended).  When the optimizer call fails -- no response
    because of a transport error or a timeout, a status of 400 or
    more, or a body that is not a mapping -- the refresh raises
    [UpdateFailed], and the stored optimization result, hourly
    sequence and daily setpoint sequence (and the date of the result)
    are what they were before. *)
Theorem C1_failed_refresh_keeps_stored_result (e : env)
  (w : world coordinator) :
  optimizer_call_fails (optimizer_reply e) ->
  let out := run (_async_update_data e) w in
  fst out = Err UpdateFailed /\
  optimization_results (self (snd out)) = optimization_results (self w) /\
  schedule_data (self (snd out)) = schedule_data (self w) /\
  _daily_schedule (self (snd out)) = _daily_schedule (self w) /\
  _schedule_date (self (snd out)) = _schedule_date (self w).
Proof.
  intros Hfail out. subst out.
  destruct (refresh_fails e w Hfail) as (w' & Heq & Hrel).
  unfold run. rewrite Heq. cbn [fst snd].
  cbv [rates_apart both same] in Hrel.
  destruct Hrel as (_ & _ & _ & Hs & Hr & _ & _ & Hd & Hdate & _).
  auto.
Qed.

(** The optimizer answers 500 to a coordinator that holds an earlier
    result. *)
Lemma C1_witness :
  let e := optimizer_gives (Response 500 (Err ValueError)) 0 in
  let out := run (_async_update_data e) stale_coordinator in
  fst out = Err UpdateFailed /\
  optimization_results (self (snd out)) = previous_result.
Proof.
  intros e out.
  assert (Hfail : optimizer_call_fails (optimizer_reply e))
    by (left; simpl; lia).
  destruct (C1_failed_refresh_keeps_stored_result e stale_coordinator Hfail)
    as (H1 & H2 & _).
  split; [exact H1|exact H2].
Defined.

(** A response with status 200 whose body is the empty mapping has
    neither of the two sequences, and the refresh succeeds on it. *)
Lemma C6_counterexample :
  let e := optimizer_gives (Response 200 (Ok (PDict []))) 0 in
  let out := run (_async_update_data e) stale_coordinator in
  assoc "HourlyTemperature" [] = None /\
  assoc "bestTempActual" [] = None /\
  fst out = Ok (PDict []) /\
  optimization_results (self (snd out)) = PDict [].
Proof. vm_compute. repeat split. Qed.

(** C6 (amended).  For a response with a 2xx status to a request that
    has been sent (an envelope was at hand): when the body cannot be
    decoded or is not a mapping the refresh raises [UpdateFailed]; when
    the body is a mapping in which each of the two sequences is missing
    or has a length, the refresh accepts it, whether or not it carries
    the two sequences: it returns and stores the mapping, and stores
    the empty list for a sequence that is missing; when the body is a
    mapping in which one of the two keys holds something without a
    length ([None], a number, a boolean), the refresh raises
    [UpdateFailed] as well, but only after it has replaced the stored
    result and the two stored sequences by what the body holds. *)
Theorem C6_mapping_accepted_unless_a_field_is_unsized (e : env)
  (w : world coordinator) (status : Z) (body : result pyval) :
  optimizer_reply e = Response status body ->
  200 <= status <= 299 ->
  let out := run (_async_update_data e) w in
  ((forall data, body = Ok data -> is_dict data = false) ->
   fst out = Err UpdateFailed) /\
  (forall d schedule,
     body = Ok (PDict d) ->
     schedule_for (self w) = Ok schedule ->
     (sized_or_missing "HourlyTemperature" d /\
      sized_or_missing "bestTempActual" d ->
      fst out = Ok (PDict d) /\
      optimization_results (self (snd out)) = PDict d /\
      (assoc "HourlyTemperature" d = None ->
       schedule_data (self (snd out)) = PList []) /\
      (assoc "bestTempActual" d = None ->
       _daily_schedule (self (snd out)) = PList [])) /\
     (~ (sized_or_missing "HourlyTemperature" d /\
         sized_or_missing "bestTempActual" d) ->
      fst out = Err UpdateFailed /\
      optimization_results (self (snd out)) = PDict d /\
      schedule_data (self (snd out)) =
        dict_get d "HourlyTemperature" (PList []) /\
      _daily_schedule (self (snd out)) =
        dict_get d "bestTempActual" (PList []))).
Proof.
  intros Hreply Hstatus out. subst out. split.
  - intro Hbody.
    assert (Hfail : optimizer_call_fails (optimizer_reply e)).
    { rewrite Hreply. right. destruct body as [data|x]; auto. }
    destruct (refresh_fails e w Hfail) as (w' & Heq & _).
    unfold run. now rewrite Heq.
  - intros d schedule -> Hschedule. split.
    + intros [Hhourly Hbest].
      destruct (refresh_stores e w status d schedule Hreply ltac:(lia)
                  Hschedule Hhourly Hbest)
        as (w' & Heq & Hr & Hs & Hd & _).
      unfold run. rewrite Heq. cbn [fst snd].
      split; [reflexivity|split; [exact Hr|split]].
      * intro Hmiss. rewrite Hs. unfold dict_get. now rewrite Hmiss.
      * intro Hmiss. rewrite Hd. unfold dict_get. now rewrite Hmiss.
    + intro Hunsized.
      destruct (refresh_unsized e w status d schedule Hreply ltac:(lia)
                  Hschedule Hunsized)
        as (w' & Heq & Hr & Hs & Hd).
      unfold run. rewrite Heq. cbn [fst snd]. auto.
Qed.

(** Status 200 with the empty mapping, read off the theorem. *)
Lemma C6_witness :
  let e := optimizer_gives (Response 200 (Ok (PDict []))) 0 in
  let out := run (_async_update_data e) stale_coordinator in
  fst out = Ok (PDict []) /\
  schedule_data (self (snd out)) = PList [] /\
  _daily_schedule (self (snd out)) = PList [].
Proof.
  intros e out.
  destruct (C6_mapping_accepted_unless_a_field_is_unsized e stale_coordinator
              200 (Ok (PDict [])) eq_refl ltac:(lia)) as [_ Hok].
  destruct (Hok [] (schedule_to_py
                      {| highTemperatures :=
                           repeat 73.4%Q 16 ++ repeat 79.4%Q 19 ++
                           repeat 73.4%Q 13;
                         lowTemperatures :=
                           repeat 70.6%Q 16 ++ repeat 64.6%Q 19 ++
                           repeat 70.6%Q 13;
                         intervalMinutes := 30;
                         totalIntervals := 48 |})
              eq_refl ltac:(vm_compute; reflexivity)) as [Hsized _].
  destruct (Hsized (conj I I)) as (H1 & _ & H3 & H4).
  split; [exact H1|split; [exact (H3 eq_refl)|exact (H4 eq_refl)]].
Defined.

(** *** The preference update *)

(** A method that neither raises nor returns ends normally. *)
Lemma sat_normal {T R A : Type} (Rel : T -> T -> Prop)
  (m : M (world T) R A) (w : world T) :
  sat Rel nothing nothing m ->
  exists a w', m w = (Normal a, w') /\ Rel (self w) (self w').
Proof.
  intro Hm. destruct (Hm w) as [H1 H2].
  destruct (m w) as [[a|r|e] w']; simpl in *; eauto; contradiction.
Qed.

(** The debug lines only read: they end normally or raise, in the
    state they started in. *)
Lemma log_custom_schedule_reads (w : world coordinator) :
  snd (log_custom_schedule w) = w /\
  (fst (log_custom_schedule w) = Normal tt \/
   exists x, fst (log_custom_schedule w) = Raised x).
Proof.
  assert (Hraised : forall x : exn,
            w = w /\ ((Raised x : completion pyval unit) = Normal tt \/
                      exists y, (Raised x : completion pyval unit) = Raised y))
    by (intro x; split; [reflexivity|right; eexists; reflexivity]).
  assert (Hnormal : w = w /\
            ((Normal tt : completion pyval unit) = Normal tt \/
             exists y, (Normal tt : completion pyval unit) = Raised y))
    by (split; [reflexivity|left; reflexivity]).
  unfold log_custom_schedule. unfold_control. cbn beta iota.
  destruct (py_get _ "highTemperatures" _) as [high|x] eqn:Ehigh;
    cbn beta iota; cbn [fst snd]; [|auto].
  destruct (py_slice high 8); cbn beta iota; cbn [fst snd]; [|auto].
  destruct (py_get _ "lowTemperatures" _) as [low|x];
    cbn beta iota; cbn [fst snd]; [|auto].
  destruct (py_slice low 8); cbn beta iota; cbn [fst snd]; [|auto].
  rewrite Ehigh. cbn beta iota.
  destruct (py_len high); cbn beta iota; cbn [fst snd]; auto.
Qed.

(** The steps that follow the merge: the refresh and the optional
    saving. *)
Lemma persist_sat (e : env) (save_to_db : bool) :
  sat results_apart nothing nothing
    (when save_to_db
       (bind (attr user_id) (fun uid =>
        bind (attr auth_token) (fun tok =>
        if truthy uid && truthy tok
        then bind (call (_save_preferences_to_db e)) (fun _ => ret tt)
        else ret tt))) : Method unit).
Proof. sat_auto. Qed.

(** One optional key of a service call, merged into the object. *)
Lemma if_in_update {A : Type} (field : option A)
  (g : A -> coordinator -> coordinator) (w : world coordinator) :
  if_in field (fun v => update (g v)) w =
    (Normal tt,
     {| self := match field with
                | Some v => g v (self w)
                | None => self w
                end;
        sent := sent w |}).
Proof. destruct field, w; reflexivity. Qed.

Lemma if_in_item {A : Type} (field : option A)
  (set : A -> Config -> Config) (w : world coordinator) :
  if_in field (fun v => set_item (set v)) w =
    (Normal tt,
     {| self :=
          set_config
            match field with
            | Some v => set v (config (self w))
            | None => config (self w)
            end (self w);
        sent := sent w |}).
Proof. destruct field, w as [c log]; destruct c; reflexivity. Qed.

Section Update.
Variables (e : env) (data : service_data) (save_to_db : bool).
Variable w : world coordinator.

Let gate : bool :=
  Qlt_bool (now e - _last_update_time (self w))
    (_update_debounce_seconds (self w)).

(** Within the debounce window the call returns at once. *)
Lemma update_dropped :
  gate = true ->
  async_update_schedule e data save_to_db w = (Returned PNone, w).
Proof.
  subst gate. intro Hgate. unfold async_update_schedule.
  unfold bind at 1 2 3. unfold attr, gets. cbn beta iota.
  rewrite Hgate. reflexivity.
Qed.

(** Outside of it the call records the time, merges the keys of the
    call into the preferences, sets or clears the custom envelope,
    and goes on; it ends normally unless the debug lines on a custom
    envelope raise. *)
Lemma update_admitted :
  gate = false ->
  exists c w',
    async_update_schedule e data save_to_db w = (c, w') /\
    (c = Normal PNone \/
     (exists x, c = Raised x) /\ d_temperatureSchedule data <> None) /\
    _last_update_time (self w') = now e /\
    _update_debounce_seconds (self w') = _update_debounce_seconds (self w) /\
    config (self w') = merged_config data (config (self w)) /\
    _custom_temperature_schedule (self w') =
      or_keep (d_temperatureSchedule data) PNone.
Proof.
  subst gate. intro Hgate. unfold async_update_schedule.
  set (persist := when save_to_db _).
  unfold bind at 1 2 3. unfold attr at 1 2, gets. cbn beta iota.
  rewrite Hgate. clear Hgate.
  destruct w as [c log]. destruct c as [? ? cfg ? ? ? ? ? ? ? ? ? ? ? ? ? ?].
  destruct cfg. cbn [self sent].
  unfold bind, ret. cbn beta iota.
  unfold update at 1, modify. cbn beta iota.
  cbn [self sent set__last_update_time].
  repeat (rewrite if_in_item; cbn [self sent config set_config]).
  rewrite if_in_update.
  destruct (d_optimizationMode data) as [mode|];
    cbn [self sent set_optimization_mode];
    (destruct (d_temperatureSchedule data) as [custom|];
     unfold update, modify; cbn beta iota;
     cbn [self sent set__custom_temperature_schedule];
     [match goal with
      | |- context [log_custom_schedule ?w0] =>
          destruct (log_custom_schedule_reads w0) as [Hs Hc];
          destruct (log_custom_schedule w0) as [lc lw]
      end;
      cbn [fst snd] in Hs, Hc; subst lw;
      destruct Hc as [->|[x ->]];
      [|do 2 eexists; split; [reflexivity|];
        split; [right; split; [eauto|discriminate]|];
        cbn [self _last_update_time _update_debounce_seconds config
             _custom_temperature_schedule or_keep];
        split; [reflexivity|split; [reflexivity|split; [|reflexivity]]];
        unfold merged_config;
        destruct (d_homeSize data), (d_homeTemperature data),
          (d_location data), (d_savingsLevel data), (d_timeAway data),
          (d_timeHome data); reflexivity]
     |]);
    (match goal with
     | |- context [async_request_refresh e ?w0] =>
         destruct (sat_normal results_apart (async_request_refresh e) w0
                     (request_refresh_sat e nothing))
           as ([] & w3 & -> & Hrel3)
     end;
     destruct (sat_normal results_apart persist w3
                 (persist_sat e save_to_db)) as ([] & w4 & -> & Hrel4);
     pose proof (transitivity Hrel3 Hrel4) as Hrel;
     cbv [results_apart both same] in Hrel; cbn [self] in Hrel;
     destruct Hrel as (_ & _ & Hcfg & Hlast & Hdeb & Hcust & _);
     do 2 eexists; split; [reflexivity|];
     split; [now left|];
     rewrite Hcfg, Hlast, Hdeb, Hcust;
     cbn [self _last_update_time _update_debounce_seconds config
          _custom_temperature_schedule or_keep];
     split; [reflexivity|split; [reflexivity|split; [|reflexivity]]];
     unfold merged_config;
     destruct (d_homeSize data), (d_homeTemperature data),
       (d_location data), (d_savingsLevel data), (d_timeAway data),
       (d_timeHome data); reflexivity).
Qed.

End Update.

(** *** The request of a refresh *)

(** Whatever the optimizer answers, a refresh that has an envelope at
    hand sends it, together with the preferences, to the optimizer. *)
Lemma refresh_request (e : env) (w : world coordinator) (schedule : pyval) :
  schedule_for (self w) = Ok schedule ->
  exists rq,
    In (GenerateSchedule rq) (sent (snd (_async_update_data e w))) /\
    rq_temperatureSchedule rq = schedule /\
    rq_config rq = config (self w).
Proof.
  intro Hschedule. unfold _async_update_data.
  destruct (sat_call_normal (R := pyval) rates_apart _ _ w (fetch_sat e))
    as (r & w1 & Hcall & Hrel).
  unfold try_except, bind.
  rewrite Hcall, current_schedule_eq, (schedule_for_rates_apart _ _ Hrel).
  rewrite Hschedule.
  assert (Hcfg : config (self w1) = config (self w)).
  { cbv [rates_apart both same] in Hrel. tauto. }
  unfold_control. cbn [fst snd self sent].
  match goal with
  | |- context [GenerateSchedule ?x] => exists x
  end.
  split; [|split; [reflexivity|exact Hcfg]].
  assert (Hin : forall (x : request) (l : list request), In x (l ++ [x]))
    by (intros; apply in_or_app; right; left; reflexivity).
  destruct (optimizer_reply e) as [x|status body]; cbn [fst snd self sent];
    [apply Hin|].
  destruct (400 <=? status); cbn [fst snd self sent]; [apply Hin|].
  destruct body as [data|x]; cbn [fst snd self sent]; [|apply Hin].
  destruct data as [|b|q|s|l|d]; cbn [fst snd self sent is_dict negb];
    try apply Hin.
  cbn [py_get]. simpl.
  destruct (py_len (dict_get d "HourlyTemperature" (PList [])));
    simpl; [|apply Hin].
  destruct (py_len (dict_get d "bestTempActual" (PList [])));
    simpl; apply Hin.
Qed.

(** *** The debounce gate *)

Lemma Qlt_bool_false (x y : Q) : Qlt_bool x y = false <-> (y <= x)%Q.
Proof.
  unfold Qlt_bool. rewrite negb_false_iff. apply Qle_bool_iff.
Qed.

Lemma Qlt_bool_true (x y : Q) : Qlt_bool x y = true <-> (x < y)%Q.
Proof.
  unfold Qlt_bool. rewrite negb_true_iff. split.
  - intro H. apply Qnot_le_lt. intro Hle.
    apply Qle_bool_iff in Hle. congruence.
  - intro H. destruct (Qle_bool y x) eqn:E; [|reflexivity].
    apply Qle_bool_iff in E. apply Qlt_not_le in H. contradiction.
Qed.

Lemma admitted_iff (e : env) (data : service_data) (save_to_db : bool)
  (w : world coordinator) :
  admitted (fst (async_update_schedule e data save_to_db w)) <->
  window_elapsed (now e) (self w).
Proof.
  unfold window_elapsed, admitted, dropped.
  destruct (Qlt_bool (now e - _last_update_time (self w))
              (_update_debounce_seconds (self w))) eqn:Hgate.
  - rewrite (update_dropped e data save_to_db w Hgate). cbn [fst].
    split; [intro H; exfalso; apply H; eauto|discriminate].
  - destruct (update_admitted e data save_to_db w Hgate)
      as (c & w' & -> & Hc & _).
    cbn [fst]. split; [reflexivity|]. intros _ [r Hr].
    destruct Hc as [->|[[x ->] _]]; discriminate.
Qed.

(** C2.  With the window of 2 seconds, a call at time [now] is
    admitted exactly when [now - last_accepted >= 2].  An admitted call
    records [now] as the last accepted time (and leaves the window at
    2); a call that is not admitted returns without an exception, with
    the coordinator and the log of requests as they were.  After an
    admitted call at time [t], a call at [t + 1] is dropped and a call
    at [t + 2.1] is then admitted. *)
Theorem C2_debounce_gate (e : env) (data : service_data) (save_to_db : bool)
  (w : world coordinator) :
  _update_debounce_seconds (self w) = 2%Q ->
  let out := async_update_schedule e data save_to_db w in
  (admitted (fst out) <-> (2 <= now e - _last_update_time (self w))%Q) /\
  (admitted (fst out) ->
   _last_update_time (self (snd out)) = now e /\
   _update_debounce_seconds (self (snd out)) = 2%Q) /\
  (~ admitted (fst out) ->
   out = (Returned PNone, w) /\
   run (async_update_schedule e data save_to_db) w = (Ok PNone, w)) /\
  (forall (e2 e3 : env) (data2 data3 : service_data) (save2 save3 : bool),
     admitted (fst out) ->
     (now e2 == now e + 1)%Q ->
     (now e3 == now e + 2.1)%Q ->
     let out2 := async_update_schedule e2 data2 save2 (snd out) in
     let out3 := async_update_schedule e3 data3 save3 (snd out2) in
     ~ admitted (fst out2) /\ snd out2 = snd out /\ admitted (fst out3)).
Proof.
  intros Hwindow out.
  assert (Hiff : admitted (fst out) <->
                 (2 <= now e - _last_update_time (self w))%Q).
  { subst out. rewrite admitted_iff. unfold window_elapsed.
    rewrite Hwindow. apply Qlt_bool_false. }
  assert (Hadm : admitted (fst out) ->
                 _last_update_time (self (snd out)) = now e /\
                 _update_debounce_seconds (self (snd out)) = 2%Q).
  { intro H. apply admitted_iff in H. unfold window_elapsed in H.
    destruct (update_admitted e data save_to_db w H)
      as (c & w' & Heq & _ & Hlast & Hdeb & _).
    subst out. rewrite Heq. cbn [snd]. rewrite Hdeb. auto. }
  assert (Hdrop : forall e' data' save' w0,
            ~ admitted (fst (async_update_schedule e' data' save' w0)) ->
            async_update_schedule e' data' save' w0 = (Returned PNone, w0)).
  { intros e' data' save' w0 H. rewrite admitted_iff in H.
    unfold window_elapsed in H.
    destruct (Qlt_bool _ _) eqn:Hgate; [|congruence].
    apply update_dropped. exact Hgate. }
  split; [exact Hiff|split; [exact Hadm|split]].
  - intro H. pose proof (Hdrop _ _ _ _ H) as Heq. split; [exact Heq|].
    unfold run. fold out in Heq |- *. now rewrite Heq.
  - intros e2 e3 data2 data3 save2 save3 H H2 H3 out2 out3.
    destruct (Hadm H) as [Hlast Hdeb].
    assert (Hnot2 : ~ admitted (fst out2)).
    { subst out2. rewrite admitted_iff. unfold window_elapsed.
      rewrite Hlast, Hdeb. intro Hgate. apply Qlt_bool_false in Hgate.
      rewrite H2 in Hgate. lra. }
    assert (Hsame : snd out2 = snd out).
    { subst out2. now rewrite (Hdrop _ _ _ _ Hnot2). }
    split; [exact Hnot2|split; [exact Hsame|]].
    subst out3. rewrite admitted_iff, Hsame. unfold window_elapsed.
    rewrite Hlast, Hdeb. apply Qlt_bool_false. rewrite H3. lra.
Qed.

(** A first call long after start-up. *)
Lemma C2_witness :
  let e := optimizer_gives (NoResponse TimeoutError) 1700000000 in
  let out := async_update_schedule e no_data false stale_coordinator in
  admitted (fst out) /\ _last_update_time (self (snd out)) = 1700000000%Q.
Proof.
  intros e out.
  destruct (C2_debounce_gate e no_data false stale_coordinator eq_refl)
    as (Hiff & Hadm & _).
  assert (H : admitted (fst out)).
  { apply Hiff. vm_compute. discriminate. }
  split; [exact H|exact (proj1 (Hadm H))].
Defined.

(** *** Time values in a preference update *)

(** C7.  In the schedule builder a time that [strptime] rejects gives
    slot 16.  In an admitted preference update (here one without a
    custom envelope) a time value is not checked at all: whatever the
    text, the call ends normally and the first five characters of the
    text become the stored time. *)
Theorem C7_time_of_update_is_stored_unchecked (e : env) (data : service_data)
  (save_to_db : bool) (w : world coordinator) :
  window_elapsed (now e) (self w) ->
  d_temperatureSchedule data = None ->
  let out := run (async_update_schedule e data save_to_db) w in
  (forall time,
     Strptime.strptime_HM (str_prefix 5 time) = Err ValueError ->
     _time_to_30min_index time = 16) /\
  fst out = Ok PNone /\
  (forall time, d_timeAway data = Some time ->
     timeAway (config (self (snd out))) = str_prefix 5 time) /\
  (forall time, d_timeHome data = Some time ->
     timeHome (config (self (snd out))) = str_prefix 5 time).
Proof.
  intros Hgate Hcustom out. split.
  - intros time Herr. unfold _time_to_30min_index. now rewrite Herr.
  - destruct (update_admitted e data save_to_db w Hgate)
      as (c & w' & Heq & Hc & _ & _ & Hcfg & _).
    subst out. unfold run. rewrite Heq.
    destruct Hc as [->|[_ Hsome]]; [|contradiction].
    cbn [fst snd]. rewrite Hcfg. split; [reflexivity|].
    split; intros time Htime; unfold merged_config; cbn; now rewrite Htime.
Qed.

(** The away time "banana": [strptime] rejects "banan", the update
    ends normally, and "banan" is the stored away time. *)
Lemma C7_witness :
  let e := optimizer_gives (NoResponse TimeoutError) 1700000000 in
  let out := run (async_update_schedule e (away_time_only "banana") true)
               stale_coordinator in
  Strptime.strptime_HM (str_prefix 5 "banana") = Err ValueError /\
  _time_to_30min_index "banana" = 16 /\
  fst out = Ok PNone /\
  timeAway (config (self (snd out))) = "banan"%string.
Proof.
  intros e out.
  assert (Hgate : window_elapsed (now e) (self stale_coordinator))
    by (vm_compute; reflexivity).
  destruct (C7_time_of_update_is_stored_unchecked
              e (away_time_only "banana") true stale_coordinator
              Hgate eq_refl) as (H16 & Hok & Haway & _).
  split; [reflexivity|].
  split; [exact (H16 "banana"%string eq_refl)|].
  split; [exact Hok|exact (Haway "banana"%string eq_refl)].
Defined.

(** *** The custom envelope *)

(** C8.  After an admitted preference update the stored custom
    envelope is the value of the [temperatureSchedule] key when the key
    is present, and [None] when it is absent.  In the latter case the
    envelope of a refresh is the one built from the preferences: that
    is what the next refresh sends to the optimizer. *)
Theorem C8_custom_envelope_replaced_or_cleared (e : env)
  (data : service_data) (save_to_db : bool) (w : world coordinator) :
  window_elapsed (now e) (self w) ->
  let w' := snd (async_update_schedule e data save_to_db w) in
  (forall v, d_temperatureSchedule data = Some v ->
     _custom_temperature_schedule (self w') = v) /\
  (d_temperatureSchedule data = None ->
   _custom_temperature_schedule (self w') = PNone /\
   schedule_for (self w') =
     rbind (_build_30min_temperature_schedule (config (self w')))
       (fun s => Ok (schedule_to_py s)) /\
   forall e' s,
     _build_30min_temperature_schedule (config (self w')) = Ok s ->
     exists rq,
       In (GenerateSchedule rq) (sent (snd (_async_update_data e' w'))) /\
       rq_temperatureSchedule rq = schedule_to_py s /\
       rq_config rq = config (self w')).
Proof.
  intros Hgate w'.
  destruct (update_admitted e data save_to_db w Hgate)
    as (c & w1 & Heq & _ & _ & _ & _ & Hcustom).
  subst w'. rewrite Heq. cbn [snd]. split.
  - intros v Hv. rewrite Hcustom, Hv. reflexivity.
  - intro Hnone. rewrite Hnone in Hcustom. cbn [or_keep] in Hcustom.
    assert (Hfor : schedule_for (self w1) =
                   rbind (_build_30min_temperature_schedule (config (self w1)))
                     (fun s => Ok (schedule_to_py s))).
    { unfold schedule_for. rewrite Hcustom. reflexivity. }
    split; [exact Hcustom|split; [exact Hfor|]].
    intros e' s Hs. apply refresh_request. rewrite Hfor, Hs. reflexivity.
Qed.

(** A call that supplies a custom envelope, followed two minutes later
    by one that does not. *)
Lemma C8_witness :
  let custom := PDict [("highTemperatures"%string, PList [PNum 75]);
                       ("lowTemperatures"%string, PList [PNum 70])] in
  let e1 := optimizer_gives (NoResponse TimeoutError) 1700000000 in
  let e2 := optimizer_gives (NoResponse TimeoutError) 1700000120 in
  let w1 := snd (async_update_schedule e1 (custom_only custom) false
                   stale_coordinator) in
  let w2 := snd (async_update_schedule e2 no_data false w1) in
  _custom_temperature_schedule (self w1) = custom /\
  _custom_temperature_schedule (self w2) = PNone.
Proof.
  intros custom e1 e2 w1 w2.
  assert (Hgate1 : window_elapsed (now e1) (self stale_coordinator))
    by (vm_compute; reflexivity).
  destruct (C8_custom_envelope_replaced_or_cleared
              e1 (custom_only custom) false stale_coordinator Hgate1)
    as [Hset _].
  assert (Hgate2 : window_elapsed (now e2) (self w1))
    by (vm_compute; reflexivity).
  destruct (C8_custom_envelope_replaced_or_cleared e2 no_data false w1 Hgate2)
    as [_ Hclear].
  split; [exact (Hset custom eq_refl)|exact (proj1 (Hclear eq_refl))].
Defined.

(** *** The bounds of the stored schedule *)

(** An array of two elements is not "fewer than two elements", yet the
    bounds are [None]. *)
Lemma C9_counterexample :
  let c := set_schedule_data (PList [PList [PNum 75]; PList [PNum 70]])
             example_coordinator in
  ~ (List.length [PList [PNum 75]; PList [PNum 70]] < 2)%nat /\
  get_schedule_bounds c = Ok None.
Proof. split; [simpl; lia|reflexivity]. Qed.

(** C9 (amended).  [get_schedule_bounds] returns [None] when nothing is
    stored and, for a stored array, exactly when the array has fewer
    than three elements; otherwise it returns the pair of the elements
    at positions 1 and 2. *)
Theorem C9_schedule_bounds (c : coordinator) :
  (schedule_data c = PNone -> get_schedule_bounds c = Ok None) /\
  (forall l : list pyval,
     schedule_data c = PList l ->
     (get_schedule_bounds c = Ok None <-> (List.length l < 3)%nat) /\
     ((3 <= List.length l)%nat ->
      exists high low,
        nth_error l 1 = Some high /\
        nth_error l 2 = Some low /\
        get_schedule_bounds c = Ok (Some (high, low)))).
Proof.
  unfold get_schedule_bounds. split.
  - intros ->. reflexivity.
  - intros l ->.
    destruct l as [|x0 [|x1 [|x2 l]]];
      try (cbn; split; [split; [lia|reflexivity]|lia]).
    cbn [truthy negb py_len].
    destruct (Z.ltb_spec (Z.of_nat (List.length (x0 :: x1 :: x2 :: l))) 3)
      as [Hlt|_]; [cbn [List.length] in Hlt; lia|].
    cbn [nth_error List.length].
    split; [split; [discriminate|lia]|].
    intros _. exists x1, x2. auto.
Qed.

(** An array of three elements. *)
Lemma C9_witness :
  let c := set_schedule_data
             (PList [PList [PNum 72]; PList [PNum 75]; PList [PNum 70]])
             example_coordinator in
  exists high low,
    high = PList [PNum 75] /\ low = PList [PNum 70] /\
    get_schedule_bounds c = Ok (Some (high, low)).
Proof.
  intro c.
  destruct (C9_schedule_bounds c) as [_ Harray].
  destruct (Harray [PList [PNum 72]; PList [PNum 75]; PList [PNum 70]]
              eq_refl) as [_ Hpair].
  destruct (Hpair ltac:(simpl; lia)) as (high & low & Hh & Hl & Hb).
  exists high, low. cbn in Hh, Hl.
  injection Hh as Hh. injection Hl as Hl. subst high low. auto.
Defined.

End CoordinatorFacts.
(* ----------------------------------------------------------------- *)
(** ** Times of day *)

Module TimeFacts.

Import Strptime Spec More.

Lemma digit_range (c : ascii) : is_digit c = true -> 0 <= digit c <= 9.
Proof.
  unfold is_digit, digit. intro H.
  apply andb_true_iff in H. destruct H as [H1 H2].
  apply Z.leb_le in H1, H2. lia.
Qed.

Lemma between_digit (hi c : ascii) :
  between "0" hi c = true ->
  0 <= digit c <= Z.of_nat (nat_of_ascii hi) - 48.
Proof.
  unfold between, digit. intro H.
  apply andb_true_iff in H. destruct H as [H1 H2].
  apply Nat.leb_le in H1, H2.
  change (nat_of_ascii "0") with 48%nat in H1. lia.
Qed.

Lemma re_H_range (s : list ascii) (h : Z) (r : list ascii) :
  In (h, r) (re_H s) -> 0 <= h <= 23.
Proof.
  unfold re_H. intro H.
  apply in_app_or in H. destruct H as [H|H];
    [|apply in_app_or in H; destruct H as [H|H]].
  - destruct s as [|a [|b s]]; try contradiction.
    destruct (Ascii.eqb a "2") eqn:Ea; [|contradiction].
    destruct (between "0" "3" b) eqn:Eb; [|contradiction].
    destruct H as [H|[]]. injection H as <- _.
    apply Ascii.eqb_eq in Ea. subst a.
    apply between_digit in Eb.
    change (Z.of_nat (nat_of_ascii "3") - 48) with 3 in Eb.
    change (0 <= 20 + digit b <= 23). lia.
  - destruct s as [|a [|b s]]; try contradiction.
    destruct (between "0" "1" a) eqn:Ea; [|contradiction].
    destruct (is_digit b) eqn:Eb; [|contradiction].
    destruct H as [H|[]]. injection H as <- _.
    apply between_digit in Ea. apply digit_range in Eb.
    change (Z.of_nat (nat_of_ascii "1") - 48) with 1 in Ea.
    change (0 <= 10 * digit a + digit b <= 23). lia.
  - destruct s as [|a s]; try contradiction.
    destruct (is_digit a) eqn:Ea; [|contradiction].
    destruct H as [H|[]]. injection H as <- _.
    apply digit_range in Ea. lia.
Qed.

Lemma re_M_range (s : list ascii) (m : Z) (r : list ascii) :
  In (m, r) (re_M s) -> 0 <= m <= 59.
Proof.
  unfold re_M. intro H. apply in_app_or in H. destruct H as [H|H].
  - destruct s as [|a [|b s]]; try contradiction.
    destruct (between "0" "5" a) eqn:Ea; [|contradiction].
    destruct (is_digit b) eqn:Eb; [|contradiction].
    destruct H as [H|[]]. injection H as <- _.
    apply between_digit in Ea. apply digit_range in Eb.
    change (Z.of_nat (nat_of_ascii "5") - 48) with 5 in Ea.
    change (0 <= 10 * digit a + digit b <= 59). lia.
  - destruct s as [|a s]; try contradiction.
    destruct (is_digit a) eqn:Ea; [|contradiction].
    destruct H as [H|[]]. injection H as <- _.
    apply digit_range in Ea. lia.
Qed.

Lemma re_HM_range (s : list ascii) (h m : Z) (r : list ascii) :
  In (h, m, r) (re_HM s) -> 0 <= h <= 23 /\ 0 <= m <= 59.
Proof.
  unfold re_HM. intro H.
  apply in_flat_map in H. destruct H as ([h' r1] & Hh & H).
  apply in_flat_map in H. destruct H as (r2 & _ & H).
  apply in_map_iff in H. destruct H as ([m' r3] & Heq & Hm).
  injection Heq as -> -> _.
  split; [exact (re_H_range _ _ _ Hh)|exact (re_M_range _ _ _ Hm)].
Qed.

(** What [strptime] accepts is a time of day. *)
Lemma strptime_range (s : string) (h m : Z) :
  strptime_HM s = Ok (h, m) -> 0 <= h <= 23 /\ 0 <= m <= 59.
Proof.
  unfold strptime_HM.
  destruct (re_HM (list_ascii_of_string s)) as [|[[h' m'] r] l] eqn:E;
    [discriminate|].
  destruct r; [|discriminate]. intro H. injection H as -> ->.
  apply (re_HM_range (list_ascii_of_string s) h m []).
  rewrite E. left. reflexivity.
Qed.

(** X1.  Whatever the text, [_time_to_30min_index] answers a slot of
    the day, from 0 to 47. *)
Theorem X1_time_index_is_a_slot (time_str : string) :
  0 <= _time_to_30min_index time_str <= 47.
Proof.
  unfold _time_to_30min_index.
  destruct (strptime_HM (str_prefix 5 time_str)) as [[h m]|x] eqn:E;
    [|lia].
  apply strptime_range in E. destruct E as [Hh Hm].
  split.
  - apply Z.div_pos; lia.
  - apply Z.lt_succ_r. apply Z.div_lt_upper_bound; lia.
Qed.

Lemma prefix_twice (n : nat) :
  forall s, str_prefix n (str_prefix n s) = str_prefix n s.
Proof.
  unfold str_prefix.
  induction n as [|n IH]; intros [|c s]; simpl; try reflexivity.
  now rewrite IH.
Qed.

(** X2.  Cutting a time to its first five characters before it is
    stored is harmless for the schedule: the stored text gives the slot
    the full text gives.  So it is for the times a new coordinator takes
    from the config entry and for those a service call supplies. *)
Theorem X2_stored_time_keeps_its_slot (time_str : string)
  (data : Coordinator.entry_data) :
  _time_to_30min_index (str_prefix 5 time_str) =
    _time_to_30min_index time_str /\
  _time_to_30min_index (timeAway (Coordinator.config (Coordinator.init data)))
    = _time_to_30min_index (Coordinator.CONF_TIME_AWAY data) /\
  _time_to_30min_index (timeHome (Coordinator.config (Coordinator.init data)))
    = _time_to_30min_index (Coordinator.CONF_TIME_HOME data).
Proof.
  assert (H : forall s, _time_to_30min_index (str_prefix 5 s) =
                        _time_to_30min_index s).
  { intro s. unfold _time_to_30min_index. now rewrite prefix_twice. }
  split; [apply H|split; apply H].
Qed.

Lemma slot_index_slot_of (hour minute : Z) :
  Spec.slot_index hour minute = slot_of hour minute.
Proof.
  unfold Spec.slot_index, slot_of.
  replace (hour * 60 + minute) with (hour * 2 * 30 + minute) by lia.
  now rewrite Z.div_add_l by lia.
Qed.

(** X3.  A time of day written [HH:MM], followed by anything (seconds,
    for instance), is given the slot [hour * 2 + minute // 30]: the one
    [get_current_setpoint] reads at that time of day. *)
Theorem X3_slot_of_a_written_time (hour minute : Z) (rest : string) :
  0 <= hour < 24 -> 0 <= minute < 60 ->
  _time_to_30min_index (clock_text hour minute ++ rest) =
    hour * 2 + minute / 30.
Proof.
  intros Hh Hm.
  assert (Hcut : str_prefix 5 (clock_text hour minute ++ rest) =
                 str_prefix 5 (clock_text hour minute)).
  { unfold str_prefix, clock_text, two_digits.
    cbn [append substring]. destruct rest; reflexivity. }
  unfold _time_to_30min_index at 1. rewrite Hcut.
  fold (_time_to_30min_index (clock_text hour minute)).
  rewrite (ScheduleFacts.time_index_is_slot_index hour minute (conj Hh Hm)).
  apply slot_index_slot_of.
Qed.

(** 17:30:00 is slot 35. *)
Lemma X3_witness : _time_to_30min_index "17:30:00" = 35.
Proof.
  exact (X3_slot_of_a_written_time 17 30 ":00" ltac:(lia) ltac:(lia)).
Defined.

End TimeFacts.

(* ----------------------------------------------------------------- *)
(** ** More on the schedule builder *)

Module BuilderFacts.

Import More Spec ScheduleFacts.






End BuilderFacts.

(* ----------------------------------------------------------------- *)
(** ** Rules for the requests of a method *)

Section TraceRules.
Context {T R : Type} (P : request -> Prop).

Lemma emits_nothing {A} (m : M (world T) R A) :
  (forall w, sent (snd (m w)) = sent w) -> emits P m.
Proof.
  intros H w. exists []. rewrite app_nil_r. split; [apply H|constructor].
Qed.

Lemma emits_ret {A} (a : A) : emits P (ret a : M (world T) R A).
Proof. apply emits_nothing. reflexivity. Qed.

Lemma emits_return {A} (r : R) : emits P (return_ r : M (world T) R A).
Proof. apply emits_nothing. reflexivity. Qed.

Lemma emits_raise {A} (e : exn) : emits P (raise e : M (world T) R A).
Proof. apply emits_nothing. reflexivity. Qed.

Lemma emits_lift {A} (r : result A) : emits P (lift r : M (world T) R A).
Proof. apply emits_nothing. intro w. destruct r; reflexivity. Qed.

Lemma emits_attr {A} (g : T -> A) : emits P (attr g : M (world T) R A).
Proof. apply emits_nothing. reflexivity. Qed.

Lemma emits_update (g : T -> T) : emits P (update g : M (world T) R unit).
Proof. apply emits_nothing. reflexivity. Qed.

Lemma emits_raise_for_status (response : Z * result pyval) :
  emits P (raise_for_status response : M (world T) R unit).
Proof.
  apply emits_nothing. intro w. unfold raise_for_status.
  destruct (400 <=? fst response); reflexivity.
Qed.

Lemma emits_json_of (response : Z * result pyval) :
  emits P (json_of response : M (world T) R pyval).
Proof. apply emits_lift. Qed.

Lemma emits_post (rq : request) (reply : http_reply) :
  P rq -> emits P (post rq reply : M (world T) R _).
Proof.
  intros Hrq w. exists [rq].
  split; [destruct reply; reflexivity|]. constructor; [exact Hrq|constructor].
Qed.

Lemma emits_bind {A B} (m : M (world T) R A) (k : A -> M (world T) R B) :
  emits P m -> (forall a, emits P (k a)) -> emits P (bind m k).
Proof.
  intros Hm Hk w. unfold bind. destruct (Hm w) as (l1 & H1 & F1).
  destruct (m w) as [[a|r|e] w']; cbn [snd] in *; eauto.
  destruct (Hk a w') as (l2 & H2 & F2).
  exists (l1 ++ l2). rewrite H2, H1, app_assoc.
  split; [reflexivity|]. apply Forall_app. auto.
Qed.

Lemma emits_try_except {A} (m : M (world T) R A)
  (h : exn -> option (M (world T) R A)) :
  emits P m -> (forall e hm, h e = Some hm -> emits P hm) ->
  emits P (try_except m h).
Proof.
  intros Hm Hh w. unfold try_except. destruct (Hm w) as (l1 & H1 & F1).
  destruct (m w) as [[a|r|e] w']; cbn [snd] in *; eauto.
  destruct (h e) as [hm|] eqn:E; cbn [snd]; eauto.
  destruct (Hh e hm E w') as (l2 & H2 & F2).
  exists (l1 ++ l2). rewrite H2, H1, app_assoc.
  split; [reflexivity|]. apply Forall_app. auto.
Qed.

Lemma emits_when (c : bool) (m : M (world T) R unit) :
  emits P m -> emits P (when c m).
Proof. intro Hm. destruct c; [exact Hm|apply emits_ret]. Qed.

Lemma emits_call {R'} (m : M (world T) R' R') :
  emits P m -> emits P (call m : M (world T) R R').
Proof.
  intros Hm w. unfold call. destruct (Hm w) as (l & H & F).
  destruct (m w) as [[a|r|e] w']; eauto.
Qed.

End TraceRules.

Lemma emits_weaken {T R A : Type} (P Q : request -> Prop)
  (m : M (world T) R A) :
  (forall rq, P rq -> Q rq) -> emits P m -> emits Q m.
Proof.
  intros Hpq Hm w. destruct (Hm w) as (l & H & F).
  exists l. split; [exact H|]. eapply Forall_impl; eauto.
Qed.

Create HintDb emits discriminated.

(** Decomposes a goal on the requests of a method along its
    structure. *)
Ltac emits_step :=
  match goal with
  | |- emits _ (bind _ _) => apply emits_bind; [|intro]
  | |- emits _ (ret _) => apply emits_ret
  | |- emits _ (return_ _) => apply emits_return
  | |- emits _ (raise _) => apply emits_raise
  | |- emits _ (lift _) => apply emits_lift
  | |- emits _ (attr _) => apply emits_attr
  | |- emits _ (update _) => apply emits_update
  | |- emits _ (raise_for_status _) => apply emits_raise_for_status
  | |- emits _ (json_of _) => apply emits_json_of
  | |- emits _ (post _ _) => apply emits_post; try exact I; try reflexivity
  | |- emits _ (when _ _) => apply emits_when
  | |- emits _ (call _) => apply emits_call; solve [eauto with emits]
  | |- emits _ (try_except _ _) =>
      apply emits_try_except;
      [|let H := fresh in intros ? ? H; injection H as <-]
  | |- emits _ (if ?b then _ else _) => destruct b
  | |- emits _ (match ?x with _ => _ end) => destruct x
  end.

Ltac emits_auto := repeat emits_step.

(** Runs a method body on a state, splitting on whatever decides its
    course. *)
Ltac exec_step :=
  cbn beta iota zeta delta [fst snd self sent];
  match goal with
  | |- context [match ?x with _ => _ end] =>
      lazymatch x with
      | context [match _ with _ => _ end] => fail
      | context [if _ then _ else _] => fail
      | _ => destruct x eqn:?
      end
  end.

(* ----------------------------------------------------------------- *)
(** ** More on the coordinator *)

Module CoordinatorMoreFacts.

Import Coordinator Spec More CoordinatorFacts CoordinatorMore.

Lemma not_authenticated (c : coordinator) :
  negb (truthy (user_id c)) || negb (truthy (auth_token c)) =
    negb (authenticated c).
Proof. unfold authenticated. now rewrite negb_andb. Qed.

(** X6.  Without credentials (the user id or the token is missing or
    empty) the rate fetch, the saving of the preferences and
    optimize-and-save return at once: no request goes out and the
    coordinator is left as it is. *)
Theorem X6_no_credentials_no_store_request (e : env) (immediate : bool)
  (w : world coordinator) :
  authenticated (self w) = false ->
  _async_fetch_thermal_rates_from_backend e w = (Returned PNone, w) /\
  _save_preferences_to_db e w = (Returned PNone, w) /\
  async_optimize_and_save e immediate w = (Returned PNone, w).
Proof.
  intro Hauth. destruct w as [c log]. cbn [self] in Hauth.
  split; [|split].
  - unfold _async_fetch_thermal_rates_from_backend.
    unfold bind, attr, gets. cbn beta iota. cbn [self].
    rewrite not_authenticated, Hauth. reflexivity.
  - unfold _save_preferences_to_db.
    unfold bind, attr, gets. cbn beta iota. cbn [self].
    rewrite not_authenticated, Hauth. reflexivity.
  - unfold async_optimize_and_save.
    unfold bind, attr, gets. cbn beta iota. cbn [self].
    rewrite not_authenticated, Hauth. reflexivity.
Qed.

(** A coordinator set up without credentials. *)
Lemma X6_witness :
  let w := {| self := example_coordinator; sent := [] |} in
  let e := optimizer_gives (NoResponse TimeoutError) 0 in
  _save_preferences_to_db e w = (Returned PNone, w).
Proof.
  intros w e.
  exact (proj1 (proj2 (X6_no_credentials_no_store_request e true w eq_refl))).
Defined.

(** X7.  A rate fetch never raises, and unless the reply carries
    thermal rates (status 200, a true [success], a non-empty mapping
    under [thermal_rates]) it leaves the whole coordinator, the cached
    rates included, as it was. *)
Theorem X7_fetch_without_rates_changes_nothing (e : env)
  (w : world coordinator) :
  fst (run (_async_fetch_thermal_rates_from_backend e) w) = Ok PNone /\
  (rates_payload (rates_reply e) = None ->
   self (snd (_async_fetch_thermal_rates_from_backend e w)) = self w).
Proof.
  split.
  - unfold _async_fetch_thermal_rates_from_backend. unfold_control.
    destruct w as [c log].
    repeat exec_step; try reflexivity; cbn; reflexivity.
  - unfold _async_fetch_thermal_rates_from_backend.
    unfold_control. destruct w as [c log]. intro Hnone.
    repeat exec_step; try reflexivity; exfalso;
      unfold rates_payload in Hnone;
      match goal with
      | H : py_get ?a "success" _ = Ok _ |- _ =>
          destruct a; try discriminate H; cbn [py_get] in *
      end;
      repeat match goal with
             | H : Ok _ = Ok _ |- _ => injection H as H; subst
             end;
      match goal with
      | H : py_get ?a "heating_rate" _ = Ok _ |- _ =>
          destruct a as [| | | | |[|item rates]] eqn:Ea;
          try discriminate H
      end;
      cbn [py_get] in *; try discriminate;
      match goal with
      | H : (_ =? 200) = true |- _ => rewrite H in Hnone
      end;
      repeat match goal with
             | H : truthy _ = true |- _ =>
                 first [rewrite H in Hnone|discriminate H]
             end;
      cbn in Hnone; discriminate.
Qed.

(** The rate service does not answer. *)
Lemma X7_witness :
  let e := store_gives (NoResponse TimeoutError) 0 in
  self (snd (_async_fetch_thermal_rates_from_backend e signed_in)) =
    self signed_in.
Proof.
  intro e.
  exact (proj2 (X7_fetch_without_rates_changes_nothing e signed_in) eq_refl).
Defined.

(** X8.  With credentials, a reply that carries thermal rates
    overwrites the three learned rates together: each becomes what the
    payload has under its key, [None] when the key is missing.  The
    fetch is time-stamped.  The working heating and cooling rates
    follow the learned ones, except that a learned [None] leaves the
    working rate as it was. *)
Theorem X8_fetch_overwrites_learned_rates (e : env) (w : world coordinator)
  (rates : list (string * pyval)) :
  authenticated (self w) = true ->
  rates_payload (rates_reply e) = Some rates ->
  let w' := snd (_async_fetch_thermal_rates_from_backend e w) in
  let heating := dict_get rates "heating_rate" PNone in
  let cooling := dict_get rates "cooling_rate" PNone in
  backend_heating_rate (self w') = heating /\
  backend_cooling_rate (self w') = cooling /\
  backend_natural_rate (self w') = dict_get rates "natural_rate" PNone /\
  thermal_rates_last_fetched (self w') = Some (now e) /\
  heat_up_rate (self w') =
    (if is_not_None heating then heating else heat_up_rate (self w)) /\
  cool_down_rate (self w') =
    (if is_not_None cooling then cooling else cool_down_rate (self w)) /\
  sent w' = sent w ++ [CalculateRates (user_id (self w))].
Proof.
  intros Hauth Hrates. unfold rates_payload in Hrates.
  destruct (rates_reply e) as [x|status [[| | | | |d]|x]] eqn:Hreply;
    try discriminate.
  destruct (status =? 200) eqn:Hstatus; [|discriminate].
  destruct (truthy (dict_get d "success" PNone)) eqn:Hsuccess;
    [|discriminate].
  cbn [andb] in Hrates.
  destruct (dict_get d "thermal_rates" PNone)
    as [| | | | |[|item others]] eqn:Hthermal; try discriminate.
  injection Hrates as <-.
  unfold _async_fetch_thermal_rates_from_backend. unfold_control.
  destruct w as [c log]. cbn [self sent] in *.
  rewrite not_authenticated, Hauth, Hreply.
  cbn beta iota zeta delta [fst snd self sent negb].
  rewrite Hstatus. cbn [py_get]. cbn beta iota zeta delta [fst snd self sent].
  rewrite Hsuccess. cbn beta iota zeta delta [fst snd self sent].
  rewrite Hthermal. cbn [truthy py_get].
  cbn beta iota zeta delta [fst snd self sent].
  destruct (is_not_None (dict_get (item :: others) "heating_rate" PNone));
    destruct (is_not_None (dict_get (item :: others) "cooling_rate" PNone));
    cbn; repeat split; reflexivity.
Qed.

(** Credentials, and a payload with a heating rate only. *)
Lemma X8_witness :
  let c := set_cool_down_rate (PNum (-2)) example_coordinator in
  let w := {| self := {| user_id := PStr "user-1";
                         auth_token := PStr "token";
                         config := config c;
                         schedule_data := PNone;
                         optimization_results := PNone;
                         heat_up_rate := PNum 1.25;
                         cool_down_rate := PNum (-2);
                         backend_heating_rate := PNone;
                         backend_cooling_rate := PNum (-2);
                         backend_natural_rate := PNone;
                         thermal_rates_last_fetched := None;
                         _last_update_time := 0;
                         _update_debounce_seconds := 2;
                         _daily_schedule := PNone;
                         _schedule_date := None;
                         _custom_temperature_schedule := PNone;
                         optimization_mode := PStr "cool" |};
              sent := [] |} in
  let e := {| now := 10; today := 19700;
              rates_reply :=
                Response 200
                  (Ok (PDict [("success"%string, PBool true);
                              ("thermal_rates"%string,
                               PDict [("heating_rate"%string, PNum 1.5)])]));
              optimizer_reply := NoResponse TimeoutError;
              save_reply := NoResponse TimeoutError;
              weather_forecast := PNone |} in
  let w' := snd (_async_fetch_thermal_rates_from_backend e w) in
  backend_heating_rate (self w') = PNum 1.5 /\
  backend_cooling_rate (self w') = PNone /\
  heat_up_rate (self w') = PNum 1.5 /\
  cool_down_rate (self w') = PNum (-2).
Proof.
  intros c w e w'.
  destruct (X8_fetch_overwrites_learned_rates e w
              [("heating_rate"%string, PNum 1.5)] eq_refl eq_refl)
    as (H1 & H2 & _ & _ & H5 & H6 & _).
  split; [exact H1|split; [exact H2|split; [exact H5|exact H6]]].
Defined.

(** *** The requests of a refresh *)

Lemma fetch_emits (e : env) :
  emits to_rates_endpoint (_async_fetch_thermal_rates_from_backend e).
Proof. unfold _async_fetch_thermal_rates_from_backend. emits_auto. Qed.

#[export] Hint Resolve fetch_emits : emits.

(** The state in which a refresh looks for its envelope: the fetch has
    written thermal rates at most and sent rate requests at most. *)
Lemma after_fetch (e : env) (w : world coordinator) :
  exists r w1 pre,
    (call (_async_fetch_thermal_rates_from_backend e) w
       : completion pyval pyval * _) = (Normal r, w1) /\
    rates_apart (self w) (self w1) /\
    sent w1 = sent w ++ pre /\ Forall to_rates_endpoint pre.
Proof.
  destruct (sat_call_normal (R := pyval) rates_apart _ _ w (fetch_sat e))
    as (r & w1 & Hcall & Hrel).
  destruct (fetch_emits e w) as (pre & Hsent & Hpre).
  exists r, w1, pre. split; [exact Hcall|split; [exact Hrel|]].
  unfold call in Hcall.
  destruct (_async_fetch_thermal_rates_from_backend e w) as [[a|a|x] w0];
    injection Hcall as _ <-; auto.
Qed.

Lemma refresh_sends (e : env) (w : world coordinator)
  (schedule : pyval) :
  schedule_for (self w) = Ok schedule ->
  let w' := snd (_async_update_data e w) in
  exists pre,
    Forall to_rates_endpoint pre /\
    sent w' = sent w ++ pre ++ [GenerateSchedule (request_of (self w') schedule)].
Proof.
  intros Hschedule w'. subst w'. unfold _async_update_data.
  destruct (after_fetch e w) as (r & w1 & pre & Hcall & Hrel & Hsent & Hpre).
  exists pre. split; [exact Hpre|].
  unfold try_except, bind.
  rewrite Hcall, current_schedule_eq, (schedule_for_rates_apart _ _ Hrel).
  rewrite Hschedule. rewrite app_assoc, <- Hsent.
  destruct w1 as [c1 log1]. clear.
  unfold_control. unfold request_of.
  repeat (simpl; exec_step); simpl; reflexivity.
Qed.

(** X9.  A refresh that has an envelope sends exactly one request to
    the optimizer, after the rate requests and as the last request of
    the run.  Its body is built from the coordinator as the refresh
    leaves it: the preferences, the envelope, the working heating and
    cooling rates, the mode, and a natural rate exactly when a learned
    one is cached. *)
Theorem X9_refresh_request (e : env) (w : world coordinator)
  (schedule : pyval) :
  schedule_for (self w) = Ok schedule ->
  let w' := snd (_async_update_data e w) in
  exists pre,
    Forall to_rates_endpoint pre /\
    sent w' = sent w ++ pre ++ [GenerateSchedule (request_of (self w') schedule)].
Proof. exact (refresh_sends e w schedule). Qed.

(** The coordinator of the worked example has an envelope. *)
Lemma X9_witness :
  let e := optimizer_gives (NoResponse TimeoutError) 0 in
  let w' := snd (_async_update_data e stale_coordinator) in
  exists pre rq,
    sent w' = sent stale_coordinator ++ pre ++ [GenerateSchedule rq] /\
    rq_naturalRate rq = None /\ rq_mode rq = PStr "cool".
Proof.
  intros e w'.
  pose proof (ScheduleFacts.build_schedule_eq example_preferences 72 6
                eq_refl eq_refl) as Hs.
  assert (Hfor : schedule_for (self stale_coordinator) =
                 rbind (_build_30min_temperature_schedule example_preferences)
                   (fun s => Ok (schedule_to_py s)))
    by reflexivity.
  rewrite Hs in Hfor. cbn [rbind] in Hfor.
  destruct (X9_refresh_request e stale_coordinator _ Hfor)
    as (pre & _ & Hsent).
  exists pre. eexists. split; [exact Hsent|]. split; reflexivity.
Defined.

(** X10.  A stored custom envelope that is not empty is what the
    refresh sends, whatever the preferences are; with no custom
    envelope, or an empty one, the refresh sends the envelope built
    from the preferences. *)
Theorem X10_custom_envelope_supersedes (e : env) (w : world coordinator) :
  let custom := _custom_temperature_schedule (self w) in
  let w' := snd (_async_update_data e w) in
  (truthy custom = true ->
   exists pre,
     Forall to_rates_endpoint pre /\
     sent w' = sent w ++ pre ++ [GenerateSchedule (request_of (self w') custom)])
  /\
  (forall s,
     truthy custom = false ->
     _build_30min_temperature_schedule (config (self w)) = Ok s ->
     exists pre,
       Forall to_rates_endpoint pre /\
       sent w' =
         sent w ++ pre ++
         [GenerateSchedule (request_of (self w') (schedule_to_py s))]) /\
  truthy PNone = false /\ truthy (PDict []) = false.
Proof.
  intros custom w'. split; [|split; [|split; reflexivity]].
  - intro Hcustom. apply refresh_sends.
    unfold schedule_for. fold custom. now rewrite Hcustom.
  - intros s Hcustom Hs. apply refresh_sends.
    unfold schedule_for. fold custom. now rewrite Hcustom, Hs.
Qed.

(** A custom envelope on a coordinator whose base temperature is a
    text. *)
Lemma X10_witness :
  let custom := PDict [("highTemperatures"%string, PList [PNum 75])] in
  let c := set__custom_temperature_schedule custom
             (set_config (set_homeTemperature (PStr "warm") example_preferences)
                example_coordinator) in
  let e := optimizer_gives (NoResponse TimeoutError) 0 in
  let w' := snd (_async_update_data e {| self := c; sent := [] |}) in
  exists pre rq,
    sent w' = pre ++ [GenerateSchedule rq] /\
    rq_temperatureSchedule rq = custom.
Proof.
  intros custom c e w'.
  destruct (X10_custom_envelope_supersedes e {| self := c; sent := [] |})
    as [Hcustom _].
  destruct (Hcustom eq_refl) as (pre & _ & Hsent).
  exists pre. eexists. split; [exact Hsent|reflexivity].
Defined.

(** X11.  With no custom envelope and preferences from which none can
    be built, the refresh raises [UpdateFailed] without contacting the
    optimizer: only rate requests have gone out, and the stored
    optimization result is untouched. *)
Theorem X11_no_envelope_no_optimizer_call (e : env) (w : world coordinator)
  (x : exn) :
  truthy (_custom_temperature_schedule (self w)) = false ->
  _build_30min_temperature_schedule (config (self w)) = Err x ->
  let out := run (_async_update_data e) w in
  fst out = Err UpdateFailed /\
  (exists pre, Forall to_rates_endpoint pre /\ sent (snd out) = sent w ++ pre)
  /\
  optimization_results (self (snd out)) = optimization_results (self w) /\
  schedule_data (self (snd out)) = schedule_data (self w) /\
  _daily_schedule (self (snd out)) = _daily_schedule (self w).
Proof.
  intros Hcustom Hbuild out. subst out. unfold run, _async_update_data.
  destruct (after_fetch e w) as (r & w1 & pre & Hcall & Hrel & Hsent & Hpre).
  unfold try_except, bind.
  rewrite Hcall, current_schedule_eq, (schedule_for_rates_apart _ _ Hrel).
  unfold schedule_for. rewrite Hcustom, Hbuild. cbn.
  cbv [rates_apart both same] in Hrel.
  destruct Hrel as (_ & _ & _ & Hs & Hr & _ & _ & Hd & _).
  split; [reflexivity|split; [eauto|auto]].
Qed.

(** A base temperature given as a text. *)
Lemma X11_witness :
  let c := set_config (set_homeTemperature (PStr "warm") example_preferences)
             example_coordinator in
  let e := optimizer_gives (Response 200 (Ok (PDict []))) 0 in
  let out := run (_async_update_data e) {| self := c; sent := [] |} in
  fst out = Err UpdateFailed /\ optimization_results (self (snd out)) = PNone.
Proof.
  intros c e out.
  destruct (X11_no_envelope_no_optimizer_call e {| self := c; sent := [] |}
              TypeError eq_refl eq_refl) as (H1 & _ & H3 & _).
  split; [exact H1|exact H3].
Defined.

End CoordinatorMoreFacts.

(* ----------------------------------------------------------------- *)
(** ** The current setpoint *)

Module SetpointFacts.

Import Coordinator Spec More CoordinatorFacts CoordinatorMore.

Lemma slot_of_range (hour minute : Z) :
  0 <= hour < 24 -> 0 <= minute < 60 -> 0 <= slot_of hour minute <= 47.
Proof.
  intros Hh Hm. unfold slot_of.
  assert (0 <= minute / 30 <= 1).
  { split; [apply Z.div_pos; lia|].
    apply Z.lt_succ_r. apply Z.div_lt_upper_bound; lia. }
  lia.
Qed.

Lemma assoc_some_truthy (key : string) (d : list (string * pyval))
  (v : pyval) :
  assoc key d = Some v -> truthy (PDict d) = true.
Proof. destruct d; [discriminate|reflexivity]. Qed.

Lemma setpoint_of_list (c : coordinator) (d : list (string * pyval))
  (l : list pyval) (hour minute : Z) :
  optimization_results c = PDict d ->
  assoc "bestTempActual" d = Some (PList l) ->
  0 <= hour < 24 -> 0 <= minute < 60 ->
  get_current_setpoint hour minute c =
    Ok (item_or_None l (slot_of hour minute)).
Proof.
  intros Hres Hbest Hh Hm.
  pose proof (slot_of_range hour minute Hh Hm) as Hslot.
  unfold get_current_setpoint. rewrite Hres.
  rewrite (assoc_some_truthy _ _ _ Hbest). cbn [negb py_get rbind].
  unfold dict_get. rewrite Hbest. fold (slot_of hour minute).
  unfold item_or_None.
  destruct l as [|v l]; [cbn; now destruct (Z.to_nat _)|].
  cbn [truthy negb py_len rbind].
  destruct (Z.leb_spec 0 (slot_of hour minute)) as [_|]; [|lia].
  cbn [andb].
  destruct (Z.ltb_spec (slot_of hour minute)
              (Z.of_nat (List.length (v :: l)))) as [Hlt|Hge].
  - unfold py_index.
    destruct (Z.ltb_spec (slot_of hour minute) 0) as [|_]; [lia|].
    destruct (Z.ltb_spec (slot_of hour minute) 0) as [|_]; [lia|].
    destruct (nth_error (v :: l) (Z.to_nat (slot_of hour minute))) eqn:E;
      [reflexivity|].
    apply nth_error_None in E. lia.
  - destruct (nth_error (v :: l) (Z.to_nat (slot_of hour minute))) eqn:E;
      [|reflexivity].
    assert (Hsome : nth_error (v :: l) (Z.to_nat (slot_of hour minute))
                    <> None) by congruence.
    apply nth_error_Some in Hsome. lia.
Qed.

(** X12.  At a time of day [hour]:[minute], [get_current_setpoint]
    answers [None] when no result is stored or the stored result has
    no setpoint sequence; for a stored sequence it answers the element
    at position [hour * 2 + minute // 30], and [None] when the sequence
    is too short for that position; a sequence of 48 setpoints has an
    element for every time of day.  In each of these cases it returns
    without raising. *)
Theorem X12_current_setpoint (c : coordinator) (hour minute : Z) :
  0 <= hour < 24 -> 0 <= minute < 60 ->
  (optimization_results c = PNone ->
   get_current_setpoint hour minute c = Ok PNone) /\
  (forall d,
     optimization_results c = PDict d ->
     assoc "bestTempActual" d = None ->
     get_current_setpoint hour minute c = Ok PNone) /\
  (forall d l,
     optimization_results c = PDict d ->
     assoc "bestTempActual" d = Some (PList l) ->
     get_current_setpoint hour minute c =
       Ok (item_or_None l (hour * 2 + minute / 30)) /\
     (List.length l = 48%nat ->
      exists v, nth_error l (Z.to_nat (hour * 2 + minute / 30)) = Some v /\
                get_current_setpoint hour minute c = Ok v)).
Proof.
  intros Hh Hm. split; [|split].
  - intro Hres. unfold get_current_setpoint. now rewrite Hres.
  - intros d Hres Hbest. unfold get_current_setpoint. rewrite Hres.
    destruct d as [|item d]; [reflexivity|].
    cbn [truthy negb py_get rbind]. unfold dict_get. rewrite Hbest.
    reflexivity.
  - intros d l Hres Hbest.
    pose proof (setpoint_of_list c d l hour minute Hres Hbest Hh Hm) as H.
    split; [exact H|]. intro Hlen.
    pose proof (slot_of_range hour minute Hh Hm) as Hslot.
    unfold slot_of in *.
    destruct (nth_error l (Z.to_nat (hour * 2 + minute / 30))) as [v|] eqn:E.
    + exists v. split; [reflexivity|]. rewrite H. unfold item_or_None.
      now rewrite E.
    + apply nth_error_None in E. lia.
Qed.

(** Three setpoints stored, read at 01:10. *)
Lemma X12_witness :
  let c := set_optimization_results
             (PDict [("bestTempActual"%string,
                      PList [PNum 70; PNum 71; PNum 72])])
             example_coordinator in
  get_current_setpoint 1 10 c = Ok (PNum 72).
Proof.
  intro c.
  destruct (X12_current_setpoint c 1 10 ltac:(lia) ltac:(lia))
    as (_ & _ & H).
  exact (proj1 (H _ [PNum 70; PNum 71; PNum 72] eq_refl eq_refl)).
Defined.



End SetpointFacts.

(* ----------------------------------------------------------------- *)
(** ** The services of the coordinator *)

Module ServiceFacts.

Import Coordinator Spec More CoordinatorFacts CoordinatorMore
  CoordinatorMoreFacts.

(** *** Forced and nightly optimization *)

(** A requested refresh leaves the coordinator as the refresh itself
    leaves it. *)
Lemma request_refresh_state (e : env) (w : world coordinator) :
  snd (async_request_refresh e w) = snd (_async_update_data e w) /\
  fst (async_request_refresh e w) = Normal tt.
Proof.
  unfold async_request_refresh, try_except, bind, call, ret.
  destruct (_async_update_data e w) as [[a|r|x] w']; split; reflexivity.
Qed.

(** X14.  A forced optimization and the nightly one never raise: they
    return [None] whatever the rate service and the optimizer answer.
    When the optimizer call fails the stored result, the hourly
    sequence, the daily setpoints and their date stay as they were. *)
Theorem X14_forced_optimization_absorbs_failure (e : env)
  (w : world coordinator) :
  let out := run (force_optimization e) w in
  fst out = Ok PNone /\
  run (_handle_midnight_optimization e) w = out /\
  (optimizer_call_fails (optimizer_reply e) ->
   optimization_results (self (snd out)) = optimization_results (self w) /\
   schedule_data (self (snd out)) = schedule_data (self w) /\
   _daily_schedule (self (snd out)) = _daily_schedule (self w) /\
   _schedule_date (self (snd out)) = _schedule_date (self w)).
Proof.
  intro out. subst out.
  destruct (request_refresh_state e w) as [Hstate Hnormal].
  unfold run, force_optimization, _handle_midnight_optimization, bind, ret.
  destruct (async_request_refresh e w) as [c w'].
  cbn [fst snd] in Hstate, Hnormal. subst c w'. cbn [fst snd].
  split; [reflexivity|split; [reflexivity|]].
  intro Hfail. destruct (refresh_fails e w Hfail) as (w' & Heq & Hrel).
  rewrite Heq. cbn [snd].
  cbv [rates_apart both same] in Hrel.
  destruct Hrel as (_ & _ & _ & Hs & Hr & _ & _ & Hd & Hdate & _).
  auto.
Qed.

(** The optimizer does not answer in time. *)
Lemma X14_witness :
  let e := optimizer_gives (NoResponse TimeoutError) 0 in
  let out := run (force_optimization e) stale_coordinator in
  fst out = Ok PNone /\
  optimization_results (self (snd out)) = previous_result.
Proof.
  intros e out.
  destruct (X14_forced_optimization_absorbs_failure e stale_coordinator)
    as (H1 & _ & H3).
  split; [exact H1|exact (proj1 (H3 I))].
Defined.

(** *** The requests of each service *)

Section Requests.
Variable P : request -> Prop.
Variable e : env.

Lemma fetch_emits_any :
  (forall uid, P (CalculateRates uid)) ->
  emits P (_async_fetch_thermal_rates_from_backend e).
Proof.
  intro Hrates. apply emits_weaken with (P := to_rates_endpoint).
  - intros [] H; try contradiction. apply Hrates.
  - apply fetch_emits.
Qed.

Lemma refresh_emits :
  (forall uid, P (CalculateRates uid)) ->
  (forall body, P (GenerateSchedule body)) ->
  emits P (_async_update_data e).
Proof.
  intros Hrates Hbody.
  pose proof (fetch_emits_any Hrates) as Hfetch.
  unfold _async_update_data, current_schedule.
  repeat first [apply emits_call; exact Hfetch
               |apply emits_post; apply Hbody
               |emits_step].
Qed.

Lemma request_refresh_emits :
  (forall uid, P (CalculateRates uid)) ->
  (forall body, P (GenerateSchedule body)) ->
  emits P (async_request_refresh e).
Proof.
  intros Hrates Hbody.
  pose proof (refresh_emits Hrates Hbody) as Hrefresh.
  unfold async_request_refresh.
  repeat first [apply emits_call; exact Hrefresh|emits_step].
Qed.

Lemma save_emits :
  (forall uid preferences forecast results,
     P (SavePreferences uid preferences forecast false results)) ->
  emits P (_save_preferences_to_db e).
Proof.
  intro Hsave. unfold _save_preferences_to_db, current_schedule.
  repeat first [apply emits_post; apply Hsave|emits_step].
Qed.

Lemma update_emits (data : service_data) (save_to_db : bool) :
  (forall uid, P (CalculateRates uid)) ->
  (forall body, P (GenerateSchedule body)) ->
  (save_to_db = true ->
   forall uid preferences forecast results,
     P (SavePreferences uid preferences forecast false results)) ->
  emits P (async_update_schedule e data save_to_db).
Proof.
  intros Hrates Hbody Hsave.
  pose proof (request_refresh_emits Hrates Hbody) as Hrefresh.
  unfold async_update_schedule, if_in, set_item, log_custom_schedule.
  destruct save_to_db; cbn [when].
  - pose proof (save_emits (Hsave eq_refl)) as Hdb.
    repeat first [exact Hrefresh|apply emits_call; exact Hdb|emits_step].
  - repeat first [exact Hrefresh|emits_step].
Qed.

Lemma optimize_and_save_emits (immediate : bool) :
  (forall uid preferences forecast results,
     P (SavePreferences uid preferences forecast immediate results)) ->
  emits P (async_optimize_and_save e immediate).
Proof.
  intro Hsave. unfold async_optimize_and_save, current_schedule.
  repeat first [apply emits_post; apply Hsave|emits_step].
Qed.

End Requests.

(** X15.  What each service may send.  A forced optimization sends
    rate and optimizer requests only.  An update of the schedule sends,
    besides those, only save requests that do not ask for an immediate
    optimization, and no save request at all when it is not asked to
    save.  Optimize-and-save sends nothing to the rate service or the
    optimizer: only a save request carrying its [immediate] flag. *)
Theorem X15_requests_of_the_services (e : env) (data : service_data)
  (save_to_db immediate : bool) :
  emits to_optimizer_or_rates (force_optimization e) /\
  emits (fun rq => to_optimizer_or_rates rq \/ save_with false rq)
    (async_update_schedule e data save_to_db) /\
  emits to_optimizer_or_rates (async_update_schedule e data false) /\
  emits (save_with immediate) (async_optimize_and_save e immediate).
Proof.
  split; [|split; [|split]].
  - unfold force_optimization. apply emits_bind; [|intro; apply emits_ret].
    apply request_refresh_emits; intros; exact I.
  - apply update_emits; intros; first [left; exact I|right; reflexivity].
  - apply update_emits; intros; first [exact I|discriminate].
  - apply optimize_and_save_emits. intros; reflexivity.
Qed.

(** *** Saving the preferences *)

Lemma save_sends (e : env) (w : world coordinator)
  (d : list (string * pyval)) :
  authenticated (self w) = true ->
  schedule_for (self w) = Ok (PDict d) ->
  exists preferences,
    sent (snd (_save_preferences_to_db e w)) =
      sent w ++
      [SavePreferences (user_id (self w)) preferences (weather_forecast e)
         false
         (if truthy (optimization_results (self w))
          then optimization_results (self w) else PNone)] /\
    describes (self w) d preferences.
Proof.
  intros Hauth Hschedule.
  unfold _save_preferences_to_db, current_schedule. unfold_control.
  destruct w as [c log]. cbn [self sent] in *.
  rewrite not_authenticated, Hauth.
  cbn beta iota zeta delta [fst snd self sent negb].
  rewrite Hschedule.
  cbn beta iota zeta delta [fst snd self sent py_get].
  eexists. split.
  - repeat exec_step; reflexivity.
  - unfold describes. repeat split.
Qed.

Lemma optimize_sends (e : env) (immediate : bool) (w : world coordinator)
  (d : list (string * pyval)) :
  authenticated (self w) = true ->
  schedule_for (self w) = Ok (PDict d) ->
  exists preferences,
    sent (snd (async_optimize_and_save e immediate w)) =
      sent w ++
      [SavePreferences (user_id (self w)) preferences (weather_forecast e)
         immediate PNone] /\
    describes (self w) d preferences.
Proof.
  intros Hauth Hschedule.
  unfold async_optimize_and_save, current_schedule. unfold_control.
  destruct w as [c log]. cbn [self sent] in *.
  rewrite not_authenticated, Hauth.
  cbn beta iota zeta delta [fst snd self sent negb].
  rewrite Hschedule.
  cbn beta iota zeta delta [fst snd self sent py_get].
  eexists. split.
  - repeat exec_step; reflexivity.
  - unfold describes. repeat split.
Qed.

Lemma save_skipped (e : env) (w : world coordinator) :
  (forall d, schedule_for (self w) <> Ok (PDict d)) ->
  forall immediate,
    _save_preferences_to_db e w =
      (if authenticated (self w) then Normal PNone else Returned PNone, w) /\
    async_optimize_and_save e immediate w =
      (if authenticated (self w) then Normal PNone else Returned PNone, w).
Proof.
  intros Hnone immediate.
  unfold _save_preferences_to_db, async_optimize_and_save, current_schedule.
  unfold_control. destruct w as [c log]. cbn [self sent] in *.
  rewrite not_authenticated.
  destruct (authenticated c);
    cbn beta iota zeta delta [fst snd self sent negb];
    [|split; reflexivity].
  destruct (schedule_for c) as [[| | | | |d]|x]; try (split; reflexivity).
  now destruct (Hnone d).
Qed.

(** X16.  With credentials and an envelope that is a mapping, saving
    the preferences sends one request to the store: for the user id of
    the coordinator, with the thirteen preference entries taken from
    the preferences (the target temperature twice), the two bounds of
    the envelope, the three learned rates and the mode, with no request
    for an immediate optimization, and with the stored optimization
    result ([None] when there is none or it is empty).
    Optimize-and-save sends the same entries with its [immediate] flag
    and without a stored result.  When there is no such envelope
    neither of them sends anything or changes anything, and neither
    raises. *)
Theorem X16_save_request (e : env) (w : world coordinator) :
  authenticated (self w) = true ->
  (forall d,
     schedule_for (self w) = Ok (PDict d) ->
     exists preferences,
       sent (snd (_save_preferences_to_db e w)) =
         sent w ++
         [SavePreferences (user_id (self w)) preferences (weather_forecast e)
            false
            (if truthy (optimization_results (self w))
             then optimization_results (self w) else PNone)] /\
       describes (self w) d preferences) /\
  (forall d immediate,
     schedule_for (self w) = Ok (PDict d) ->
     exists preferences,
       sent (snd (async_optimize_and_save e immediate w)) =
         sent w ++
         [SavePreferences (user_id (self w)) preferences (weather_forecast e)
            immediate PNone] /\
       describes (self w) d preferences) /\
  ((forall d, schedule_for (self w) <> Ok (PDict d)) ->
   _save_preferences_to_db e w = (Normal PNone, w) /\
   forall immediate, async_optimize_and_save e immediate w = (Normal PNone, w)).
Proof.
  intro Hauth. split; [|split].
  - intros d Hschedule. exact (save_sends e w d Hauth Hschedule).
  - intros d immediate Hschedule.
    exact (optimize_sends e immediate w d Hauth Hschedule).
  - intro Hnone. split.
    + destruct (save_skipped e w Hnone false) as [H _].
      now rewrite Hauth in H.
    + intro immediate. destruct (save_skipped e w Hnone immediate) as [_ H].
      now rewrite Hauth in H.
Qed.

(** The account of the worked example, with nothing stored yet. *)
Lemma X16_witness :
  let e := store_gives (NoResponse TimeoutError) 0 in
  exists preferences,
    sent (snd (_save_preferences_to_db e signed_in)) =
      [SavePreferences (PStr "user-1") preferences PNone false PNone] /\
    dict_get preferences "time_away" PNone = PStr "08:00".
Proof.
  intro e.
  pose proof (ScheduleFacts.build_schedule_eq (config (self signed_in)) 72 6
                eq_refl eq_refl) as Hs.
  assert (Hfor : schedule_for (self signed_in) =
                 rbind (_build_30min_temperature_schedule
                          (config (self signed_in)))
                   (fun s => Ok (schedule_to_py s)))
    by reflexivity.
  rewrite Hs in Hfor. cbn [rbind] in Hfor.
  destruct (X16_save_request e signed_in eq_refl) as [H _].
  destruct (H _ Hfor) as (preferences & Hsent & Hdesc).
  exists preferences. split; [exact Hsent|].
  exact (proj1 (proj2 (proj2 (proj2 (proj2 (proj2 (proj2 Hdesc))))))).
Defined.

End ServiceFacts.

(* ----------------------------------------------------------------- *)
(** ** The reply of the store *)

Module StoreFacts.

Import Coordinator Spec More CoordinatorFacts CoordinatorMore
  CoordinatorMoreFacts ServiceFacts.

(** Brings the facts gathered along one path of a save to bear on what
    the reply is known to carry. *)
Ltac payload_known H :=
  unfold optimization_payload in H;
  repeat match goal with
         | E : _ && _ = true |- _ =>
             apply andb_true_iff in E; destruct E
         end;
  repeat match goal with
         | E : py_get (PDict _) _ _ = Ok _ |- _ =>
             cbn [py_get] in E; injection E as <-
         end;
  repeat match goal with
         | E : _ = true |- _ => rewrite E in H
         | E : _ = false |- _ => rewrite E in H
         end;
  cbn [negb andb] in H.

Lemma save_never_raises (e : env) (w : world coordinator) :
  fst (run (_save_preferences_to_db e) w) = Ok PNone.
Proof.
  unfold _save_preferences_to_db, current_schedule. unfold_control.
  destruct w as [c log].
  repeat exec_step; reflexivity.
Qed.

Lemma optimize_never_raises (e : env) (immediate : bool)
  (w : world coordinator) :
  fst (run (async_optimize_and_save e immediate) w) = Ok PNone.
Proof.
  unfold async_optimize_and_save, current_schedule. unfold_control.
  destruct w as [c log].
  repeat exec_step; reflexivity.
Qed.

Lemma save_without_payload (e : env) (w : world coordinator) :
  optimization_payload (save_reply e) = None ->
  self (snd (_save_preferences_to_db e w)) = self w.
Proof.
  intro Hnone.
  unfold _save_preferences_to_db, current_schedule. unfold_control.
  destruct w as [c log].
  repeat exec_step; try reflexivity;
    exfalso; payload_known Hnone; discriminate Hnone.
Qed.

Lemma optimize_without_payload (e : env) (immediate : bool)
  (w : world coordinator) :
  optimization_payload (save_reply e) = None \/ immediate = false ->
  self (snd (async_optimize_and_save e immediate w)) = self w.
Proof.
  intro Hnone.
  unfold async_optimize_and_save, current_schedule. unfold_control.
  destruct w as [c log].
  repeat exec_step; try reflexivity;
    exfalso;
    (destruct Hnone as [Hnone| ->];
     [payload_known Hnone; discriminate Hnone
     |cbn [andb] in *; discriminate]).
Qed.

(** X17.  Saving the preferences and optimize-and-save never raise:
    they return [None] whatever the store answers.  Unless the reply of
    the store carries an optimization (status below 400, a mapping with
    [status] equal to ["success"] and an [optimization] entry) they leave
    the coordinator as it was; optimize-and-save without [immediate]
    leaves it as it was whatever the reply. *)
Theorem X17_store_reply_without_optimization (e : env) (immediate : bool)
  (w : world coordinator) :
  fst (run (_save_preferences_to_db e) w) = Ok PNone /\
  fst (run (async_optimize_and_save e immediate) w) = Ok PNone /\
  (optimization_payload (save_reply e) = None ->
   self (snd (_save_preferences_to_db e w)) = self w /\
   self (snd (async_optimize_and_save e immediate w)) = self w) /\
  self (snd (async_optimize_and_save e false w)) = self w.
Proof.
  split; [apply save_never_raises|].
  split; [apply optimize_never_raises|].
  split.
  - intro Hnone. split; [now apply save_without_payload|].
    apply optimize_without_payload. now left.
  - apply optimize_without_payload. now right.
Qed.

(** The store answers 500. *)
Lemma X17_witness :
  let e := {| now := 0; today := 19700;
              rates_reply := NoResponse ClientError;
              optimizer_reply := NoResponse ClientError;
              save_reply := Response 500 (Ok (PDict []));
              weather_forecast := PNone |} in
  self (snd (_save_preferences_to_db e stale_coordinator)) =
    self stale_coordinator.
Proof.
  intro e.
  destruct (X17_store_reply_without_optimization e true stale_coordinator)
    as (_ & _ & H & _).
  exact (proj1 (H eq_refl)).
Defined.

(** X18.  With credentials and an envelope, an optimization carried by
    the reply of the store replaces the stored result, both when the
    preferences are saved and on optimize-and-save with [immediate].  A
    mapping also replaces the hourly sequence and the daily setpoints
    (the empty list for a missing key) and dates them today.  The reply
    is not checked to be a mapping: anything else is stored as the
    result as well, next to the sequences and the date of the previous
    one. *)
Theorem X18_store_reply_optimization (e : env) (w : world coordinator)
  (d : list (string * pyval)) (opt : pyval) :
  authenticated (self w) = true ->
  schedule_for (self w) = Ok (PDict d) ->
  optimization_payload (save_reply e) = Some opt ->
  let c' := self (snd (_save_preferences_to_db e w)) in
  self (snd (async_optimize_and_save e true w)) = c' /\
  optimization_results c' = opt /\
  match opt with
  | PDict o =>
      schedule_data c' = dict_get o "HourlyTemperature" (PList []) /\
      _daily_schedule c' = dict_get o "bestTempActual" (PList []) /\
      _schedule_date c' = Some (today e)
  | _ =>
      schedule_data c' = schedule_data (self w) /\
      _daily_schedule c' = _daily_schedule (self w) /\
      _schedule_date c' = _schedule_date (self w)
  end.
Proof.
  intros Hauth Hschedule Hsome c'. subst c'.
  unfold optimization_payload in Hsome.
  destruct (save_reply e) as [x|status [[| | | | |items]|x]] eqn:Hreply;
    try discriminate.
  destruct (400 <=? status) eqn:Hstatus; [discriminate|].
  destruct (py_eq_str (dict_get items "status" PNone) "success") eqn:Hok;
    [|discriminate].
  destruct (dict_mem items "optimization") eqn:Hmem; [|discriminate].
  cbn [negb andb] in Hsome. injection Hsome as <-.
  unfold _save_preferences_to_db, async_optimize_and_save, current_schedule.
  unfold_control. destruct w as [c log]. cbn [self sent] in *.
  rewrite not_authenticated, Hauth.
  cbn beta iota zeta delta [fst snd self sent negb].
  rewrite Hschedule, Hreply.
  cbn beta iota zeta delta [fst snd self sent py_get].
  rewrite Hstatus.
  cbn beta iota zeta delta [fst snd self sent py_get].
  rewrite Hok.
  cbn beta iota zeta delta [fst snd self sent py_get andb].
  rewrite Hmem.
  cbn beta iota zeta delta [fst snd self sent py_get].
  destruct (dict_get items "optimization" PNone) as [| | | | |o];
    cbn beta iota zeta delta [fst snd self sent py_get];
    try (split; [reflexivity|split; [reflexivity|repeat split]]).
  destruct (py_format_float (dict_get o "costSavings" (PNum 0)));
    cbn; repeat split.
Qed.

(** The store answers with an optimization of one setpoint. *)
Lemma X18_witness :
  let opt := PDict [("bestTempActual"%string, PList [PNum 70])] in
  let e := store_gives
             (Response 200
                (Ok (PDict [("status"%string, PStr "success");
                            ("optimization"%string, opt)]))) 0 in
  let c' := self (snd (_save_preferences_to_db e signed_in)) in
  optimization_results c' = opt /\
  schedule_data c' = PList [] /\
  _daily_schedule c' = PList [PNum 70].
Proof.
  intros opt e c'.
  pose proof (ScheduleFacts.build_schedule_eq (config (self signed_in)) 72 6
                eq_refl eq_refl) as Hs.
  assert (Hfor : schedule_for (self signed_in) =
                 rbind (_build_30min_temperature_schedule
                          (config (self signed_in)))
                   (fun s => Ok (schedule_to_py s)))
    by reflexivity.
  rewrite Hs in Hfor. cbn [rbind] in Hfor.
  destruct (X18_store_reply_optimization e signed_in _ opt eq_refl Hfor
              eq_refl) as (_ & H1 & H2 & H3 & _).
  split; [exact H1|split; [exact H2|exact H3]].
Defined.

End StoreFacts.

(* ----------------------------------------------------------------- *)
(** ** What holds throughout a session *)

Module SessionFacts.

Import Coordinator Spec More CoordinatorFacts CoordinatorMore
  CoordinatorMoreFacts ServiceFacts.

#[export] Instance fixed_at_setup_Reflexive : Reflexive fixed_at_setup.
Proof. unfold fixed_at_setup. exact _. Qed.

#[export] Instance fixed_at_setup_Transitive : Transitive fixed_at_setup.
Proof. unfold fixed_at_setup. exact _. Qed.

Lemma sat_relax {T R A : Type} (Rel Rel' : T -> T -> Prop)
  (PR : R -> Prop) (PE : exn -> Prop) (m : M (world T) R A) :
  (forall c c', Rel c c' -> Rel' c c') -> sat Rel PR PE m -> sat Rel' PR PE m.
Proof.
  intros Himp Hm w. destruct (Hm w) as [H1 H2]. split; auto.
Qed.

Lemma results_apart_fixed (c c' : coordinator) :
  results_apart c c' -> fixed_at_setup c c'.
Proof.
  cbv [results_apart fixed_at_setup both same].
  intros (Hu & Ht & Hc & _ & Hd & _). rewrite Hc. auto.
Qed.

Lemma snd_run {S R : Type} (m : M S R R) (s : S) :
  snd (run m s) = snd (m s).
Proof. unfold run. destruct (m s) as [[a|r|x] s']; reflexivity. Qed.

(** Optimize-and-save writes the stored optimization at most. *)
Lemma optimize_sat (e : env) (immediate : bool) (PE : exn -> Prop) :
  sat results_apart (fun r => r = PNone) PE
    (async_optimize_and_save e immediate).
Proof.
  unfold async_optimize_and_save, current_schedule. sat_auto.
Qed.

Lemma force_sat (e : env) :
  sat results_apart anything nothing (force_optimization e).
Proof.
  unfold force_optimization.
  apply sat_bind; [exact _|apply request_refresh_sat|intro; sat_auto].
Qed.

(** An update of the schedule leaves alone what is fixed at set-up. *)
Lemma update_fixed (e : env) (data : service_data) (save_to_db : bool) :
  sat fixed_at_setup anything anything
    (async_update_schedule e data save_to_db).
Proof.
  assert (Hrefresh : sat fixed_at_setup (anything (X := pyval)) anything
                       (async_request_refresh e)).
  { apply sat_relax with (Rel := results_apart);
      [exact results_apart_fixed|].
    apply sat_weaken with (PE := nothing); [easy|].
    apply request_refresh_sat. }
  assert (Hsave : sat fixed_at_setup (anything (X := pyval)) anything
                    (_save_preferences_to_db e)).
  { apply sat_relax with (Rel := results_apart);
      [exact results_apart_fixed|].
    intro w. destruct (save_sat e anything w) as [H1 H2].
    split; [exact H1|]. destruct (fst _); exact I || exact H2. }
  unfold async_update_schedule, if_in, set_item, log_custom_schedule.
  repeat first [exact Hrefresh
               |eapply sat_call; exact Hsave
               |sat_step].
Qed.

(** One service call, whatever it is. *)
Lemma perform_fixed (a : action) (w : world coordinator) :
  fixed_at_setup (self w) (self (perform a w)).
Proof.
  destruct a as [e|e data save_to_db|e immediate]; cbn [perform];
    rewrite snd_run.
  - apply results_apart_fixed. apply (force_sat e w).
  - apply (update_fixed e data save_to_db w).
  - apply results_apart_fixed. apply (optimize_sat e immediate nothing w).
Qed.

Lemma perform_all_fixed (actions : list action) (w : world coordinator) :
  fixed_at_setup (self w) (self (perform_all actions w)).
Proof.
  revert w. induction actions as [|a actions IH]; intro w.
  - reflexivity.
  - cbn [perform_all fold_left].
    etransitivity; [apply (perform_fixed a w)|apply IH].
Qed.

(** *** The stored times and the time of the last update *)

Lemma str_prefix_length (n : nat) (s : string) :
  (String.length (str_prefix n s) <= n)%nat.
Proof.
  unfold str_prefix. revert s.
  induction n as [|n IH]; intros [|c s]; cbn; try lia.
  specialize (IH s). lia.
Qed.

Lemma merged_times_short (data : service_data) (cfg : Config) :
  times_short cfg -> times_short (merged_config data cfg).
Proof.
  intros [Haway Hhome]. unfold times_short, merged_config. cbn.
  destruct (d_timeAway data), (d_timeHome data); cbn;
    split; auto using str_prefix_length.
Qed.

(** What one service call does to the preferences and to the time of
    the last update. *)
Lemma perform_config (a : action) (w : world coordinator) :
  (config (self (perform a w)) = config (self w) /\
   _last_update_time (self (perform a w)) = _last_update_time (self w)) \/
  (exists e data,
     config (self (perform a w)) = merged_config data (config (self w)) /\
     _last_update_time (self (perform a w)) = now e /\
     (_last_update_time (self w) + _update_debounce_seconds (self w)
        <= now e)%Q).
Proof.
  destruct a as [e|e data save_to_db|e immediate]; cbn [perform];
    rewrite snd_run.
  - left. destruct (force_sat e w) as [Hrel _].
    cbv [results_apart both same] in Hrel. tauto.
  - destruct (Qlt_bool (now e - _last_update_time (self w))
                (_update_debounce_seconds (self w))) eqn:Hgate.
    + left. rewrite (update_dropped e data save_to_db w Hgate). auto.
    + right. exists e, data.
      destruct (update_admitted e data save_to_db w Hgate)
        as (c & w' & -> & _ & Hlast & _ & Hcfg & _).
      cbn [snd]. split; [exact Hcfg|split; [exact Hlast|]].
      apply Qlt_bool_false in Hgate. lra.
  - left. destruct (optimize_sat e immediate nothing w) as [Hrel _].
    cbv [results_apart both same] in Hrel. tauto.
Qed.

Lemma perform_all_app (actions : list action) (a : action)
  (w : world coordinator) :
  perform_all (actions ++ [a]) w = perform a (perform_all actions w).
Proof. unfold perform_all. now rewrite fold_left_app. Qed.

(** X19.  Through any sequence of service calls (forced
    optimizations, updates of the schedule, optimize-and-save), whatever
    the remote services answer, a coordinator keeps the credentials it
    was set up with, sends the user id as the identifier of the
    preferences, keeps its debounce window at 2 seconds, holds away and
    home times of at most five characters, and has a time of last
    update that is not negative. *)
Theorem X19_session_invariants (data : entry_data)
  (actions : list action) :
  let c := self (perform_all actions {| self := init data; sent := [] |}) in
  user_id c = CONF_USER_ID data /\
  auth_token c = CONF_AUTH_TOKEN data /\
  anonymousId (config c) = CONF_USER_ID data /\
  _update_debounce_seconds c = 2%Q /\
  times_short (config c) /\
  (0 <= _last_update_time c)%Q.
Proof.
  intro c. subst c.
  set (w0 := {| self := init data; sent := [] |}).
  assert (Hinv : times_short (config (self (perform_all actions w0))) /\
                 (0 <= _last_update_time (self (perform_all actions w0)))%Q).
  { induction actions as [|a actions IH] using rev_ind.
    - cbn. split; [split; apply str_prefix_length|lra].
    - rewrite perform_all_app.
      pose proof (perform_all_fixed actions w0) as Hfixed.
      cbv [fixed_at_setup both same] in Hfixed.
      destruct Hfixed as (_ & _ & _ & Hd').
      destruct IH as [Hshort Hlast].
      destruct (perform_config a (perform_all actions w0))
        as [[-> ->]|(e & d & -> & -> & Hle)].
      + split; assumption.
      + split; [now apply merged_times_short|].
        rewrite Hd' in Hle. cbn in Hle. lra. }
  pose proof (perform_all_fixed actions w0) as Hfixed.
  cbv [fixed_at_setup both same] in Hfixed.
  destruct Hfixed as (Hu & Ht & Ha & Hd).
  split; [exact Hu|split; [exact Ht|split; [exact Ha|split; [exact Hd|]]]].
  exact Hinv.
Qed.

(** X20.  The time of the last update never moves back: over any
    sequence of service calls on a coordinator with a debounce window
    of 2 seconds it stays or grows, whatever the clock shows at each
    call, and a single call leaves it as it was or moves it on by 2
    seconds at least. *)
Theorem X20_last_update_moves_forward (actions : list action)
  (w : world coordinator) :
  _update_debounce_seconds (self w) = 2%Q ->
  (_last_update_time (self w)
     <= _last_update_time (self (perform_all actions w)))%Q /\
  (forall a,
     let before := _last_update_time (self (perform_all actions w)) in
     let after := _last_update_time (self (perform a (perform_all actions w))) in
     after = before \/ (before + 2 <= after)%Q).
Proof.
  intro Hwindow.
  assert (Hd : forall l, _update_debounce_seconds (self (perform_all l w))
                         = 2%Q).
  { intro l. pose proof (perform_all_fixed l w) as Hfixed.
    cbv [fixed_at_setup both same] in Hfixed.
    destruct Hfixed as (_ & _ & _ & ->). exact Hwindow. }
  assert (Hstep : forall l a,
            let before := _last_update_time (self (perform_all l w)) in
            let after :=
              _last_update_time (self (perform a (perform_all l w))) in
            after = before \/ (before + 2 <= after)%Q).
  { intros l a before after. subst before after.
    destruct (perform_config a (perform_all l w))
      as [[_ ->]|(e & d & _ & -> & Hle)]; [now left|right].
    rewrite (Hd l) in Hle. exact Hle. }
  split; [|apply Hstep].
  induction actions as [|a actions IH] using rev_ind.
  - cbn. lra.
  - rewrite perform_all_app.
    destruct (Hstep actions a) as [->|Hle]; [exact IH|]. lra.
Qed.

(** One update at time 10 on the coordinator of the worked example. *)
Lemma X20_witness :
  let e := optimizer_gives (NoResponse TimeoutError) 10 in
  (_last_update_time (self stale_coordinator)
     <= _last_update_time
          (self (perform_all [Update e no_data false] stale_coordinator)))%Q.
Proof.
  intro e.
  exact (proj1 (X20_last_update_moves_forward [Update e no_data false]
                  stale_coordinator eq_refl)).
Defined.

End SessionFacts.

(* ----------------------------------------------------------------- *)
(** ** The mode selector *)

Module SelectFacts.

Import Coordinator Spec More CoordinatorFacts CoordinatorMore
  CoordinatorMoreFacts ServiceFacts Select.




End SelectFacts.

(* ----------------------------------------------------------------- *)
(** ** More on the data collector *)

Module CollectorMoreFacts.

Import Collector Spec Session CollectorFacts.

(** One run of the daily summary. *)
Lemma summary_runs (e : env) (w : world DataCollector) :
  let out := run (_send_daily_summary e) w in
  let inputs := user_inputs_today (self w) in
  let pending := pending_readings (self w) in
  (sent (snd out) =
     sent w ++
     (if is_empty pending then []
      else [SensorData (user_id (self w)) pending])
     ++ [DailySummary (user_id (self w)) (yesterday e)
           (Z.of_nat (List.length inputs)) inputs (weather_forecast e)
           (optimization_mode e)] /\
   fst out =
     Ok match summary_reply e with
        | Response status (Ok (PDict d)) =>
            if status =? 200 then dict_get d "thermal_rates" (PDict [])
            else PNone
        | _ => PNone
        end) /\
  user_id (self (snd out)) = user_id (self w) /\
  (pending_readings (self (snd out)) = pending \/
   pending_readings (self (snd out)) = []).
Proof.
  intros out inputs pending. subst out inputs pending.
  unfold _send_daily_summary, flush_pending, _send_sensor_batch.
  unfold_control. destruct w as [[uid pending inputs] log]; simpl.
  destruct pending as [|r rs]; simpl;
    [|destruct (batch_reply e) as [x|bstatus bbody]; simpl;
      [|destruct (bstatus =? 200); simpl]];
    (destruct (summary_reply e) as [x'|status body]; simpl;
     [rewrite <- ?app_assoc; auto|];
     destruct (status =? 200); simpl;
     [|rewrite <- ?app_assoc; destruct body as [[]|]; auto];
     destruct body as [v|x']; simpl;
     [|rewrite <- ?app_assoc; auto];
     destruct v; simpl; rewrite <- ?app_assoc; auto).
Qed.

(** X22.  The daily summary never raises.  It first uploads the pending
    readings, in one batch, when there are any; whether or not that
    upload succeeds, it then sends the summary, as the last request of
    the run, with the logged inputs and their number.  It returns what
    the reply has under [thermal_rates] (the empty mapping when the key
    is missing) when the status is 200 and the body a mapping, and
    [None] otherwise. *)
Theorem X22_daily_summary (e : env) (w : world DataCollector) :
  let out := run (_send_daily_summary e) w in
  let inputs := user_inputs_today (self w) in
  let pending := pending_readings (self w) in
  sent (snd out) =
    sent w ++
    (if is_empty pending then [] else [SensorData (user_id (self w)) pending])
    ++ [DailySummary (user_id (self w)) (yesterday e)
          (Z.of_nat (List.length inputs)) inputs (weather_forecast e)
          (optimization_mode e)] /\
  fst out =
    Ok match summary_reply e with
       | Response status (Ok (PDict d)) =>
           if status =? 200 then dict_get d "thermal_rates" (PDict [])
           else PNone
       | _ => PNone
       end.
Proof. exact (proj1 (summary_runs e w)). Qed.

(** *** Any series of events *)

Lemma operate_all_app (ops : list operation) (op : operation)
  (w : world DataCollector) :
  operate_all (ops ++ [op]) w = operate op (operate_all ops w).
Proof. unfold operate_all. now rewrite fold_left_app. Qed.

(** What one event does. *)
Lemma operate_cases (op : operation) (w : world DataCollector) :
  let w' := operate op w in
  user_id (self w') = user_id (self w) /\
  user_inputs_today (self w') = user_inputs_today (self w) ++ logged [op] /\
  (pending_readings (self w') = pending_readings (self w) ++ sampled [op] \/
   pending_readings (self w') = [] /\ sampled [op] = []) /\
  exists l, sent w' = sent w ++ l /\ Forall (well_formed (user_id (self w))) l.
Proof.
  destruct op as [[reading|]|entry|reply|e]; cbn [operate].
  - destruct w as [[uid pending inputs] log].
    cbn. rewrite app_nil_r. repeat split; auto. exists []. rewrite app_nil_r. auto.
  - destruct w as [[uid pending inputs] log].
    cbn. rewrite !app_nil_r. repeat split; auto. exists []. rewrite app_nil_r. auto.
  - destruct w as [[uid pending inputs] log].
    cbn. rewrite app_nil_r. repeat split; auto. exists []. rewrite app_nil_r. auto.
  - destruct w as [[uid pending inputs] log].
    unfold _send_sensor_batch. unfold_control. cbn.
    destruct pending as [|r rs]; cbn.
    + rewrite !app_nil_r. repeat split; auto. exists []. rewrite app_nil_r. auto.
    + assert (Hbatch : Forall (well_formed uid) [SensorData uid (r :: rs)])
        by (repeat constructor; discriminate).
      destruct reply as [x|status body]; cbn;
        [|destruct (status =? 200); cbn];
        rewrite ?app_nil_r; repeat split; eauto.
  - destruct (summary_runs e w) as ((Hsent & _) & Huid & Hpending).
    pose proof (daily_summary_keeps_inputs e w) as Hinputs.
    cbn [logged sampled flat_map]. rewrite !app_nil_r.
    split; [exact Huid|split; [exact Hinputs|split]].
    + destruct Hpending; auto.
    + eexists. split; [exact Hsent|].
      apply Forall_app. split.
      * destruct (pending_readings (self w)) eqn:E; cbn [is_empty];
          repeat constructor. discriminate.
      * repeat constructor.
Qed.

(** X23.  Through any series of sampling ticks, logged inputs, hourly
    uploads and daily summaries, whatever the store answers: the user id
    stays; the list of logged inputs only grows, by the entries logged,
    in their order (no event empties it); the pending readings are a
    tail of the readings assembled so far, in their order; and every
    request sent is a batch for that user that is not empty or a summary
    for that user whose count is the number of its entries. *)
Theorem X23_collector_session (ops : list operation)
  (w : world DataCollector) :
  let w' := operate_all ops w in
  user_id (self w') = user_id (self w) /\
  user_inputs_today (self w') = user_inputs_today (self w) ++ logged ops /\
  (exists uploaded,
     pending_readings (self w) ++ sampled ops =
       uploaded ++ pending_readings (self w')) /\
  exists l, sent w' = sent w ++ l /\ Forall (well_formed (user_id (self w))) l.
Proof.
  induction ops as [|op ops IH] using rev_ind.
  - cbn. rewrite !app_nil_r. repeat split; auto.
    + exists []. reflexivity.
    + exists []. rewrite app_nil_r. auto.
  - cbn zeta in *. rewrite operate_all_app.
    destruct IH as (Huid & Hinputs & [uploaded Hpending] & l & Hsent & Hl).
    destruct (operate_cases op (operate_all ops w))
      as (Huid' & Hinputs' & Hpending' & l' & Hsent' & Hl').
    unfold logged, sampled in *. rewrite !flat_map_app.
    split; [congruence|].
    split; [rewrite Hinputs', Hinputs; now rewrite app_assoc|].
    split.
    + destruct Hpending' as [->|[-> ->]].
      * exists uploaded. now rewrite !app_assoc, Hpending.
      * exists (uploaded ++ pending_readings (self (operate_all ops w))).
        now rewrite !app_nil_r.
    + exists (l ++ l'). split.
      * rewrite Hsent', Hsent. now rewrite app_assoc.
      * apply Forall_app. split; [exact Hl|]. now rewrite <- Huid.
Qed.

End CollectorMoreFacts.

(* ----------------------------------------------------------------- *)
(** ** An update that is saved *)

Module UpdateFacts.

Import Coordinator Spec More CoordinatorFacts CoordinatorMore
  CoordinatorMoreFacts ServiceFacts SessionFacts.






End UpdateFacts.
